(* ===== verification/_CoqProject ===== *)
-Q . S2P
Prelude.v
Dates.v
Tables.v
Loader.v
DateFilter.v
SortValues.v
GroupBy.v
Extremes.v
Regression.v
Correlation.v
Charts.v
Dashboard.v
