(* ===== verification/Prelude.v ===== *)
(** * Bike-Sharing dashboard: a verification development

  The program is one Streamlit script, [src/dashboard/project_dashboard.py].
  It loads two tables (one row per day, one row per hour), lets the user
  pick a date range in the sidebar, filters both tables to that range and
  renders summary metrics, the day of maximum and of minimum rentals,
  group means by season and by time of day, a correlation heatmap and
  three simple linear regressions.  Streamlit re-runs the whole script
  from the top on every interaction.

  ** How the program's parts interact

  [data load (l.10-15)] -> [sidebar date picker (l.139-151)]
    -> [f_date (l.19-20) on both tables (l.153-154)]
    -> [summary metrics (l.160-172)], [idxmax/idxmin tabs (l.186-244)],
       [f_season_cnt / f_time_cnt (l.39-48, 250-256)],
       [heatmap (l.51-62, 273)], [lr_plot (l.102-136, 283-290)]
    -> the chart renderers (l.23-36, 65-99) and [st.*] page elements.

  ** Files, in dependency order

  - [Prelude] (this file): what every component shares.  Python/numpy
    values are modelled exactly: a numpy [float64] is [flt] (an exact
    rational [Fin q] or [NaN]); integer columns are [Z]; exceptions are
    [exn] and fallible code returns [result], an error monad with stdpp's
    [x ← c; k] notation.  Python's [round] (half to even) is
    [round_half_even], its one-argument form on a float [py_round]
    (raises on NaN), and numpy's [round(x, 2)] is [round_dec].  Sums over
    columns are [Zsum] / [Qsum], means [mean_Z] / [mean_Q]; numpy's
    [int64] is a [Z] kept in [[int64_min, int64_max]] by [int64_wrap]
    (addition modulo [2^64]).
  - [Dates]: [datetime.date] as a record, the proleptic Gregorian
    validity check, the order pandas uses to compare timestamps, and the
    two string conversions the script relies on: [date_str]
    ([str(date)] in [f_date], l.20) and [parse_date] (pandas' ISO parser
    [parse_iso_8601_datetime] under the inferred format [%Y-%m-%d]: an
    optional sign, a four-digit year, a month and a day of one or two
    digits, nothing after; in [to_datetime], l.14-15, and in the
    comparison of l.20), with the set of spellings it accepts; the int64
    [datetime64_ns] that [to_datetime] stores, through Python's
    [toordinal], strictly monotone on valid dates.
  - [Tables]: the rows of both tables ([DayRow], [HourRow]), the
    interface [Dated] that [f_date] asks of a table, and the column
    aggregates of the summary cards; the card sums are numpy's [int64]
    [Series.sum] ([np_sum], wrapping on overflow).
  - [Loader]: the data section (l.9-15): the rows [read_csv] yields with
    [dteday] still a string ([RawDay], [RawHour]), [pd.to_datetime] on
    one cell ([to_datetime]: the [%Y-%m-%d] parse, then pandas'
    [Timestamp] range, an int64 of nanoseconds) and on a column
    ([convert_col], raising at the first bad cell), and [load], which
    converts the day table and then the hour table into [Data].
  - [DateFilter]: [f_date] on any [Dated] table.
  - [SortValues]: pandas' [sort_values] (numpy's argsort on small arrays,
    reversed around for [ascending=False]) and the reference stable sort it
    implements; numpy's in-place insertion sort itself, its outer [for]
    and inner [while] loops over an array updated by index
    ([np_outer], [np_shift], with fuel).
  - [GroupBy]: [groupby(...).agg(mean)] over any key with a total order
    (interface [GroupKey], instances for the integer season code and the
    string time-of-day label) and [f_season_cnt] / [f_time_cnt].
  - [Extremes]: [idxmax] / [idxmin] and the label dictionaries
    [season_dict] / [cuaca_dict] ([dict.get] with default).
  - [Regression]: [LinearRegression().fit], [score] (scikit-learn's
    [r2_score] with its degenerate-case policy) and [np.linspace], and the
    data [lr_plot] draws.
  - [Correlation]: [plot_heatmap_corr]'s [df.corr()] on the four renamed
    columns: pandas' Pearson kernel over the centred sums of [Regression],
    with the square root kept symbolic ([CorrVal num den2] stands for
    [num / sqrt den2]) and NaN on a zero divisor.
  - [Charts]: the data of the figures: [plot_bike_rental]'s three series
    (sorted on the [datetime64] key), the rounded and relabelled tables of
    l.249-256, and the bars and texts of [plot_season_cnt] /
    [plot_time_cnt] (matplotlib's category axis, [barh]'s geometry, the
    axis flags).
  - [Dashboard]: the script's top level: the page elements ([Elem]) in
    the order the [st.*] calls emit them, through a writer/error monad
    [M] (a run stops at its first exception and keeps what it drew), the
    sidebar's [st.date_input] value ([Selection], with the half-picked
    one-date state) and its default [[min_date, max_date]]
    ([date_bounds]), the three blocks of the main board, and [run], which
    composes [load] with the page as each rerun of the script does.  The
    script keeps no state between reruns, so Streamlit's rerun loop is
    the sequence of [run]s on the values the user picks; no step relation
    is needed beyond that.

  ** Plan (later sittings extend along it)

  1. core computations: date filter, summary metrics, sort and group-by
     means, extremes, regression (done);
  2. [Correlation]: pandas' [DataFrame.corr] (Pearson) with symmetry, unit
     diagonal and the Cauchy-Schwarz bound [|r| <= 1] (done);
  3. [Charts]: the renderers as data (series, bars, labels) (done; the
     heatmap's and the regression plot's data are in [Correlation] and
     [Regression]);
  4. [Dashboard]: the whole script as a writer/error computation emitting
     page elements in order; each rerun is a function of the current
     widget value only (done).
  5. [Loader]: [pd.to_datetime] with its parse and range errors, [load]
     and its composition [run] with the page; numpy's [int64] sums with
     their wrap-around; numpy's insertion-sort loops and their
     termination (done);
  6. pandas' ISO date parser with its exact language of spellings, and
     the [Timestamp] range as a date interval (done).
  Further work: floating-point rounding of the float64 columns.

  ** What the theorems show (groups)

  - filter: exact membership, sublist of the source, empty on an empty
    range; the string round trip [parse_date (date_str d) = Some d] that
    the comparison relies on, and the exact set of strings pandas reads as
    a given date ([str(date)] and the forms without a leading zero);
  - loading: [to_datetime] accepts exactly the spellings of the dates
    from 1677-09-22 to 2262-04-11; a loaded table is the CSV rows with
    each date string replaced by its parse, a valid date in pandas' range
    (the types the rest of the script relies on); loading raises exactly
    the error of the first bad cell, day table first; a run on the CSV
    spelling of a dataset draws the page of that dataset;
  - aggregates: [sum casual + sum registered = sum cnt] modulo [2^64]
    under the row invariant, and exactly when the total fits in an int64
    (no overflow); below [2^64] the Total card is negative exactly when
    the total overflowed; rounding bounds and the half-to-even tie rule;
  - sorting: the model of [sort_values] is a stable sort (equivalence
    with the reference specification, which determines its output), and
    numpy's loops terminate within their fuel with that output;
  - group-by: keys strictly ascending, exactly the keys present, and the
    size-weighted group means reproduce the overall sum;
  - extremes: [idxmax] returns a row of the table, maximal, and the first
    such; it raises on an empty table;
  - regression: exact recovery of a noiseless line, the normal equations,
    optimality of the fit among all lines, [0 <= R^2 <= 1], the
    zero-residual policy of [r2_score] on a constant count, and
    [linspace]'s end points;
  - correlation: the matrix is symmetric, its diagonal is 1 except on a
    column constant over the range (NaN there, not the 1.0 the spec
    announces), and every entry lies in [-1, 1] (Cauchy-Schwarz);
  - charts: the trend series are the rows in strictly increasing date
    order with Total = Casual + Registered point by point, and any
    date-sorted order gives the same chart (so numpy's choice of
    algorithm does not matter); the bar charts have one bar per group,
    bottom to top by increasing rounded mean, each text at its bar's end
    showing its length exactly;
  - page: the page is complete exactly when the range holds a day; an
    empty range shows the title and the first metric and stops with
    round's ValueError; a half-picked range stops after the sidebar; the
    first run of a session, on the picker's default range, keeps every
    day and draws the complete page.

  ** Not modelled, and why

  The network fetch of the CSV files and the tokenising of their text are
  I/O and library code: [load] starts from the rows [read_csv] returns,
  with the date column as strings, and [to_datetime] uses the
  [%Y-%m-%d] format pandas infers from the shipped data (other inferred
  formats, the [NaT] spellings such as ["NaT"] or an empty cell, and
  ["now"] / ["today"] are not modelled; the error messages are
  indicative).  The decorative image is I/O;
  matplotlib/seaborn drawing, colours and sizes carry no computed data;
  floating-point rounding error is not modelled (numbers are exact
  rationals), so theorems hold of the mathematical values the code
  approximates; in particular [fit]'s minimum-norm slope [0] on a
  constant covariate cannot be told from [Sxy / Sxx], a division by zero
  being [0] in [Q], so no theorem is claimed about it.  numpy's argsort
  is modelled on its portable path for arrays of at most 16 elements
  (insertion sort), which covers the four seasons and the time-of-day
  buckets; x86 builds that dispatch argsort to numpy's SIMD sorts
  (AVX-512, and AVX2 in recent numpy) are not stable, and there the tie
  order of C8 and C12 is not guaranteed; the date sort of the trend chart
  runs on longer tables, where numpy uses introsort, and its result is
  proved independent of the algorithm because the dates are distinct.
  Streamlit itself is modelled by what the script observes of it: the
  order of the page elements, the stop at the first exception, and the
  rerun of the whole script on each change of the date picker; on an empty day table the
  picker's [NaT] bounds are modelled as a [ValueError] (the shipped
  dataset is not empty).  Only numpy's insertion sort uses fuel: the
  outer loop gets [1 + length l] steps (one per index from 1, and one to
  see the loop end) and the inner loop at index [i] gets [i + 1] (one per
  sorted element it may pass, and one to place the element); C9 proves
  this is enough on every array.  Every other recursion is structural.
*)

From Stdlib Require Export QArith Qround Qminmax Lqa Psatz Ascii Sorted.
From stdpp Require Export base list numbers strings gmap sorting.

Declare Scope bike_scope.
Delimit Scope bike_scope with bike.
Open Scope Z_scope.

(** ** Python values *)

(** A numpy [float64], without rounding error: a finite rational or NaN. *)
Inductive flt : Type :=
| Fin (q : Q)
| NaN.

(** The Python exceptions the script can raise. *)
Inductive exn : Type :=
| ValueError (msg : string)
| KeyError (msg : string)
| TypeError (msg : string).

(** Fallible Python code: a value or the exception it raises. *)
Inductive result (A : Type) : Type :=
| Ok (a : A)
| Err (e : exn).
Arguments Ok {A} a.
Arguments Err {A} e.

#[export] Instance result_ret : MRet result := λ A a, Ok a.
#[export] Instance result_bind : MBind result :=
  λ A B f c, match c with Ok a => f a | Err e => Err e end.
#[export] Instance result_fmap : FMap result :=
  λ A B f c, match c with Ok a => Ok (f a) | Err e => Err e end.

#[export] Instance Q_eq_decision : EqDecision Q.
Proof. solve_decision. Defined.
#[export] Instance Qeq_decision : RelDecision Qeq := Qeq_dec.
#[export] Instance Qle_decision : RelDecision Qle.
Proof. intros x y. destruct (Qlt_le_dec y x); [right; lra | left; done]. Defined.
#[export] Instance Qlt_decision : RelDecision Qlt.
Proof. intros x y. destruct (Qlt_le_dec x y); [left; done | right; lra]. Defined.

(** ** Sums over columns *)

Definition Zsum (l : list Z) : Z := foldr Z.add 0 l.
Definition Qsum (l : list Q) : Q := foldr Qplus 0%Q l.

Notation "'Σz' l" := (Zsum l) (at level 35) : bike_scope.
Notation "'Σq' l" := (Qsum l) (at level 35) : bike_scope.
Notation "⌜ z ⌝" := (inject_Z z) (at level 0, format "⌜ z ⌝") : bike_scope.
Open Scope bike_scope.

(** The mean pandas computes ([Series.mean]): NaN on an empty column. *)
Definition mean_Q (l : list Q) : flt :=
  match l with
  | [] => NaN
  | _ => Fin (Qsum l / inject_Z (Z.of_nat (length l)))
  end.

(** The mean of an integer column: its (exact) sum over its length. *)
Definition mean_Z (l : list Z) : flt :=
  match l with
  | [] => NaN
  | _ => Fin (inject_Z (Zsum l) / inject_Z (Z.of_nat (length l)))
  end.

(** Two float values denote the same number (NaN only matches NaN). *)
Definition flt_equiv (x y : flt) : Prop :=
  match x, y with
  | Fin a, Fin b => (a == b)%Q
  | NaN, NaN => True
  | _, _ => False
  end.
Infix "≡f" := flt_equiv (at level 70) : bike_scope.

(** ** Python's [round]: half to even *)

Definition round_half_even (q : Q) : Z :=
  let f := Qfloor q in
  match Qcompare (q - inject_Z f) (1 # 2) with
  | Lt => f
  | Gt => f + 1
  | Eq => if Z.even f then f else f + 1
  end.

(** [round(x)] on a numpy float returns a Python [int]; on NaN it raises. *)
Definition py_round (x : flt) : result Z :=
  match x with
  | Fin q => Ok (round_half_even q)
  | NaN => Err (ValueError "cannot convert float NaN to integer")
  end.

(** numpy's [round(x, d)]: scale by [10^d], round half to even, scale back. *)
Definition round_dec (d : nat) (q : Q) : Q :=
  inject_Z (round_half_even (q * inject_Z (10 ^ Z.of_nat d))) / inject_Z (10 ^ Z.of_nat d).

(** ** numpy's [int64]

  An [int64] value is a [Z] in [[int64_min, int64_max]]; numpy's integer
  arithmetic wraps around modulo [2^64] without raising. *)

Definition int64_min : Z := - 2 ^ 63.
Definition int64_max : Z := 2 ^ 63 - 1.

Definition int64_wrap (z : Z) : Z := (z + 2 ^ 63) mod 2 ^ 64 - 2 ^ 63.

(** ** Generic lemmas *)

#[export] Instance flt_equiv_Equivalence : Equivalence flt_equiv.
Proof.
  split.
  - intros [q|]; simpl; [reflexivity|done].
  - intros [q|] [r|]; simpl; done || (intros; symmetry; done).
  - intros [q|] [r|] [t|]; simpl; try done. intros H1 H2. rewrite H1. done.
Qed.

#[export] Instance Fin_proper : Proper (Qeq ==> flt_equiv) Fin.
Proof. intros a b H. exact H. Qed.

#[export] Instance py_round_proper : Proper (flt_equiv ==> eq) py_round.
Proof.
  intros [a|] [b|]; simpl; try done. intros H. f_equal.
  unfold round_half_even. cbn zeta.
  assert (Qfloor a = Qfloor b) as ->.
  { apply Z.le_antisymm; apply Qfloor_resp_le; lra. }
  replace (a - inject_Z (Qfloor b) ?= 1 # 2)%Q with (b - inject_Z (Qfloor b) ?= 1 # 2)%Q;
    [reflexivity|apply Qcompare_comp; lra].
Qed.

Create HintDb bike discriminated.
Create Rewrite HintDb bike_sums.

Lemma inject_Z_sub (x y : Z) : inject_Z (x - y) = (inject_Z x - inject_Z y)%Q.
Proof. unfold Z.sub, Qminus. rewrite inject_Z_plus, inject_Z_opp. reflexivity. Qed.

Create Rewrite HintDb qify.
#[export] Hint Rewrite inject_Z_plus inject_Z_sub inject_Z_mult inject_Z_opp : qify.

(** Push [inject_Z] through integer arithmetic. *)
Ltac qify := autorewrite with qify in *.

Lemma Zsum_app l1 l2 : Zsum (l1 ++ l2) = Zsum l1 + Zsum l2.
Proof. induction l1; simpl; [done | unfold Zsum in *; simpl; lia]. Qed.

Lemma Qsum_app l1 l2 : (Qsum (l1 ++ l2) == Qsum l1 + Qsum l2)%Q.
Proof.
  induction l1 as [|x l IH]; simpl; [unfold Qsum; simpl; ring|].
  unfold Qsum in *; simpl. rewrite IH. ring.
Qed.

Lemma Zsum_map_add {A} (f g : A → Z) (l : list A) :
  Zsum (map (λ x, f x + g x) l) = Zsum (map f l) + Zsum (map g l).
Proof. induction l; unfold Zsum in *; simpl; lia. Qed.

Lemma Zsum_map_zero {A} (f : A → Z) (l : list A) :
  Forall (λ x, f x = 0) l → Zsum (map f l) = 0.
Proof. induction 1; unfold Zsum in *; simpl; lia. Qed.

Lemma Qsum_inject_Z (l : list Z) : (Qsum (map inject_Z l) == inject_Z (Zsum l))%Q.
Proof.
  induction l as [|x l IH]; [reflexivity|].
  unfold Qsum, Zsum in *; simpl. rewrite IH, inject_Z_plus. reflexivity.
Qed.

Lemma Qsum_map_ext {A} (f g : A → Q) (l : list A) :
  (∀ x, x ∈ l → f x == g x)%Q → (Qsum (map f l) == Qsum (map g l))%Q.
Proof.
  induction l as [|x l IH]; intros H; [reflexivity|].
  unfold Qsum in *; simpl. rewrite (H x), IH; [reflexivity| |]; set_solver.
Qed.

Lemma Qsum_map_add {A} (f g : A → Q) (l : list A) :
  (Qsum (map (λ x, f x + g x) l) == Qsum (map f l) + Qsum (map g l))%Q.
Proof.
  induction l as [|x l IH]; unfold Qsum in *; simpl; [ring|]. rewrite IH. ring.
Qed.

Lemma Qsum_map_scale {A} (c : Q) (f : A → Q) (l : list A) :
  (Qsum (map (λ x, c * f x) l) == c * Qsum (map f l))%Q.
Proof.
  induction l as [|x l IH]; unfold Qsum in *; simpl; [ring|]. rewrite IH. ring.
Qed.

Lemma Qsum_map_const {A} (c : Q) (l : list A) :
  (Qsum (map (λ _, c) l) == c * inject_Z (Z.of_nat (length l)))%Q.
Proof.
  induction l as [|x l IH]; unfold Qsum in *; simpl; [ring|].
  rewrite IH, Nat2Z.inj_succ, <- Z.add_1_r, inject_Z_plus. ring.
Qed.

Lemma Qsum_nonneg (l : list Q) : Forall (λ q, 0 <= q)%Q l → (0 <= Qsum l)%Q.
Proof.
  induction 1 as [|x l Hx _ IH]; unfold Qsum in *; simpl; [discriminate|lra].
Qed.

Lemma rev_reverse {A} (l : list A) : rev l = reverse l.
Proof. apply rev_alt. Qed.

Lemma StronglySorted_map {A B} (f : A → B) (R1 : relation A) (R2 : relation B) l :
  (∀ x y, R1 x y → R2 (f x) (f y)) → StronglySorted R1 l → StronglySorted R2 (map f l).
Proof.
  intros HR. induction 1 as [|x l _ IH Hf]; simpl; constructor; [done|].
  apply Forall_forall. intros y Hy. apply list_elem_of_In, in_map_iff in Hy as (z & <- & Hz).
  apply HR. rewrite Forall_forall in Hf. apply Hf. by apply list_elem_of_In.
Qed.

Section filter_lemmas.
Context {A : Type} (P : A → Prop) `{∀ x, Decision (P x)}.

Lemma filter_Forall_id (l : list A) : Forall P l → filter P l = l.
Proof.
  induction 1 as [|x l Hx _ IH]; [done|]. rewrite filter_cons_True by done. by f_equal.
Qed.

Lemma filter_Forall_nil (l : list A) : Forall (λ x, ¬ P x) l → filter P l = [].
Proof.
  induction 1 as [|x l Hx _ IH]; [done|]. by rewrite filter_cons_False.
Qed.
Lemma Forall_filter_sub (Q : A → Prop) (l : list A) : Forall Q l → Forall Q (filter P l).
Proof.
  rewrite !Forall_forall. intros HQ x Hx. apply list_elem_of_filter in Hx as [_ Hx]. by apply HQ.
Qed.
End filter_lemmas.

Section sorted_lemmas.
Context {A : Type}.

Lemma NoDup_map_in_inj {B} (f : A → B) (l : list A) a b :
  NoDup (map f l) → a ∈ l → b ∈ l → f a = f b → a = b.
Proof.
  intros Hnd Ha Hb E.
  apply list_elem_of_lookup in Ha as [i Hi], Hb as [j Hj].
  assert (i = j) as <-.
  { apply (NoDup_lookup (map f l) i j (f a) Hnd).
    - by rewrite list_lookup_fmap, Hi.
    - by rewrite list_lookup_fmap, Hj, E. }
  congruence.
Qed.

(** Weakening a sortedness relation on the elements of the list only. *)
Lemma Sorted_weaken_in (R T : A → A → Prop) (l : list A) :
  (∀ a b, a ∈ l → b ∈ l → R a b → T a b) → Sorted R l → Sorted T l.
Proof.
  intros HRT Hs. induction Hs as [|a l Hs IH Hhd]; constructor.
  - apply IH. intros x y ??. apply HRT; by right.
  - destruct Hhd as [|b l' Hab]; constructor. apply HRT; [left|right; left|done].
Qed.

(** A strongly sorted list without duplicates is strongly sorted along any
    relation that [R] implies on distinct elements of the list. *)
Lemma StronglySorted_strict (R T : A → A → Prop) (l : list A) :
  (∀ a b, a ∈ l → b ∈ l → a ≠ b → R a b → T a b) → NoDup l →
  StronglySorted R l → StronglySorted T l.
Proof.
  intros HRT Hnd Hs. induction Hs as [|a l Hs IH Hf]; constructor.
  - apply IH; [|by apply NoDup_cons in Hnd as [_ ?]]. intros x y ???. apply HRT; [by right|by right|done].
  - apply NoDup_cons in Hnd as [Ha _]. rewrite Forall_forall in Hf |- *.
    intros b Hb. apply HRT; [left|by right| |by apply Hf]. intros ->. done.
Qed.
Lemma Sorted_map_iff {B} (R : B → B → Prop) (f : A → B) (l : list A) :
  Sorted R (map f l) ↔ Sorted (λ x y, R (f x) (f y)) l.
Proof.
  induction l as [|a l IH]; simpl; [split; constructor|].
  split; intros Hs; apply Sorted_inv in Hs as [Hs Hh]; constructor; try by apply IH.
  - destruct l; constructor. by inversion Hh.
  - destruct l; constructor. by inversion Hh.
Qed.
End sorted_lemmas.

#[export] Hint Rewrite Qsum_app @Qsum_map_add @Qsum_map_scale @Qsum_map_const : bike_sums.
#[export] Hint Rewrite Zsum_app @Zsum_map_add : bike_sums.

(** Every value of the floor lies within one unit below [q]. *)
Lemma Qfloor_bounds (q : Q) :
  (inject_Z (Qfloor q) <= q)%Q ∧ (q < inject_Z (Qfloor q + 1))%Q.
Proof. split; [apply Qfloor_le | apply Qlt_floor]. Qed.

Lemma round_half_even_cases (q : Q) :
  let f := Qfloor q in
  (round_half_even q = f ∧ (q - inject_Z f <= 1 # 2)%Q) ∨
  (round_half_even q = f + 1 ∧ (1 # 2 <= q - inject_Z f)%Q).
Proof.
  cbn zeta. unfold round_half_even.
  destruct (Qcompare_spec (q - inject_Z (Qfloor q)) (1 # 2)) as [H|H|H].
  - destruct (Z.even (Qfloor q)); [left|right]; split; auto; lra.
  - left. split; auto. lra.
  - right. split; auto. lra.
Qed.

Ltac Qfloor_facts q :=
  let H := fresh "Hfl" in
  pose proof (Qfloor_bounds q) as H;
  rewrite inject_Z_plus in H; change (inject_Z 1) with 1%Q in H.

Lemma Qfloor_unique (z : Z) (q : Q) :
  (inject_Z z <= q)%Q → (q < inject_Z z + 1)%Q → Qfloor q = z.
Proof.
  intros H1 H2. Qfloor_facts q.
  assert (Qfloor q < z + 1).
  { rewrite Zlt_Qlt, inject_Z_plus. change (inject_Z 1) with 1%Q. lra. }
  assert (z < Qfloor q + 1).
  { rewrite Zlt_Qlt, inject_Z_plus. change (inject_Z 1) with 1%Q. lra. }
  lia.
Qed.

#[export] Instance Qfloor_proper : Proper (Qeq ==> eq) Qfloor.
Proof.
  intros x y H. apply Z.le_antisymm; apply Qfloor_resp_le; lra.
Qed.

#[export] Instance round_half_even_proper : Proper (Qeq ==> eq) round_half_even.
Proof.
  intros x y H. unfold round_half_even. cbn zeta. rewrite (Qfloor_proper x y H).
  replace (x - inject_Z (Qfloor y) ?= 1 # 2)%Q with (y - inject_Z (Qfloor y) ?= 1 # 2)%Q;
    [reflexivity|apply Qcompare_comp; lra].
Qed.

(** Python's [round] lands within one half of its argument. *)
Lemma round_half_even_bound (q : Q) :
  (inject_Z (round_half_even q) - (1 # 2) <= q)%Q ∧
  (q <= inject_Z (round_half_even q) + (1 # 2))%Q.
Proof.
  Qfloor_facts q.
  destruct (round_half_even_cases q) as [[-> H]|[-> H]];
    rewrite ?inject_Z_plus; change (inject_Z 1) with 1%Q; lra.
Qed.

Lemma round_half_even_Z (z : Z) : round_half_even (inject_Z z) = z.
Proof.
  unfold round_half_even. rewrite Qfloor_Z.
  destruct (Qcompare_spec (inject_Z z - inject_Z z) (1 # 2)); [lra| |lra]. done.
Qed.

(** Rounding an integer to two decimals gives it back. *)
Lemma round_dec_Z (d : nat) (z : Z) : (round_dec d (inject_Z z) == inject_Z z)%Q.
Proof.
  unfold round_dec. rewrite <- inject_Z_mult, round_half_even_Z, inject_Z_mult.
  assert (0 < 10 ^ Z.of_nat d) by (apply Z.pow_pos_nonneg; lia).
  field. change 0%Q with (inject_Z 0). rewrite inject_Z_injective. lia.
Qed.

(** Ties go to the even neighbour. *)
Lemma round_half_even_tie (z : Z) :
  Z.even (round_half_even (inject_Z z + (1 # 2))) = true.
Proof.
  unfold round_half_even.
  rewrite (Qfloor_unique z); [|lra|lra].
  destruct (Qcompare_spec (inject_Z z + (1 # 2) - inject_Z z) (1 # 2)); [|lra|lra].
  destruct (Z.even z) eqn:E; [done|]. rewrite Z.even_add, E. done.
Qed.

Lemma round_half_even_mono (q1 q2 : Q) :
  (q1 <= q2)%Q → round_half_even q1 <= round_half_even q2.
Proof.
  intros Hle. destruct (Qeq_dec q1 q2) as [->|Hne]; [lia|].
  assert (Hlt : (q1 < q2)%Q) by (apply Qle_lt_or_eq in Hle as [?|?]; tauto).
  pose proof (Qfloor_resp_le _ _ Hle) as Hf.
  Qfloor_facts q1. Qfloor_facts q2.
  destruct (Z.le_gt_cases (Qfloor q2) (Qfloor q1)) as [Hf'|Hf'].
  - assert (Qfloor q1 = Qfloor q2) as Heq by lia.
    destruct (round_half_even_cases q1) as [[-> H1]|[-> H1]];
      destruct (round_half_even_cases q2) as [[-> H2]|[-> H2]]; try lia.
    rewrite Heq in H1. lra.
  - destruct (round_half_even_cases q1) as [[-> _]|[-> _]];
      destruct (round_half_even_cases q2) as [[-> _]|[-> _]]; lia.
Qed.

(** ** Lemmas on [int64] *)

Lemma int64_wrap_small z : int64_min <= z <= int64_max → int64_wrap z = z.
Proof.
  unfold int64_wrap, int64_min, int64_max. intros Hz.
  rewrite Z.mod_small by lia. lia.
Qed.

Lemma int64_wrap_range z : int64_min <= int64_wrap z <= int64_max.
Proof.
  unfold int64_wrap, int64_min, int64_max.
  pose proof (Z.mod_pos_bound (z + 2 ^ 63) (2 ^ 64) ltac:(lia)). lia.
Qed.

Lemma int64_wrap_add_l a b : int64_wrap (int64_wrap a + b) = int64_wrap (a + b).
Proof.
  unfold int64_wrap. f_equal.
  replace ((a + 2 ^ 63) mod 2 ^ 64 - 2 ^ 63 + b + 2 ^ 63) with ((a + 2 ^ 63) mod 2 ^ 64 + b) by lia.
  rewrite Zplus_mod_idemp_l. f_equal. lia.
Qed.

Lemma int64_wrap_add a b : int64_wrap (int64_wrap a + int64_wrap b) = int64_wrap (a + b).
Proof.
  rewrite int64_wrap_add_l, Z.add_comm, int64_wrap_add_l, Z.add_comm. reflexivity.
Qed.

#[export] Hint Rewrite int64_wrap_add_l int64_wrap_add : bike_sums.

(** On [[0, 2^64)] the wrapped value is negative exactly above [int64_max]. *)
Lemma int64_wrap_neg z : 0 <= z < 2 ^ 64 → int64_wrap z < 0 ↔ int64_max < z.
Proof.
  unfold int64_wrap, int64_max. intros Hz. destruct (Z.lt_ge_cases z (2 ^ 63)).
  - rewrite Z.mod_small by lia. lia.
  - replace ((z + 2 ^ 63) mod 2 ^ 64) with (z + 2 ^ 63 - 2 ^ 64)
      by (apply (Z.mod_unique _ _ 1); lia). lia.
Qed.
