(* ===== verification/Dates.v ===== *)
(** * Dates: [datetime.date], its order, [str(date)] and pandas' ISO parse

  [f_date] (l.19-20) compares the parsed [dteday] column (l.14-15,
  [pd.to_datetime]) with [str(start_date)] and [str(end_date)], which
  pandas parses back into timestamps.  This file models the date value
  ([date], Python's [_check_date_fields] as [valid_date]), the order of
  [(year, month, day)] that Python and pandas compare dates by, the
  formatter [date_str] ([date.isoformat], ["%04d-%02d-%02d"]) and the
  parser [parse_date] (pandas' [parse_iso_8601_datetime] under the format
  [%Y-%m-%d], which also reads a month or day without its leading zero),
  and proves the round trip between the two and the exact set of
  spellings the parser reads as a date ([date_spellings]). *)

From S2P Require Import Prelude.

Module Date.

Record date := mkDate { year : Z; month : Z; day : Z }.

#[export] Instance date_eq_dec : EqDecision date.
Proof. solve_decision. Defined.

(** [calendar._is_leap] *)
Definition is_leap (y : Z) : bool :=
  (y mod 4 =? 0) && (negb (y mod 100 =? 0) || (y mod 400 =? 0)).

(** [datetime._days_in_month] with its table [_DAYS_IN_MONTH]. *)
Definition days_in_month (y m : Z) : Z :=
  if (m =? 2) && is_leap y then 29
  else nth (Z.to_nat m) [-1; 31; 28; 31; 30; 31; 30; 31; 31; 30; 31; 30; 31] (-1).

(** [datetime._check_date_fields]: [MINYEAR = 1], [MAXYEAR = 9999]. *)
Definition valid_date (d : date) : bool :=
  (1 <=? year d) && (year d <=? 9999) && (1 <=? month d) && (month d <=? 12)
  && (1 <=? day d) && (day d <=? days_in_month (year d) (month d)).

(** Dates compare as the tuple [(year, month, day)]. *)
Definition date_compare (d1 d2 : date) : comparison :=
  match Z.compare (year d1) (year d2) with
  | Eq => match Z.compare (month d1) (month d2) with
          | Eq => Z.compare (day d1) (day d2)
          | c => c
          end
  | c => c
  end.

Definition date_leb (d1 d2 : date) : bool :=
  match date_compare d1 d2 with Gt => false | _ => true end.

Definition date_le (d1 d2 : date) : Prop := date_leb d1 d2 = true.

#[export] Instance date_le_dec : RelDecision date_le.
Proof. intros d1 d2. unfold date_le. apply _. Defined.

(** ** The value [pd.to_datetime] stores (l.14-15)

  A [datetime64[ns]] column holds, for each date, the nanoseconds since
  1970-01-01 as an int64; [sort_values('dteday')] (l.28) sorts on it.  The
  day count is Python's proleptic Gregorian ordinal ([date.toordinal],
  with [_days_before_year] and [_days_before_month]). *)

Definition days_before_year (y : Z) : Z :=
  let y' := y - 1 in y' * 365 + y' / 4 - y' / 100 + y' / 400.

Definition days_before_month (y m : Z) : Z :=
  nth (Z.to_nat m) [-1; 0; 31; 59; 90; 120; 151; 181; 212; 243; 273; 304; 334] (-1)
  + (if (2 <? m) && is_leap y then 1 else 0).

Definition toordinal (d : date) : Z :=
  days_before_year (year d) + days_before_month (year d) (month d) + day d.

(** [date(1970, 1, 1).toordinal()] *)
Definition epoch_ordinal : Z := 719163.
Definition ns_per_day : Z := 86400 * 1000000000.

Definition datetime64_ns (d : date) : Z := (toordinal d - epoch_ordinal) * ns_per_day.

(** ** [str(date)] *)

Definition digit (n : Z) : ascii := ascii_of_nat (48 + Z.to_nat n).

Definition pad2 (n : Z) : string :=
  String (digit (n / 10)) (String (digit (n mod 10)) EmptyString).

Definition pad4 (n : Z) : string :=
  String (digit (n / 1000)) (String (digit ((n / 100) mod 10))
    (String (digit ((n / 10) mod 10)) (String (digit (n mod 10)) EmptyString))).

(** [date.isoformat], which [date.__str__] returns. *)
Definition date_str (d : date) : string :=
  pad4 (year d) +:+ String "-" (pad2 (month d)) +:+ String "-" (pad2 (day d)).

(** ** pandas' ISO parse *)

Definition digit_val (c : ascii) : option Z :=
  let n := nat_of_ascii c in
  if (48 <=? n)%nat && (n <=? 57)%nat then Some (Z.of_nat n - 48) else None.

(** pandas' [parse_iso_8601_datetime] (np_datetime_strings.c) under the
    format [%Y-%m-%d] that [to_datetime] infers from the column, with an
    exact match: an optional leading [-] negates the year; the year is four
    digits, and when fewer digits are there it is [0] and nothing is
    consumed; month and day each take one digit, and a second one when a
    digit follows; each separator is [-], and the string ends after the
    day.  Only the month range and the day of month are checked here
    ([days_per_month_table] with [is_leapyear]); the year is bounded later
    by [to_datetime]'s range check.  A failure is [None] (pandas raises a
    [ValueError]). *)
Definition parse_sign (s : string) : bool * string :=
  match s with
  | String c rest => if decide (c = "-"%char) then (true, rest) else (false, s)
  | EmptyString => (false, s)
  end.

Definition parse_year (s : string) : Z * string :=
  match s with
  | String y1 (String y2 (String y3 (String y4 rest))) =>
      match digit_val y1, digit_val y2, digit_val y3, digit_val y4 with
      | Some a, Some b, Some c, Some e => (1000 * a + 100 * b + 10 * c + e, rest)
      | _, _, _, _ => (0, s)
      end
  | _ => (0, s)
  end.

Definition parse_sep (s : string) : option string :=
  match s with
  | String c rest => if decide (c = "-"%char) then Some rest else None
  | EmptyString => None
  end.

(** A month or day field: a first digit, and a second if one follows. *)
Definition parse_field (s : string) : option (Z * string) :=
  match s with
  | String c1 rest =>
      n1 ← digit_val c1;
      match rest with
      | String c2 rest' =>
          match digit_val c2 with
          | Some n2 => Some (10 * n1 + n2, rest')
          | None => Some (n1, rest)
          end
      | EmptyString => Some (n1, EmptyString)
      end
  | EmptyString => None
  end.

(** The month and day checks of the parser. *)
Definition valid_md (d : date) : bool :=
  (1 <=? month d) && (month d <=? 12) && (1 <=? day d) && (day d <=? days_in_month (year d) (month d)).

Definition parse_date (s : string) : option date :=
  let '(neg, s1) := parse_sign s in
  let '(y, s2) := parse_year s1 in
  s3 ← parse_sep s2;
  '(m, s4) ← parse_field s3;
  s5 ← parse_sep s4;
  '(dd, s6) ← parse_field s5;
  if decide (s6 = EmptyString) then
    let d := mkDate (if neg then - y else y) m dd in
    if valid_md d then Some d else None
  else None.

(** The spellings of a date with a year of four digits: its [str], and the
    forms without the leading zero of a month or day below ten. *)
Definition pad1 (n : Z) : string := String (digit n) EmptyString.

Definition field_spellings (n : Z) : list string :=
  if n <? 10 then [pad2 n; pad1 n] else [pad2 n].

Definition date_spellings (d : date) : list string :=
  sm ← field_spellings (month d); sd ← field_spellings (day d);
  [pad4 (year d) +:+ String "-" sm +:+ String "-" sd].

(** ** Lemmas *)

Lemma valid_date_ranges d :
  valid_date d = true →
  1 <= year d <= 9999 ∧ 1 <= month d <= 12 ∧ 1 <= day d <= 31.
Proof.
  unfold valid_date, days_in_month. intros H.
  repeat (apply andb_prop in H as [H ?]). rewrite ?Z.leb_le in *.
  assert (month d = 1 ∨ month d = 2 ∨ month d = 3 ∨ month d = 4 ∨ month d = 5 ∨
          month d = 6 ∨ month d = 7 ∨ month d = 8 ∨ month d = 9 ∨ month d = 10 ∨
          month d = 11 ∨ month d = 12) as Hm by lia.
  repeat split; try lia.
  destruct_or! Hm; rewrite Hm in *; simpl in *;
    repeat match goal with _ : context [if ?b then _ else _] |- _ => destruct b end; lia.
Qed.

Lemma digit_val_digit (n : Z) : 0 <= n <= 9 → digit_val (digit n) = Some n.
Proof.
  intros H.
  assert (n = 0 ∨ n = 1 ∨ n = 2 ∨ n = 3 ∨ n = 4 ∨ n = 5 ∨ n = 6 ∨ n = 7 ∨ n = 8 ∨ n = 9)
    as Hn by lia.
  destruct_or! Hn; subst n; reflexivity.
Qed.


#[export] Hint Resolve digit_val_digit : bike.

Lemma date_compare_refl d : date_compare d d = Eq.
Proof. unfold date_compare. rewrite !Z.compare_refl. done. Qed.

Lemma date_compare_eq d1 d2 : date_compare d1 d2 = Eq ↔ d1 = d2.
Proof.
  split; [|intros ->; apply date_compare_refl].
  destruct d1 as [y1 m1 a1], d2 as [y2 m2 a2]. unfold date_compare; simpl.
  destruct (Z.compare_spec y1 y2), (Z.compare_spec m1 m2), (Z.compare_spec a1 a2);
    intros; subst; done.
Qed.

Lemma date_compare_antisym d1 d2 : date_compare d2 d1 = CompOpp (date_compare d1 d2).
Proof.
  unfold date_compare.
  rewrite (Z.compare_antisym (year d1)), (Z.compare_antisym (month d1)),
    (Z.compare_antisym (day d1)).
  destruct (year d1 ?= year d2)%Z, (month d1 ?= month d2)%Z; done.
Qed.

Lemma date_leb_spec d1 d2 :
  date_leb d1 d2 = true ↔
  (year d1 < year d2 ∨ year d1 = year d2 ∧
   (month d1 < month d2 ∨ month d1 = month d2 ∧ day d1 <= day d2)).
Proof.
  unfold date_leb, date_compare.
  destruct (Z.compare_spec (year d1) (year d2)), (Z.compare_spec (month d1) (month d2)),
    (Z.compare_spec (day d1) (day d2)); split; intros; try done; lia.
Qed.

#[export] Instance date_le_po : PartialOrder date_le.
Proof.
  unfold date_le. split; [split|].
  - intros d. apply date_leb_spec. lia.
  - intros d1 d2 d3 H1 H2. apply date_leb_spec in H1, H2. apply date_leb_spec. lia.
  - intros [y1 m1 a1] [y2 m2 a2] H1 H2. apply date_leb_spec in H1, H2. simpl in *.
    f_equal; lia.
Qed.

#[export] Instance date_le_total : Total date_le.
Proof.
  intros d1 d2. unfold date_le. rewrite !date_leb_spec. lia.
Qed.

(** ** The ordinal is strictly monotone on valid dates *)

Lemma days_before_year_succ y :
  days_before_year (y + 1) = days_before_year y + 365 + (if is_leap y then 1 else 0).
Proof.
  unfold days_before_year, is_leap. replace (y + 1 - 1) with y by lia.
  destruct (Z.eqb_spec (y mod 4) 0), (Z.eqb_spec (y mod 100) 0), (Z.eqb_spec (y mod 400) 0);
    simpl; Z.div_mod_to_equations; lia.
Qed.

Lemma days_before_year_mono y1 y2 : y1 <= y2 → days_before_year y1 <= days_before_year y2.
Proof. unfold days_before_year. Z.div_mod_to_equations. lia. Qed.

Ltac month_cases m :=
  assert (m = 1 ∨ m = 2 ∨ m = 3 ∨ m = 4 ∨ m = 5 ∨ m = 6 ∨ m = 7 ∨ m = 8 ∨ m = 9 ∨
          m = 10 ∨ m = 11 ∨ m = 12) as ? by lia.

Lemma days_before_month_nonneg y m : 1 <= m <= 12 → 0 <= days_before_month y m.
Proof.
  intros Hm. unfold days_before_month. month_cases m.
  destruct (is_leap y); destruct_or!; subst m; simpl; lia.
Qed.

(** A valid date lies inside its year and before the first day of any
    later month. *)
Lemma month_in_year d : valid_date d = true →
  days_before_month (year d) (month d) + day d <= 365 + (if is_leap (year d) then 1 else 0) ∧
  ∀ m, month d < m <= 12 →
       days_before_month (year d) (month d) + day d < days_before_month (year d) m + 1.
Proof.
  destruct d as [y m a]. unfold valid_date, days_before_month, days_in_month; simpl.
  intros H. repeat (apply andb_prop in H as [H ?]). rewrite ?Z.leb_le in *.
  destruct (is_leap y); month_cases m.
  all: destruct_or!; subst m; simpl in *.
  all: split; [lia|]. all: intros m' Hm'. all: month_cases m'.
  all: destruct_or!; subst m'; simpl in *; lia.
Qed.

Lemma toordinal_compare_lt d1 d2 :
  valid_date d1 = true → valid_date d2 = true →
  date_compare d1 d2 = Lt → toordinal d1 < toordinal d2.
Proof.
  intros V1 V2 Hc.
  destruct (month_in_year d1 V1) as [Hy1 Hm1].
  pose proof (valid_date_ranges d1 V1). pose proof (valid_date_ranges d2 V2).
  unfold toordinal. unfold date_compare in Hc.
  destruct (Z.compare_spec (year d1) (year d2)) as [Ey|Ly|]; [|clear Hm1|done].
  - destruct (Z.compare_spec (month d1) (month d2)) as [Em|Lm|]; [|clear Hy1|done].
    + rewrite Ey, Em in *. destruct (Z.compare_spec (day d1) (day d2)); [done|lia|done].
    + rewrite Ey in *. specialize (Hm1 (month d2) ltac:(lia)). rewrite <- Ey in Hm1 |- *.
      lia.
  - pose proof (days_before_year_succ (year d1)).
    pose proof (days_before_year_mono (year d1 + 1) (year d2) ltac:(lia)).
    pose proof (days_before_month_nonneg (year d2) (month d2) ltac:(lia)). lia.
Qed.

(** On valid dates the ordinal orders as the dates do. *)
Lemma toordinal_le d1 d2 :
  valid_date d1 = true → valid_date d2 = true →
  toordinal d1 <= toordinal d2 ↔ date_le d1 d2.
Proof.
  intros V1 V2. unfold date_le, date_leb. destruct (date_compare d1 d2) eqn:C.
  - apply date_compare_eq in C as ->. split; [done|lia].
  - pose proof (toordinal_compare_lt d1 d2 V1 V2 C). split; [done|lia].
  - assert (C' : date_compare d2 d1 = Lt) by (rewrite date_compare_antisym, C; done).
    pose proof (toordinal_compare_lt d2 d1 V2 V1 C'). split; [lia|done].
Qed.

(** On valid dates the stored int64 orders as the dates do. *)
Lemma datetime64_ns_lt d1 d2 :
  valid_date d1 = true → valid_date d2 = true →
  datetime64_ns d1 < datetime64_ns d2 ↔ date_compare d1 d2 = Lt.
Proof.
  intros V1 V2. unfold datetime64_ns, ns_per_day. split.
  - intros Hlt. destruct (date_compare d1 d2) eqn:E; [|done|].
    + apply date_compare_eq in E as ->. lia.
    + rewrite date_compare_antisym in E. apply (f_equal CompOpp) in E.
      rewrite CompOpp_involutive in E. simpl in E.
      pose proof (toordinal_compare_lt d2 d1 V2 V1 E). lia.
  - intros Hc. pose proof (toordinal_compare_lt d1 d2 V1 V2 Hc). lia.
Qed.

Lemma datetime64_ns_inj d1 d2 :
  valid_date d1 = true → valid_date d2 = true →
  datetime64_ns d1 = datetime64_ns d2 → d1 = d2.
Proof.
  intros V1 V2 E. apply date_compare_eq.
  destruct (date_compare d1 d2) eqn:C; [done| |].
  - apply (datetime64_ns_lt d1 d2 V1 V2) in C. lia.
  - rewrite date_compare_antisym in C. apply (f_equal CompOpp) in C.
    rewrite CompOpp_involutive in C. apply (datetime64_ns_lt d2 d1 V2 V1) in C. lia.
Qed.

Lemma digits_of_4 (y : Z) : 0 <= y <= 9999 →
  1000 * (y / 1000) + 100 * ((y / 100) mod 10) + 10 * ((y / 10) mod 10) + y mod 10 = y.
Proof.
  intros H.
  assert (y / 100 = (y / 10) / 10) as E1 by (rewrite Z.div_div by lia; reflexivity).
  assert (y / 1000 = (y / 100) / 10) as E2 by (rewrite Z.div_div by lia; reflexivity).
  rewrite E2, E1.
  pose proof (Z.div_mod y 10). pose proof (Z.div_mod (y / 10) 10).
  pose proof (Z.div_mod (y / 10 / 10) 10). lia.
Qed.

Lemma digits_of_2 (m : Z) : 10 * (m / 10) + m mod 10 = m.
Proof. pose proof (Z.div_mod m 10). lia. Qed.

Lemma digit_range_mod (n : Z) : 0 <= n mod 10 <= 9.
Proof. pose proof (Z.mod_pos_bound n 10). lia. Qed.

Lemma digit_range_div (n k : Z) : 0 < k → 0 <= n < 10 * k → 0 <= n / k <= 9.
Proof.
  intros Hk Hn. split; [apply Z.div_pos; lia|].
  apply Z.lt_succ_r, Z.div_lt_upper_bound; lia.
Qed.

Ltac digit_range := first [apply digit_range_mod | apply digit_range_div; lia].



(** *** The parser's pieces *)

Lemma string_app_nil_r (s : string) : s +:+ "" = s.
Proof.
  induction s as [|c s IH]; [done|].
  change (String c s +:+ "") with (String c (s +:+ "")). by rewrite IH.
Qed.

Lemma string_app_cons c (s t : string) : String c s +:+ t = String c (s +:+ t).
Proof. reflexivity. Qed.

Lemma parse_sep_dash r : parse_sep (String "-" r) = Some r.
Proof. reflexivity. Qed.

Lemma digit_not_dash (n : Z) : 0 <= n <= 9 → digit n ≠ "-"%char.
Proof. intros H E. pose proof (digit_val_digit n H) as D. by rewrite E in D. Qed.




Lemma parse_year_pad4 y r : 0 <= y <= 9999 → parse_year (pad4 y +:+ r) = (y, r).
Proof.
  intros Hy. cbv [pad4 String.append parse_year].
  rewrite !digit_val_digit by digit_range. by rewrite digits_of_4.
Qed.

Lemma parse_sign_pad4 y r : 0 <= y <= 9999 → parse_sign (pad4 y +:+ r) = (false, pad4 y +:+ r).
Proof.
  intros Hy. cbv [pad4 String.append parse_sign].
  rewrite decide_False; [done|]. apply digit_not_dash. digit_range.
Qed.


Definition starts_nondigit (r : string) : Prop :=
  match r with String c _ => digit_val c = None | EmptyString => True end.

(** A spelling followed by the end or by a non-digit is read back. *)
Lemma parse_field_complete f n r :
  f ∈ field_spellings n → 0 <= n <= 99 → starts_nondigit r →
  parse_field (f +:+ r) = Some (n, r).
Proof.
  unfold field_spellings. intros Hf Hn Hr.
  assert (f = pad2 n ∨ n < 10 ∧ f = pad1 n) as [->|[Hlt ->]]
    by (case_match; [apply Z.ltb_lt in H|]; set_solver).
  - cbv [pad2 String.append parse_field].
    rewrite !digit_val_digit by digit_range. cbn [mbind option_bind].
    by rewrite digits_of_2.
  - cbv [pad1 String.append parse_field].
    rewrite digit_val_digit by lia. cbn [mbind option_bind].
    destruct r as [|c r]; [done|]. cbn in Hr. by rewrite Hr.
Qed.

Lemma valid_md_ranges d : valid_md d = true → 1 <= month d <= 12 ∧ 1 <= day d <= 31.
Proof.
  unfold valid_md, days_in_month. intros H.
  repeat (apply andb_prop in H as [H ?]). rewrite ?Z.leb_le in *.
  assert (month d = 1 ∨ month d = 2 ∨ month d = 3 ∨ month d = 4 ∨ month d = 5 ∨
          month d = 6 ∨ month d = 7 ∨ month d = 8 ∨ month d = 9 ∨ month d = 10 ∨
          month d = 11 ∨ month d = 12) as Hm by lia.
  repeat split; try lia.
  destruct_or! Hm; rewrite Hm in *; simpl in *;
    repeat match goal with _ : context [if ?b then _ else _] |- _ => destruct b end; lia.
Qed.

Lemma valid_date_md d : valid_date d = true ↔ (1 <= year d <= 9999) ∧ valid_md d = true.
Proof.
  unfold valid_date, valid_md. rewrite !andb_true_iff, !Z.leb_le. tauto.
Qed.

(** Every accepted string is read through the same pieces. *)
Lemma parse_date_inv s d :
  parse_date s = Some d →
  ∃ neg s1 y s2 s3 m s4 s5 dd,
    parse_sign s = (neg, s1) ∧ parse_year s1 = (y, s2) ∧ parse_sep s2 = Some s3 ∧
    parse_field s3 = Some (m, s4) ∧ parse_sep s4 = Some s5 ∧ parse_field s5 = Some (dd, "") ∧
    d = mkDate (if neg then - y else y) m dd ∧ valid_md d = true.
Proof.
  unfold parse_date. destruct (parse_sign s) as [neg s1] eqn:E1.
  destruct (parse_year s1) as [y s2] eqn:E2.
  destruct (parse_sep s2) as [s3|] eqn:E3; [|done]. cbn [mbind option_bind].
  destruct (parse_field s3) as [[m s4]|] eqn:E4; [|done]. cbn [mbind option_bind].
  destruct (parse_sep s4) as [s5|] eqn:E5; [|done]. cbn [mbind option_bind].
  destruct (parse_field s5) as [[dd s6]|] eqn:E6; [|done]. cbn [mbind option_bind].
  case_decide; [subst s6|done]. destruct (valid_md _) eqn:V; [|done]. intros [= <-].
  eauto 20.
Qed.

(** The parser only returns dates whose month and day are valid. *)
Lemma parse_date_valid s d : parse_date s = Some d → valid_md d = true.
Proof. intros (? & ? & ? & ? & ? & ? & ? & ? & ? & ? & ? & ? & ? & ? & ? & ? & ?)%parse_date_inv. done. Qed.

Lemma days_before_month_le y m : 1 <= m <= 12 → days_before_month y m <= 335.
Proof.
  intros Hm. unfold days_before_month. month_cases m.
  destruct (is_leap y); destruct_or!; subst m; simpl; lia.
Qed.

(** A date with a valid month and day whose nanosecond value is an int64
    (pandas' [Timestamp] range) has a year in [1..9999]: the range check
    of [to_datetime] bounds the year the parser leaves unchecked. *)
Lemma valid_md_in_range d :
  valid_md d = true → int64_min < datetime64_ns d <= int64_max → valid_date d = true.
Proof.
  intros Hmd Hns. apply valid_date_md. split; [|done].
  pose proof (valid_md_ranges d Hmd) as [Hm Hd].
  pose proof (days_before_month_nonneg (year d) (month d) Hm).
  pose proof (days_before_month_le (year d) (month d) Hm).
  unfold datetime64_ns, toordinal, ns_per_day, epoch_ordinal, int64_min, int64_max in Hns.
  change (2 ^ 63) with 9223372036854775808 in Hns.
  split; apply Z.nlt_ge; intros Hy.
  - pose proof (days_before_year_mono (year d) 0 ltac:(lia)).
    change (days_before_year 0) with (-366) in *. lia.
  - pose proof (days_before_year_mono 10000 (year d) ltac:(lia)).
    change (days_before_year 10000) with 3652059 in *. lia.
Qed.

(** Every spelling of a valid date is read back as that date. *)
Lemma parse_date_complete s d :
  valid_date d = true → s ∈ date_spellings d → parse_date s = Some d.
Proof.
  intros Hv Hs. pose proof (valid_date_ranges d Hv) as (Hy & Hm & Hd).
  apply valid_date_md in Hv as [_ Hmd].
  unfold date_spellings in Hs. apply list_elem_of_bind in Hs as (sm & Hs & Hsm).
  apply list_elem_of_bind in Hs as (sd & Hs & Hsd). apply list_elem_of_singleton in Hs as ->.
  unfold parse_date. rewrite parse_sign_pad4, parse_year_pad4 by lia.
  rewrite string_app_cons, parse_sep_dash. cbn [mbind option_bind].
  rewrite (parse_field_complete sm (month d)) by (done || lia). cbn [mbind option_bind].
  rewrite parse_sep_dash. cbn [mbind option_bind].
  rewrite <- (string_app_nil_r sd), (parse_field_complete sd (day d)) by (done || lia).
  cbn [mbind option_bind]. rewrite decide_True by done. destruct d; cbn in *. by rewrite Hmd.
Qed.

(** Reading back [date_str d] gives [d] on every valid date. *)
Lemma date_str_roundtrip (d : date) :
  valid_date d = true → parse_date (date_str d) = Some d.
Proof.
  intros Hv. apply parse_date_complete; [done|].
  unfold date_spellings, date_str. apply list_elem_of_bind. exists (pad2 (month d)).
  split; [|unfold field_spellings; case_match; set_solver].
  apply list_elem_of_bind. exists (pad2 (day d)).
  split; [set_solver | unfold field_spellings; case_match; set_solver].
Qed.

(** C3. [str(date)] is read back by pandas as the same date: the
    comparison [df["dteday"] >= str(start_date)] of [f_date] compares with
    the date the user picked. *)
Theorem parse_date_str (d : date) :
  valid_date d = true → parse_date (date_str d) = Some d.
Proof. apply date_str_roundtrip. Qed.



Lemma parse_date_str_witness :
  valid_date (mkDate 2012 2 29) = true ∧
  parse_date (date_str (mkDate 2012 2 29)) = Some (mkDate 2012 2 29).
Proof. split; [reflexivity | apply parse_date_str; reflexivity]. Defined.


(** pandas' parser on the other shapes: a missing zero is read, a
    two-digit year or a trailing time is refused, and the sign or a
    missing year give a year outside [1..9999] (refused later by the
    range check of [to_datetime]). *)
Example parse_date_shapes :
  parse_date "2011-1-2" = Some (mkDate 2011 1 2) ∧
  parse_date "2011-01-1" = Some (mkDate 2011 1 1) ∧
  parse_date "11-01-01" = None ∧
  parse_date "2011-01-01 00:00" = None ∧
  parse_date "2011-02-29" = None ∧
  parse_date "-2011-01-01" = Some (mkDate (-2011) 1 1) ∧
  parse_date "--01-01" = Some (mkDate 0 1 1).
Proof. split_and!; vm_compute; reflexivity. Qed.

(** [date(1970, 1, 1).toordinal() == 719163] and
    [pd.Timestamp("2011-01-01").value == 1293840000000000000]. *)
Example datetime64_ns_values :
  toordinal (mkDate 1970 1 1) = epoch_ordinal ∧
  datetime64_ns (mkDate 2011 1 1) = 1293840000000000000 ∧
  datetime64_ns (mkDate 2012 12 31) = 1356912000000000000.
Proof. split_and!; reflexivity. Qed.

End Date.
