(* ===== verification/Tables.v ===== *)
(** * Tables: the rows of [df_day] / [df_hour] and the summary cards

  A table is a list of rows in file order (pandas keeps the order of
  [read_csv] through boolean filtering).  [DayRow] holds the columns of
  [df_day] the script reads, [HourRow] those of [df_hour].  The classes
  [Dated] and [Counted] are the interfaces the generic components need of
  a table: [f_date] reads [dteday], the group-by means read [cnt].
  [summary_cards] is the block of l.160-172: sum and rounded mean of the
  casual, registered and total counts; a sum is numpy's [int64]
  [Series.sum] ([np_sum]), which wraps modulo [2^64] on overflow. *)

From S2P Require Import Prelude Dates.
Import Date.

Module Tables.

(** A row of [df_day]. *)
Record DayRow := mkDay {
  d_dteday : date;
  d_season : Z;
  d_weathersit : Z;
  d_temp : Q;
  d_hum : Q;
  d_windspeed : Q;
  d_casual : Z;
  d_registered : Z;
  d_cnt : Z
}.

(** A row of [df_hour]: the script reads its date, bucket and count. *)
Record HourRow := mkHour {
  h_dteday : date;
  h_time_of_day : string;
  h_cnt : Z
}.

#[export] Instance DayRow_eq_dec : EqDecision DayRow.
Proof. solve_decision. Defined.
#[export] Instance HourRow_eq_dec : EqDecision HourRow.
Proof. solve_decision. Defined.

(** What [f_date] needs of a table: its [dteday] column. *)
Class Dated (R : Type) := dteday : R → date.
(** What the group-by means need of a table: its [cnt] column. *)
Class Counted (R : Type) := cnt : R → Z.

#[export] Instance DayRow_dated : Dated DayRow := d_dteday.
#[export] Instance HourRow_dated : Dated HourRow := h_dteday.
#[export] Instance DayRow_counted : Counted DayRow := d_cnt.
#[export] Instance HourRow_counted : Counted HourRow := h_cnt.

(** The dataset's invariants for a day row (spec, section 3): a valid date,
    season and weather codes in 1..4, non-negative counts and
    [cnt = casual + registered]. *)
Definition DayRow_wf (r : DayRow) : bool :=
  valid_date (d_dteday r) && (1 <=? d_season r) && (d_season r <=? 4)
  && (1 <=? d_weathersit r) && (d_weathersit r <=? 4)
  && (0 <=? d_casual r) && (0 <=? d_registered r)
  && (d_cnt r =? d_casual r + d_registered r).

(** The exact total of a column, and [df.col.mean()] (pandas accumulates
    the mean in float64, without integer overflow). *)
Definition col_sum {R} (f : R → Z) (df : list R) : Z := Zsum (map f df).
Definition col_mean {R} (f : R → Z) (df : list R) : flt := mean_Z (map f df).

(** numpy's [add.reduce] over an [int64] column: a running sum that wraps. *)
Definition np_sum (l : list Z) : Z := foldl (λ acc x, int64_wrap (acc + x)) 0 l.

(** [df.col.sum()] on an [int64] column. *)
Definition np_col_sum {R} (f : R → Z) (df : list R) : Z := np_sum (map f df).

(** One metric card: the label, [st.metric]'s value (the sum) and the
    caption's rounded mean. *)
Record Card := mkCard { card_label : string; card_sum : Z; card_avg : Z }.

(** l.160-172: the three cards, left to right; [round(df.col.mean())]
    raises on an empty table. *)
Definition summary_cards (df : list DayRow) : result (list Card) :=
  a ← py_round (col_mean d_casual df);
  b ← py_round (col_mean d_registered df);
  c ← py_round (col_mean d_cnt df);
  mret [mkCard "Casual Users" (np_col_sum d_casual df) a;
        mkCard "Registered Users" (np_col_sum d_registered df) b;
        mkCard "Total Users" (np_col_sum d_cnt df) c].

(** ** Lemmas *)

Lemma DayRow_wf_cnt r : DayRow_wf r = true → d_cnt r = d_casual r + d_registered r.
Proof. unfold DayRow_wf. intros H. repeat (apply andb_prop in H as [H ?]). lia. Qed.

Lemma DayRow_wf_nonneg r : DayRow_wf r = true → 0 <= d_casual r ∧ 0 <= d_registered r.
Proof. unfold DayRow_wf. intros H. repeat (apply andb_prop in H as [H ?]). lia. Qed.

Lemma DayRow_wf_valid r : DayRow_wf r = true → valid_date (d_dteday r) = true.
Proof. unfold DayRow_wf. intros H. rewrite !andb_true_iff in H. tauto. Qed.

Lemma col_mean_nonempty {R} (f : R → Z) (df : list R) :
  df ≠ [] →
  col_mean f df = Fin (inject_Z (col_sum f df) / inject_Z (Z.of_nat (length df))).
Proof.
  intros Hne. unfold col_mean, mean_Z, col_sum.
  destruct df as [|r df]; [done|]. rewrite length_map. done.
Qed.

Lemma col_sum_add {R} (f g : R → Z) (df : list R) :
  col_sum (λ r, f r + g r) df = col_sum f df + col_sum g df.
Proof. apply Zsum_map_add. Qed.


Lemma col_sum_ext {R} (f g : R → Z) (df : list R) :
  (∀ r, r ∈ df → f r = g r) → col_sum f df = col_sum g df.
Proof. intros H. unfold col_sum. f_equal. apply map_ext_in. intros r Hr. apply H, list_elem_of_In, Hr. Qed.

Lemma col_sum_wf (df : list DayRow) :
  Forall (λ r, DayRow_wf r = true) df →
  col_sum d_cnt df = col_sum d_casual df + col_sum d_registered df.
Proof.
  intros Hwf. rewrite <- col_sum_add. apply col_sum_ext.
  intros r Hr. apply DayRow_wf_cnt. rewrite Forall_forall in Hwf. by apply Hwf.
Qed.

Lemma np_sum_wrap_acc acc l : foldl (λ acc x, int64_wrap (acc + x)) (int64_wrap acc) l = int64_wrap (acc + Zsum l).
Proof.
  revert acc. induction l as [|x l IH]; intros acc; simpl.
  - by rewrite Z.add_0_r.
  - rewrite int64_wrap_add_l, IH. f_equal. lia.
Qed.

(** The wrapping sum is the exact sum taken modulo [2^64]. *)
Lemma np_sum_wrap l : np_sum l = int64_wrap (Zsum l).
Proof.
  unfold np_sum. replace 0 with (int64_wrap 0) at 1 by reflexivity.
  by rewrite np_sum_wrap_acc, Z.add_0_l.
Qed.

Lemma np_col_sum_wrap {R} (f : R → Z) (df : list R) : np_col_sum f df = int64_wrap (col_sum f df).
Proof. apply np_sum_wrap. Qed.

Lemma np_col_sum_exact {R} (f : R → Z) (df : list R) :
  int64_min <= col_sum f df <= int64_max → np_col_sum f df = col_sum f df.
Proof. intros H. unfold np_col_sum. rewrite np_sum_wrap. by apply int64_wrap_small. Qed.

Lemma col_sum_nonneg {R} (f : R → Z) (df : list R) : Forall (λ r, 0 <= f r) df → 0 <= col_sum f df.
Proof. unfold col_sum. induction 1; simpl; lia. Qed.

Definition nan_error : exn := ValueError "cannot convert float NaN to integer".

Lemma summary_cards_nonempty (df : list DayRow) :
  df ≠ [] →
  let n := inject_Z (Z.of_nat (length df)) in
  summary_cards df =
    Ok [mkCard "Casual Users" (np_col_sum d_casual df)
          (round_half_even (inject_Z (col_sum d_casual df) / n));
        mkCard "Registered Users" (np_col_sum d_registered df)
          (round_half_even (inject_Z (col_sum d_registered df) / n));
        mkCard "Total Users" (np_col_sum d_cnt df)
          (round_half_even (inject_Z (col_sum d_cnt df) / n))].
Proof. intros Hne. unfold summary_cards. rewrite !col_mean_nonempty by done. done. Qed.

(** C5. The Total card's sum is the sum of the Casual and Registered
    cards' sums, in numpy's wrapping [int64] arithmetic, on every table
    whose rows satisfy the dataset invariant [cnt = casual + registered]. *)
Theorem summary_sum_consistent (df : list DayRow) (a b c : Card) :
  Forall (λ r, DayRow_wf r = true) df →
  summary_cards df = Ok [a; b; c] →
  card_sum c = int64_wrap (card_sum a + card_sum b).
Proof.
  intros Hwf Hok. destruct df as [|r df']; [discriminate|].
  rewrite summary_cards_nonempty in Hok by done. injection Hok as <- <- <-. simpl.
  unfold np_col_sum. rewrite !np_sum_wrap, int64_wrap_add. f_equal. by apply col_sum_wf.
Qed.

(** C6. The cards raise [ValueError] exactly on an empty table: [round]
    of the NaN mean; on a non-empty table they are computed. *)
Theorem summary_cards_error (df : list DayRow) :
  (summary_cards df = Err nan_error ↔ df = []) ∧
  (df ≠ [] → ∃ cards, summary_cards df = Ok cards ∧ length cards = 3%nat).
Proof.
  split.
  - split; [|intros ->; done].
    destruct df as [|r df']; [done|]. rewrite summary_cards_nonempty by done. discriminate.
  - intros Hne. rewrite summary_cards_nonempty by done. eexists. split; reflexivity.
Qed.

(** C7. The three rounded averages are consistent up to one: each is within
    one half of its exact mean, and the exact means add up. *)
Theorem summary_avg_consistent (df : list DayRow) (a b c : Card) :
  Forall (λ r, DayRow_wf r = true) df →
  summary_cards df = Ok [a; b; c] →
  Z.abs (card_avg c - (card_avg a + card_avg b)) <= 1.
Proof.
  intros Hwf Hok. destruct df as [|r df']; [discriminate|].
  rewrite summary_cards_nonempty in Hok by done. injection Hok as <- <- <-. simpl.
  rewrite (col_sum_wf (r :: df')) by done.
  set (n := inject_Z (Z.of_nat (S (length df')))).
  set (x := inject_Z (col_sum d_casual (r :: df'))).
  set (y := inject_Z (col_sum d_registered (r :: df'))).
  assert (Hn : (0 < n)%Q).
  { unfold n. change 0%Q with (inject_Z 0). rewrite <- Zlt_Qlt. lia. }
  assert (Hxy : (inject_Z (col_sum d_casual (r :: df') + col_sum d_registered (r :: df')) / n
                 == x / n + y / n)%Q).
  { rewrite inject_Z_plus. unfold Qdiv. apply Qmult_plus_distr_l. }
  rewrite Hxy.
  pose proof (round_half_even_bound (x / n)) as Hx.
  pose proof (round_half_even_bound (y / n)) as Hy.
  pose proof (round_half_even_bound (x / n + y / n)) as Hs.
  assert (H2 : (inject_Z (round_half_even (x / n + y / n) -
                 (round_half_even (x / n) + round_half_even (y / n))) < 2)%Q).
  { rewrite inject_Z_sub, inject_Z_plus. lra. }
  assert (H2' : (-2 < inject_Z (round_half_even (x / n + y / n) -
                 (round_half_even (x / n) + round_half_even (y / n))))%Q).
  { rewrite inject_Z_sub, inject_Z_plus. lra. }
  change 2%Q with (inject_Z 2) in H2. change (-2)%Q with (inject_Z (-2)) in H2'.
  rewrite <- Zlt_Qlt in H2, H2'. lia.
Qed.

(** On well-formed rows the three column totals are non-negative, the
    total being the sum of the other two. *)
Lemma col_sums_nonneg (df : list DayRow) :
  Forall (λ r, DayRow_wf r = true) df →
  0 <= col_sum d_casual df ∧ 0 <= col_sum d_registered df ∧
  col_sum d_cnt df = col_sum d_casual df + col_sum d_registered df.
Proof.
  intros Hwf. split_and!; [..|by apply col_sum_wf];
    apply col_sum_nonneg; eapply Forall_impl; [exact Hwf| |exact Hwf|];
    intros x Hx; by apply DayRow_wf_nonneg.
Qed.

(** C40. No overflow on realistic tables: when the total count fits in an
    [int64], numpy's sums on the three cards are the exact column totals. *)
Theorem summary_no_overflow (df : list DayRow) (a b c : Card) :
  Forall (λ r, DayRow_wf r = true) df → col_sum d_cnt df <= int64_max →
  summary_cards df = Ok [a; b; c] →
  card_sum a = col_sum d_casual df ∧ card_sum b = col_sum d_registered df ∧
  card_sum c = col_sum d_cnt df.
Proof.
  intros Hwf Hmax Hok. destruct df as [|r df']; [discriminate|].
  rewrite summary_cards_nonempty in Hok by done. injection Hok as <- <- <-. simpl.
  pose proof (col_sums_nonneg _ Hwf) as (Hc & Hr & Hs).
  unfold int64_min in *. split_and!; apply np_col_sum_exact; unfold int64_min; lia.
Qed.

(** C37. An overflow of the total shows as a negative card: when the
    exact total count is below [2^64], the Total Users card shows a
    negative number exactly when the total exceeds [int64_max], where
    numpy's sum wraps around. *)
Theorem summary_total_negative (df : list DayRow) (a b c : Card) :
  Forall (λ r, DayRow_wf r = true) df → col_sum d_cnt df < 2 ^ 64 →
  summary_cards df = Ok [a; b; c] →
  card_sum c < 0 ↔ int64_max < col_sum d_cnt df.
Proof.
  intros Hwf Hlt Hok. destruct df as [|r df']; [discriminate|].
  rewrite summary_cards_nonempty in Hok by done. injection Hok as _ _ <-. simpl.
  rewrite np_col_sum_wrap. apply int64_wrap_neg. split; [|done].
  apply col_sums_nonneg in Hwf as (? & ? & ?). lia.
Qed.

(** ** The scenario of the spec (section 8): three days of January 2021 *)

Definition spec_days : list DayRow :=
  [mkDay (mkDate 2021 1 1) 1 1 (1 # 5) (1 # 2) (1 # 10) 10 20 30;
   mkDay (mkDate 2021 1 2) 1 2 (1 # 4) (3 # 5) (1 # 5) 5 5 10;
   mkDay (mkDate 2021 1 3) 1 1 (3 # 10) (2 # 5) (1 # 4) 50 50 100].

Lemma spec_days_wf : Forall (λ r, DayRow_wf r = true) spec_days.
Proof. repeat constructor. Qed.

Lemma summary_sum_consistent_witness :
  card_sum (mkCard "Total Users" 140 47) =
  int64_wrap (card_sum (mkCard "Casual Users" 65 22) + card_sum (mkCard "Registered Users" 75 25)).
Proof. apply (summary_sum_consistent spec_days); [repeat constructor | reflexivity]. Defined.

Lemma summary_total_negative_witness :
  (card_sum (mkCard "Total Users" 140 47) < 0 ↔ int64_max < col_sum d_cnt spec_days).
Proof.
  apply (summary_total_negative spec_days (mkCard "Casual Users" 65 22)
           (mkCard "Registered Users" 75 25)); [repeat constructor | reflexivity | reflexivity].
Defined.

Lemma summary_avg_consistent_witness :
  Z.abs (card_avg (mkCard "Total Users" 140 47) -
         (card_avg (mkCard "Casual Users" 65 22) + card_avg (mkCard "Registered Users" 75 25)))
  <= 1.
Proof. apply (summary_avg_consistent spec_days); [repeat constructor | reflexivity]. Defined.

(** The bound of [summary_avg_consistent] is reached: two days with means
    0.5 and 0.5 display averages 0 and 0 but a total average of 1. *)
Example summary_avg_gap :
  summary_cards [mkDay (mkDate 2021 1 1) 1 1 0 0 0 1 0 1; mkDay (mkDate 2021 1 2) 1 1 0 0 0 0 1 1]
  = Ok [mkCard "Casual Users" 1 0; mkCard "Registered Users" 1 0; mkCard "Total Users" 2 1].
Proof. reflexivity. Qed.

Lemma summary_cards_error_witness :
  summary_cards [] = Err nan_error ∧
  summary_cards spec_days = Ok [mkCard "Casual Users" 65 22;
    mkCard "Registered Users" 75 25; mkCard "Total Users" 140 47].
Proof. split; [apply (proj1 (summary_cards_error [])); reflexivity | reflexivity]. Defined.

Lemma summary_no_overflow_witness :
  card_sum (mkCard "Casual Users" 65 22) = col_sum d_casual spec_days ∧
  card_sum (mkCard "Registered Users" 75 25) = col_sum d_registered spec_days ∧
  card_sum (mkCard "Total Users" 140 47) = col_sum d_cnt spec_days.
Proof. apply summary_no_overflow; [repeat constructor|vm_compute; discriminate|reflexivity]. Defined.

(** Beyond [int64], numpy's sum wraps: two days of [2^62] casual users show a
    Casual total of [-2^63]. *)
Example summary_overflow :
  map card_sum <$> summary_cards
    [mkDay (mkDate 2021 1 1) 1 1 0 0 0 (2 ^ 62) 0 (2 ^ 62);
     mkDay (mkDate 2021 1 2) 1 1 0 0 0 (2 ^ 62) 0 (2 ^ 62)] = Ok [- 2 ^ 63; 0; - 2 ^ 63].
Proof. reflexivity. Qed.

End Tables.
