(* ===== verification/Loader.v ===== *)
(** * Loader: the two tables and [pd.to_datetime] (l.10-15)

  [pd.read_csv] fetches the two CSV files (I/O, not modelled) and gives
  a table whose [dteday] column holds strings; l.14-15 replace the
  column by [pd.to_datetime] of it.  pandas infers the format of the
  column from its first cell ([%Y-%m-%d] for the dataset), parses every
  cell with it ([Dates.parse_date]: pandas' ISO parser, which also reads
  a month or day without its leading zero and a signed year), and stores each date as int64 nanoseconds since
  1970-01-01; a cell that does not match the format, or whose date lies
  outside the int64 range, makes the whole conversion raise.  [RawDay]
  and [RawHour] are the rows before the conversion, [load] the two
  conversions of l.14-15 in order. *)

From S2P Require Import Prelude Dates Tables.
Import Date Tables.

Module Loader.

(** pandas' [Timestamp] range: an int64 of nanoseconds, the least value
    being reserved for [NaT]. *)
Definition ns_in_bounds (ns : Z) : bool := (int64_min <? ns) && (ns <=? int64_max).

Definition parse_error (s : string) : exn :=
  ValueError ("time data " +:+ s +:+ " doesn't match format %Y-%m-%d").
Definition bounds_error (s : string) : exn :=
  ValueError ("Out of bounds nanosecond timestamp: " +:+ s).

(** One cell of [pd.to_datetime], with the format inferred for the column. *)
Definition to_datetime (s : string) : result date :=
  match parse_date s with
  | Some d => if ns_in_bounds (datetime64_ns d) then Ok d else Err (bounds_error s)
  | None => Err (parse_error s)
  end.

(** A row of [df_day0] as [read_csv] gives it. *)
Record RawDay := mkRawDay {
  rd_dteday : string;
  rd_season : Z;
  rd_weathersit : Z;
  rd_temp : Q;
  rd_hum : Q;
  rd_windspeed : Q;
  rd_casual : Z;
  rd_registered : Z;
  rd_cnt : Z
}.

Record RawHour := mkRawHour { rh_dteday : string; rh_time_of_day : string; rh_cnt : Z }.

(** [df['dteday'] = ...]: the row with its date column replaced. *)
Definition day_with_date (r : RawDay) (d : date) : DayRow :=
  mkDay d (rd_season r) (rd_weathersit r) (rd_temp r) (rd_hum r) (rd_windspeed r)
    (rd_casual r) (rd_registered r) (rd_cnt r).

Definition hour_with_date (r : RawHour) (d : date) : HourRow :=
  mkHour d (rh_time_of_day r) (rh_cnt r).

Section Convert.
Context {Raw R : Type} (raw_date : Raw → string) (with_date : Raw → date → R).

(** [df["dteday"] = pd.to_datetime(df["dteday"])]: the cells are converted
    in order, and the first one that fails raises. *)
Fixpoint convert_col (df : list Raw) : result (list R) :=
  match df with
  | [] => Ok []
  | r :: df' => d ← to_datetime (raw_date r); rest ← convert_col df'; mret (with_date r d :: rest)
  end.

End Convert.

Record RawData := mkRawData { raw_day : list RawDay; raw_hour : list RawHour }.

(** The two tables the script works on. *)
Record Data := mkData { df_day0 : list DayRow; df_hour0 : list HourRow }.

(** l.14-15 *)
Definition load (raw : RawData) : result Data :=
  day ← convert_col rd_dteday day_with_date (raw_day raw);
  hour ← convert_col rh_dteday hour_with_date (raw_hour raw);
  mret (mkData day hour).

(** The raw rows a table comes from: the dates written as [read_csv] reads
    them from the dataset ([YYYY-MM-DD]). *)
Definition day_to_raw (r : DayRow) : RawDay :=
  mkRawDay (date_str (d_dteday r)) (d_season r) (d_weathersit r) (d_temp r) (d_hum r)
    (d_windspeed r) (d_casual r) (d_registered r) (d_cnt r).

Definition hour_to_raw (r : HourRow) : RawHour :=
  mkRawHour (date_str (h_dteday r)) (h_time_of_day r) (h_cnt r).

(** ** Lemmas *)

Lemma to_datetime_ok s d :
  to_datetime s = Ok d →
  parse_date s = Some d ∧ valid_date d = true ∧ ns_in_bounds (datetime64_ns d) = true.
Proof.
  unfold to_datetime. destruct (parse_date s) as [d'|] eqn:E; [|discriminate].
  destruct (ns_in_bounds _) eqn:B; [|discriminate]. intros [= <-].
  split_and!; [done| |done]. apply valid_md_in_range; [by apply parse_date_valid in E|].
  unfold ns_in_bounds in B. apply andb_prop in B as [B1 B2].
  apply Z.ltb_lt in B1. apply Z.leb_le in B2. lia.
Qed.

Section ConvertLemmas.
Context {Raw R : Type} (raw_date : Raw → string) (with_date : Raw → date → R).

Lemma convert_col_ok (df : list Raw) (out : list R) :
  convert_col raw_date with_date df = Ok out ↔
  Forall2 (λ r o, ∃ d, to_datetime (raw_date r) = Ok d ∧ o = with_date r d) df out.
Proof.
  revert out. induction df as [|r df IH]; intros out; simpl.
  - split; [intros [= <-]; constructor|]. intros H. inversion H. done.
  - destruct (to_datetime (raw_date r)) as [d|e] eqn:Ed; simpl.
    + destruct (convert_col raw_date with_date df) as [rest|e] eqn:Er; simpl.
      * split.
        -- intros [= <-]. constructor; [by eexists|]. by apply IH.
        -- intros H. inversion H as [|? o ? out' [d' [Ed' ->]] Hrest]; subst.
           rewrite Ed in Ed'. injection Ed' as <-. apply IH in Hrest. by injection Hrest as ->.
      * split; [discriminate|]. intros H. inversion H as [|? ? ? out' _ Hrest]; subst.
        apply IH in Hrest. discriminate.
    + split; [discriminate|]. intros H. inversion H as [|? ? ? ? (d & Ed' & _) _]; subst. congruence.
Qed.

(** The conversion fails exactly with the error of its first bad cell. *)
Lemma convert_col_err (df : list Raw) (e : exn) :
  convert_col raw_date with_date df = Err e ↔
  ∃ pre r post, df = pre ++ r :: post ∧
    Forall (λ x, ∃ d, to_datetime (raw_date x) = Ok d) pre ∧ to_datetime (raw_date r) = Err e.
Proof.
  induction df as [|r df IH]; simpl.
  - split; [discriminate|]. intros ([|] & ? & ? & ? & _); discriminate.
  - destruct (to_datetime (raw_date r)) as [d|e'] eqn:Ed; simpl.
    + destruct (convert_col raw_date with_date df) as [rest|e'] eqn:Er; simpl.
      * split; [discriminate|]. intros ([|x pre] & r' & post & Hdf & Hpre & Hr').
        -- injection Hdf as -> ->. congruence.
        -- injection Hdf as -> ->. enough (Ok rest = Err e) by discriminate.
           apply IH. exists pre, r', post. split_and!; [done| |done].
           by inversion Hpre.
      * rewrite IH. split.
        -- intros (pre & r' & post & -> & Hpre & Hr'). exists (r :: pre), r', post.
           split_and!; [done| |done]. constructor; [by eexists|done].
        -- intros ([|x pre] & r' & post & Hdf & Hpre & Hr').
           ++ injection Hdf as -> ->. congruence.
           ++ injection Hdf as -> ->. exists pre, r', post. split_and!; [done| |done].
              by inversion Hpre.
    + split.
      * intros [= ->]. by exists [], r, df.
      * intros ([|x pre] & r' & post & Hdf & Hpre & Hr').
        -- injection Hdf as -> ->. congruence.
        -- injection Hdf as -> ->. inversion Hpre as [|? ? (d & Hd) _]. congruence.
Qed.
End ConvertLemmas.

Lemma load_ok raw data :
  load raw = Ok data ↔
  convert_col rd_dteday day_with_date (raw_day raw) = Ok (df_day0 data) ∧
  convert_col rh_dteday hour_with_date (raw_hour raw) = Ok (df_hour0 data).
Proof.
  unfold load. destruct (convert_col rd_dteday _ _) as [day|e]; simpl; [|split; [done|by intros []]].
  destruct (convert_col rh_dteday _ _) as [hour|e]; simpl; [|split; [done|by intros []]].
  destruct data as [day' hour']. simpl. split; [intros [= -> ->]|intros [[= ->] [= ->]]]; done.
Qed.

Lemma Forall2_Forall_r_impl {A B} (P : A → B → Prop) (Q : B → Prop) l k :
  (∀ x y, P x y → Q y) → Forall2 P l k → Forall Q k.
Proof. intros HPQ. induction 1; constructor; eauto. Qed.

Lemma Forall2_Forall_l_impl {A B} (P : A → B → Prop) (Q : A → Prop) l k :
  (∀ x y, P x y → Q x) → Forall2 P l k → Forall Q l.
Proof. intros HPQ. induction 1; constructor; eauto. Qed.

(** A column whose cells all convert converts. *)
Lemma convert_col_all_ok {Raw R} (raw_date : Raw → string) (with_date : Raw → date → R) df :
  Forall (λ x, ∃ d, to_datetime (raw_date x) = Ok d) df →
  ∃ out, convert_col raw_date with_date df = Ok out.
Proof.
  induction 1 as [|r df [d Hd] _ [out IH]]; simpl; [by eexists|].
  rewrite Hd. simpl. rewrite IH. by eexists.
Qed.

Lemma to_datetime_date_str d :
  valid_date d = true → ns_in_bounds (datetime64_ns d) = true → to_datetime (date_str d) = Ok d.
Proof. intros Hv Hb. unfold to_datetime. by rewrite date_str_roundtrip, Hb. Qed.



(** Reading back what a table would be written as gives the table. *)
Lemma load_roundtrip (day : list DayRow) (hour : list HourRow) :
  Forall (λ r, valid_date (d_dteday r) = true ∧ ns_in_bounds (datetime64_ns (d_dteday r)) = true) day →
  Forall (λ r, valid_date (h_dteday r) = true ∧ ns_in_bounds (datetime64_ns (h_dteday r)) = true) hour →
  load (mkRawData (map day_to_raw day) (map hour_to_raw hour)) = Ok (mkData day hour).
Proof.
  intros Hd Hh. apply load_ok. simpl. split; apply convert_col_ok.
  - induction Hd as [|[] day [Hv Hb] _ IH]; constructor; [|done].
    eexists. split; [by apply to_datetime_date_str|done].
  - induction Hh as [|[] hour [Hv Hb] _ IH]; constructor; [|done].
    eexists. split; [by apply to_datetime_date_str|done].
Qed.

(** C38. A loaded table has the type the script relies on: each row is
    its raw row with the [dteday] cell replaced by the date pandas parses
    from it, and every date is a valid calendar date inside the
    [datetime64[ns]] range. *)
Theorem load_types (raw : RawData) (data : Data) :
  load raw = Ok data →
  Forall2 (λ rr r, to_datetime (rd_dteday rr) = Ok (d_dteday r) ∧ r = day_with_date rr (d_dteday r))
    (raw_day raw) (df_day0 data) ∧
  Forall2 (λ rr r, to_datetime (rh_dteday rr) = Ok (h_dteday r) ∧ r = hour_with_date rr (h_dteday r))
    (raw_hour raw) (df_hour0 data) ∧
  Forall (λ r, valid_date (d_dteday r) = true ∧ ns_in_bounds (datetime64_ns (d_dteday r)) = true)
    (df_day0 data) ∧
  Forall (λ r, valid_date (h_dteday r) = true ∧ ns_in_bounds (datetime64_ns (h_dteday r)) = true)
    (df_hour0 data).
Proof.
  intros Hl. apply load_ok in Hl as [Hd Hh]. apply convert_col_ok in Hd, Hh.
  assert (Hd' : Forall2 (λ rr r, to_datetime (rd_dteday rr) = Ok (d_dteday r) ∧
                   r = day_with_date rr (d_dteday r)) (raw_day raw) (df_day0 data))
    by (eapply Forall2_impl; [exact Hd|]; intros ?? (d & ? & ->); by split).
  assert (Hh' : Forall2 (λ rr r, to_datetime (rh_dteday rr) = Ok (h_dteday r) ∧
                   r = hour_with_date rr (h_dteday r)) (raw_hour raw) (df_hour0 data))
    by (eapply Forall2_impl; [exact Hh|]; intros ?? (d & ? & ->); by split).
  split_and!; [done|done| |].
  - eapply Forall2_Forall_r_impl; [|exact Hd']. intros ?? [H _]. apply to_datetime_ok in H as (_ & ? & ?). done.
  - eapply Forall2_Forall_r_impl; [|exact Hh']. intros ?? [H _]. apply to_datetime_ok in H as (_ & ? & ?). done.
Qed.

(** C39. Loading fails exactly with the error of the first cell that does
    not convert: in the day table, or, when the day table converts, in the
    hour table. *)
Theorem load_error (raw : RawData) (e : exn) :
  load raw = Err e ↔
  (∃ pre r post, raw_day raw = pre ++ r :: post ∧
     Forall (λ x, ∃ d, to_datetime (rd_dteday x) = Ok d) pre ∧ to_datetime (rd_dteday r) = Err e) ∨
  (Forall (λ x, ∃ d, to_datetime (rd_dteday x) = Ok d) (raw_day raw) ∧
   ∃ pre r post, raw_hour raw = pre ++ r :: post ∧
     Forall (λ x, ∃ d, to_datetime (rh_dteday x) = Ok d) pre ∧ to_datetime (rh_dteday r) = Err e).
Proof.
  unfold load. destruct (convert_col rd_dteday day_with_date (raw_day raw)) as [day|e'] eqn:Ed; simpl.
  - assert (Hall : Forall (λ x, ∃ d, to_datetime (rd_dteday x) = Ok d) (raw_day raw)).
    { apply convert_col_ok in Ed. eapply Forall2_Forall_l_impl; [|exact Ed].
      intros ?? (d & ? & _). by eexists. }
    destruct (convert_col rh_dteday hour_with_date (raw_hour raw)) as [hour|e''] eqn:Eh; simpl.
    + split; [discriminate|]. intros [(pre & r & post & Hdf & Hpre & Hr)|(_ & Hh)].
      * assert (convert_col rd_dteday day_with_date (raw_day raw) = Err e) as E'
          by (apply convert_col_err; eauto 10). congruence.
      * apply (convert_col_err rh_dteday hour_with_date) in Hh. congruence.
    + rewrite <- (convert_col_err rh_dteday hour_with_date). split.
      * intros [= ->]. by right.
      * intros [Hl|[_ Hh]]; [|congruence]. apply (convert_col_err rd_dteday day_with_date) in Hl. congruence.
  - rewrite <- (convert_col_err rd_dteday day_with_date). split.
    + intros [= ->]. by left.
    + intros [Hl|[Hall _]]; [congruence|]. destruct (convert_col_all_ok rd_dteday day_with_date _ Hall).
      congruence.
Qed.

(** ** Examples *)

(** pandas' documented bounds: [Timestamp.min] is 1677-09-21 00:12:43 and
    [Timestamp.max] 2262-04-11 23:47:16, so the first and last dates it can
    hold at midnight are 1677-09-22 and 2262-04-11. *)
Example to_datetime_bounds :
  to_datetime "1677-09-22" = Ok (mkDate 1677 9 22) ∧
  to_datetime "1677-09-21" = Err (bounds_error "1677-09-21") ∧
  to_datetime "2262-04-11" = Ok (mkDate 2262 4 11) ∧
  to_datetime "2262-04-12" = Err (bounds_error "2262-04-12") ∧
  to_datetime "2021-02-30" = Err (parse_error "2021-02-30") ∧
  to_datetime "2021-2-3" = Ok (mkDate 2021 2 3) ∧
  to_datetime "-2021-01-01" = Err (bounds_error "-2021-01-01") ∧
  to_datetime "0000-01-01" = Err (bounds_error "0000-01-01").
Proof. split_and!; reflexivity. Qed.

Definition spec_raw : RawData :=
  mkRawData (map day_to_raw spec_days) [mkRawHour "2021-01-01" "Morning" 4].

Lemma load_types_witness :
  Forall2 (λ rr r, to_datetime (rd_dteday rr) = Ok (d_dteday r) ∧ r = day_with_date rr (d_dteday r))
    (raw_day spec_raw) spec_days ∧
  Forall2 (λ rr r, to_datetime (rh_dteday rr) = Ok (h_dteday r) ∧ r = hour_with_date rr (h_dteday r))
    (raw_hour spec_raw) [mkHour (mkDate 2021 1 1) "Morning" 4] ∧
  Forall (λ r, valid_date (d_dteday r) = true ∧ ns_in_bounds (datetime64_ns (d_dteday r)) = true)
    spec_days ∧
  Forall (λ r, valid_date (h_dteday r) = true ∧ ns_in_bounds (datetime64_ns (h_dteday r)) = true)
    [mkHour (mkDate 2021 1 1) "Morning" 4].
Proof. apply (load_types spec_raw (mkData spec_days [mkHour (mkDate 2021 1 1) "Morning" 4])). vm_compute. reflexivity. Defined.

Definition bad_raw : RawData :=
  mkRawData [day_to_raw (mkDay (mkDate 2021 1 1) 1 1 0 0 0 1 1 2);
             mkRawDay "2021-02-30" 1 1 0 0 0 1 1 2] [].

Lemma load_error_witness :
  load bad_raw = Err (parse_error "2021-02-30") ↔
  (∃ pre r post, raw_day bad_raw = pre ++ r :: post ∧
     Forall (λ x, ∃ d, to_datetime (rd_dteday x) = Ok d) pre ∧
     to_datetime (rd_dteday r) = Err (parse_error "2021-02-30")) ∨
  (Forall (λ x, ∃ d, to_datetime (rd_dteday x) = Ok d) (raw_day bad_raw) ∧
   ∃ pre r post, raw_hour bad_raw = pre ++ r :: post ∧
     Forall (λ x, ∃ d, to_datetime (rh_dteday x) = Ok d) pre ∧
     to_datetime (rh_dteday r) = Err (parse_error "2021-02-30")).
Proof. apply load_error. Defined.

End Loader.
