(* ===== verification/DateFilter.v ===== *)
(** * DateFilter: [f_date] (l.19-20)

  [df[(df["dteday"] >= str(start_date)) & (df["dteday"] <= str(end_date))]]
  on any table with a date column (the [Dated] interface of [Tables]): the
  two bounds are formatted with [str] and parsed back by pandas
  ([Dates.date_str], [Dates.parse_date]); the boolean mask keeps the rows
  in table order.  The script applies it to both tables (l.153-154). *)

From S2P Require Import Prelude Dates Tables.
Import Date Tables.

Module DateFilter.

Section Filter.
Context {R : Type} `{Dated R}.

(** The mask of one row: [start <= dteday <= end]. *)
Definition in_range (s e : date) (r : R) : Prop := date_le s (dteday r) ∧ date_le (dteday r) e.

#[export] Instance in_range_dec s e : ∀ r, Decision (in_range s e r).
Proof. intros r. unfold in_range. apply _. Defined.

(** l.19-20.  A bound pandas cannot read as a timestamp makes the
    comparison raise [TypeError] (unreachable for a [date]: see
    [Dates.Date.date_str_roundtrip]). *)
Definition f_date (df : list R) (start_date end_date : date) : result (list R) :=
  match parse_date (date_str start_date), parse_date (date_str end_date) with
  | Some s, Some e => Ok (filter (in_range s e) df)
  | _, _ => Err (TypeError "Invalid comparison between dtype=datetime64[ns] and str")
  end.

Lemma f_date_valid (df : list R) (s e : date) :
  valid_date s = true → valid_date e = true → f_date df s e = Ok (filter (in_range s e) df).
Proof. intros Hs He. unfold f_date. rewrite !date_str_roundtrip by done. done. Qed.

(** C1. On valid bounds the filter never fails, keeps exactly the rows with
    [start <= dteday <= end], and returns them as a sublist of the table
    (same rows, same order). *)
Theorem f_date_spec (df : list R) (s e : date) :
  valid_date s = true → valid_date e = true →
  ∃ out, f_date df s e = Ok out ∧
    (∀ r, r ∈ out ↔ r ∈ df ∧ date_le s (dteday r) ∧ date_le (dteday r) e) ∧
    sublist out df.
Proof.
  intros Hs He. eexists. split; [by apply f_date_valid|]. split.
  - intros r. rewrite list_elem_of_filter. unfold in_range. tauto.
  - apply sublist_filter.
Qed.

(** C2. An inverted range ([end_date] before [start_date]) yields the empty
    table, not an error. *)
Theorem f_date_inverted (df : list R) (s e : date) :
  valid_date s = true → valid_date e = true → ¬ date_le s e →
  f_date df s e = Ok [].
Proof.
  intros Hs He Hse. rewrite f_date_valid by done. f_equal.
  apply filter_Forall_nil, Forall_forall.
  intros r _ [H1 H2]. apply Hse. by trans (dteday r).
Qed.

(** The widget's default range [min_date, max_date] keeps every row. *)
Lemma f_date_full_range (df : list R) (s e : date) :
  valid_date s = true → valid_date e = true →
  Forall (in_range s e) df → f_date df s e = Ok df.
Proof.
  intros Hs He Hall. rewrite f_date_valid by done. f_equal.
  by apply filter_Forall_id.
Qed.

(** Filtering twice is filtering by both ranges. *)
Lemma f_date_twice (df out : list R) (s1 e1 s2 e2 : date) :
  valid_date s1 = true → valid_date e1 = true →
  valid_date s2 = true → valid_date e2 = true →
  f_date df s1 e1 = Ok out →
  f_date out s2 e2 = Ok (filter (λ r, in_range s2 e2 r ∧ in_range s1 e1 r) df).
Proof.
  intros ???? Hout. rewrite f_date_valid in Hout by done. injection Hout as <-.
  rewrite f_date_valid by done. f_equal. apply list_filter_filter.
Qed.

End Filter.

Lemma f_date_spec_witness :
  ∃ out, f_date spec_days (mkDate 2021 1 2) (mkDate 2021 1 3) = Ok out ∧
    (∀ r, r ∈ out ↔ r ∈ spec_days ∧ date_le (mkDate 2021 1 2) (dteday r) ∧
                    date_le (dteday r) (mkDate 2021 1 3)) ∧
    sublist out spec_days.
Proof. apply f_date_spec; reflexivity. Defined.

Example f_date_spec_days :
  f_date spec_days (mkDate 2021 1 2) (mkDate 2021 1 3) = Ok (drop 1 spec_days).
Proof. reflexivity. Qed.

Lemma f_date_inverted_witness :
  f_date spec_days (mkDate 2021 1 3) (mkDate 2021 1 1) = Ok [].
Proof. apply f_date_inverted; [reflexivity | reflexivity | vm_compute; discriminate]. Defined.

End DateFilter.
