(* ===== verification/SortValues.v ===== *)
(** * SortValues: [DataFrame.sort_values(by=..., ascending=...)]

  The script sorts the group means descending (l.42, l.48) and the rounded
  means ascending for the bar charts (l.68, l.85).  For one sort column
  pandas' [nargsort] calls numpy's [argsort(kind="quicksort")] on the
  column; for [ascending=False] it reverses the column first and the
  resulting order after.  numpy sorts arrays of at most 16 elements by
  insertion sort: each element moves left past the elements of the sorted
  prefix that are strictly greater.  [insertion_sort] is that loop, with
  the sorted prefix kept last-element-first; [sort_values] is [nargsort].
  [np_outer] / [np_shift] are numpy's loops as written, on an array
  updated in place by index, with fuel; [np_insertion_sort] is proved to
  finish and to agree with [insertion_sort] (C9).

  The abstract specification is [stable_sorted]: sorted by the key, a
  permutation of the input, and the same order within every class of
  equal keys.  [sort_values_spec] shows that [sort_values] meets it and
  [stable_sorted_unique] that it determines the output. *)

From S2P Require Import Prelude.

Module SortValues.

Section Sort.
Context {A : Type} (key : A → Q).

(** One step of numpy's insertion sort: [rp] is the sorted prefix, last
    element first; [x] moves left while it is strictly less. *)
Fixpoint ins_rev (x : A) (rp : list A) : list A :=
  match rp with
  | [] => [x]
  | y :: rp' => if Qlt_le_dec (key x) (key y) then y :: ins_rev x rp' else x :: y :: rp'
  end.

Definition insertion_sort (l : list A) : list A :=
  rev (foldl (λ rp x, ins_rev x rp) [] l).

(** [pandas.core.sorting.nargsort] for one column without NaN. *)
Definition sort_values (ascending : bool) (l : list A) : list A :=
  if ascending then insertion_sort l else rev (insertion_sort (rev l)).

(** numpy's small-array insertion sort as its C code runs it on the array
    ([npysort/quicksort.cpp]: [for (pi = pl + 1; pi <= pr; ++pi)] with the
    inner [while (pj > pl && less(vp, v[*pk])) *pj-- = *pk--; *pj = vi;]).
    Both loops take fuel; [None] means the fuel ran out. *)
Fixpoint np_shift (fuel : nat) (a : list A) (j : nat) (x : A) : option (list A) :=
  match fuel with
  | O => None
  | S f =>
      match j with
      | O => Some (<[0%nat := x]> a)
      | S k =>
          match a !! k with
          | Some y => if Qlt_le_dec (key x) (key y) then np_shift f (<[j := y]> a) k x
                      else Some (<[j := x]> a)
          | None => None
          end
      end
  end.

Fixpoint np_outer (fuel : nat) (a : list A) (i : nat) : option (list A) :=
  match fuel with
  | O => None
  | S f =>
      if decide (i < length a)%nat then
        match a !! i with
        | Some x => a' ← np_shift (S i) a i x; np_outer f a' (S i)
        | None => None
        end
      else Some a
  end.

Definition np_insertion_sort (l : list A) : option (list A) := np_outer (S (length l)) l 1.

(** ** The specification *)

Definition key_le (a b : A) : Prop := (key a <= key b)%Q.
Definition key_ge (a b : A) : Prop := (key b <= key a)%Q.

(** The elements whose key equals [q], in order. *)
Definition key_class (q : Q) (l : list A) : list A := filter (λ a, key a == q)%Q l.

(** [out] is [l] sorted stably along [R]. *)
Definition stable_sorted (R : A → A → Prop) (l out : list A) : Prop :=
  Sorted R out ∧ out ≡ₚ l ∧ ∀ q, key_class q out = key_class q l.

(** ** Left insertion, the functional reading of one step *)

Fixpoint ins (x : A) (l : list A) : list A :=
  match l with
  | [] => [x]
  | y :: l' => if Qlt_le_dec (key x) (key y) then x :: y :: l' else y :: ins x l'
  end.

Lemma ins_snoc_lt x y l : (key x < key y)%Q → ins x (l ++ [y]) = ins x l ++ [y].
Proof.
  intros Hxy. induction l as [|z l IH]; simpl.
  - destruct (Qlt_le_dec (key x) (key y)); [done | lra].
  - destruct (Qlt_le_dec (key x) (key z)); [done|]. by rewrite IH.
Qed.

Lemma ins_all_le x l : Forall (λ y, key y <= key x)%Q l → ins x l = l ++ [x].
Proof.
  induction 1 as [|y l Hy _ IH]; [done|]. simpl.
  destruct (Qlt_le_dec (key x) (key y)); [lra|]. by rewrite IH.
Qed.

Lemma Sorted_snoc_Forall (l : list A) y :
  Sorted key_le (l ++ [y]) → Forall (λ z, key z <= key y)%Q l.
Proof.
  intros Hs. apply Sorted_StronglySorted in Hs; [|intros a b c; unfold key_le; lra].
  induction l as [|z l IH]; [done|]. simpl in Hs.
  apply StronglySorted_inv in Hs as [Hs Hf]. constructor.
  - rewrite Forall_app in Hf. destruct Hf as [_ Hf]. by inversion Hf.
  - by apply IH.
Qed.

Lemma Sorted_app_l (l1 l2 : list A) : Sorted key_le (l1 ++ l2) → Sorted key_le l1.
Proof.
  induction l1 as [|x l1 IH]; simpl; [constructor|]. intros Hs.
  apply Sorted_inv in Hs as [Hs Hh]. constructor; [by apply IH|].
  destruct l1; simpl in *; [constructor|]. inversion Hh. by constructor.
Qed.

(** On a sorted prefix the right-to-left loop is left insertion. *)
Lemma ins_rev_ins x l : Sorted key_le l → rev (ins_rev x (rev l)) = ins x l.
Proof.
  induction l as [|y l IH] using rev_ind; [done|]. intros Hs.
  rewrite rev_app_distr. simpl.
  destruct (Qlt_le_dec (key x) (key y)) as [Hlt|Hle]; simpl.
  - rewrite IH by (by eapply Sorted_app_l). by rewrite ins_snoc_lt.
  - rewrite rev_involutive, ins_all_le; [by rewrite <- app_assoc|].
    apply Forall_app. split; [|constructor; [done|constructor]].
    eapply Forall_impl; [by apply Sorted_snoc_Forall|]. simpl. intros. lra.
Qed.

Lemma HdRel_ins x y l : HdRel key_le y l → (key y <= key x)%Q → HdRel key_le y (ins x l).
Proof.
  destruct l as [|z l]; simpl; intros Hh Hyx; [by constructor|].
  destruct (Qlt_le_dec (key x) (key z)); constructor; [done|]. by inversion Hh.
Qed.

Lemma ins_sorted x l : Sorted key_le l → Sorted key_le (ins x l).
Proof.
  induction l as [|y l IH]; simpl; intros Hs; [by repeat constructor|].
  apply Sorted_inv in Hs as [Hs Hh].
  destruct (Qlt_le_dec (key x) (key y)).
  - constructor; [by constructor|]. constructor. unfold key_le. lra.
  - constructor; [by apply IH|]. by apply HdRel_ins.
Qed.

Lemma ins_perm x l : ins x l ≡ₚ x :: l.
Proof.
  induction l as [|y l IH]; simpl; [done|].
  destruct (Qlt_le_dec (key x) (key y)); [done|]. rewrite IH. constructor.
Qed.

Lemma key_class_above x q l :
  Forall (λ z, key x < key z)%Q l → (key x == q)%Q → key_class q l = [].
Proof.
  intros Hall Hq. apply filter_Forall_nil. eapply Forall_impl; [done|]. simpl. intros. lra.
Qed.

Lemma key_class_head a r q :
  key_class q (a :: r) = if decide (key a == q)%Q then a :: key_class q r else key_class q r.
Proof. unfold key_class. by rewrite filter_cons. Qed.

(** Inserting into a sorted list appends the element to its key class. *)
Lemma ins_class x q l :
  Sorted key_le l → key_class q (ins x l) = key_class q l ++ key_class q [x].
Proof.
  induction l as [|y l IH]; simpl; intros Hs; [done|].
  rewrite (key_class_head x []). simpl.
  destruct (Qlt_le_dec (key x) (key y)) as [Hlt|Hle].
  - rewrite (key_class_head x (y :: l)). case_decide as Hq.
    + rewrite (key_class_above x q (y :: l)); [done| |done].
      apply Sorted_StronglySorted in Hs; [|intros a b c; unfold key_le; lra].
      apply StronglySorted_inv in Hs as [_ Hf]. constructor; [done|].
      eapply Forall_impl; [done|]. unfold key_le. simpl. intros. lra.
    + by rewrite app_nil_r.
  - apply Sorted_inv in Hs as [Hs _].
    rewrite !(key_class_head y), IH by done. rewrite (key_class_head x []). simpl.
    case_decide; done.
Qed.

Lemma foldl_ins_spec acc l :
  Sorted key_le acc →
  Sorted key_le (foldl (λ acc x, ins x acc) acc l) ∧
  foldl (λ acc x, ins x acc) acc l ≡ₚ acc ++ l ∧
  ∀ q, key_class q (foldl (λ acc x, ins x acc) acc l) = key_class q acc ++ key_class q l.
Proof.
  revert acc. induction l as [|x l IH]; intros acc Hs; simpl.
  - rewrite app_nil_r. split_and!; [done|done|]. intros q. unfold key_class. by rewrite app_nil_r.
  - destruct (IH (ins x acc)) as (H1 & H2 & H3); [by apply ins_sorted|].
    split_and!; [done| |].
    + rewrite H2, ins_perm. simpl. apply Permutation_middle.
    + intros q. rewrite H3, ins_class by done. unfold key_class.
      rewrite <- app_assoc. f_equal. rewrite (filter_app _ [x] l). done.
Qed.

Lemma foldl_ins_rev acc l :
  Sorted key_le acc →
  rev (foldl (λ rp x, ins_rev x rp) (rev acc) l) = foldl (λ acc x, ins x acc) acc l.
Proof.
  revert acc. induction l as [|x l IH]; intros acc Hs; simpl; [apply rev_involutive|].
  rewrite <- IH by (by apply ins_sorted). f_equal. f_equal.
  rewrite <- (rev_involutive (ins_rev x (rev acc))). f_equal. by apply ins_rev_ins.
Qed.

Lemma insertion_sort_spec l : stable_sorted key_le l (insertion_sort l).
Proof.
  unfold insertion_sort. change (@nil A) with (rev (@nil A)) at 1. rewrite (foldl_ins_rev [] l) by constructor.
  destruct (foldl_ins_spec [] l) as (H1 & H2 & H3); [constructor|]. split_and!; done.
Qed.

Lemma key_class_rev q l : key_class q (rev l) = rev (key_class q l).
Proof. unfold key_class. rewrite !rev_reverse. apply filter_reverse. Qed.

Lemma Sorted_rev_ge l : Sorted key_le l → Sorted key_ge (rev l).
Proof. intros Hs. rewrite rev_reverse. by apply (Sorted_reverse key_le). Qed.

(** [sort_values] meets the specification, in both directions. *)
Lemma sort_values_spec l :
  stable_sorted key_le l (sort_values true l) ∧ stable_sorted key_ge l (sort_values false l).
Proof.
  split; [apply insertion_sort_spec|]. simpl.
  destruct (insertion_sort_spec (rev l)) as (H1 & H2 & H3). split_and!.
  - by apply Sorted_rev_ge.
  - by rewrite H2, !rev_reverse, !reverse_Permutation.
  - intros q. by rewrite key_class_rev, H3, key_class_rev, rev_involutive.
Qed.

(** ** numpy's loops compute [insertion_sort] *)

(** The inner loop inserts [x] into the sorted prefix [p] from the right;
    [h] is the slot [x] was read from. *)
Lemma np_shift_S f a k x :
  np_shift (S f) a (S k) x =
    match a !! k with
    | Some y => if Qlt_le_dec (key x) (key y) then np_shift f (<[S k := y]> a) k x
                else Some (<[S k := x]> a)
    | None => None
    end.
Proof. reflexivity. Qed.

Lemma np_shift_spec p h s x :
  np_shift (S (length p)) (p ++ h :: s) (length p) x = Some (rev (ins_rev x (rev p)) ++ s).
Proof.
  revert h s. induction p as [|y p0 IH] using rev_ind; intros h s; [reflexivity|].
  rewrite length_app. simpl length. rewrite Nat.add_1_r.
  rewrite np_shift_S, <- app_assoc. simpl app.
  rewrite lookup_app_r, Nat.sub_diag by lia. cbn [lookup list_lookup].
  rewrite rev_app_distr. simpl rev. cbn [ins_rev].
  destruct (Qlt_le_dec (key x) (key y)).
  - rewrite insert_app_r_alt, Nat.sub_succ_l, Nat.sub_diag by lia.
    change (<[S 0 := y]> (y :: h :: s)) with (y :: y :: s).
    rewrite IH. simpl. by rewrite <- app_assoc.
  - rewrite insert_app_r_alt, Nat.sub_succ_l, Nat.sub_diag by lia.
    change (<[S 0 := x]> (y :: h :: s)) with (y :: x :: s).
    simpl. by rewrite rev_involutive, <- !app_assoc.
Qed.

Lemma np_shift_at p h s x j :
  length p = j → np_shift (S j) (p ++ h :: s) j x = Some (rev (ins_rev x (rev p)) ++ s).
Proof. intros <-. apply np_shift_spec. Qed.

Lemma length_insertion_sort l : length (insertion_sort l) = length l.
Proof. destruct (insertion_sort_spec l) as (_ & Hp & _). by apply Permutation_length. Qed.

(** The outer loop keeps the sorted prefix [take i l] before the rest. *)
Lemma np_outer_spec l fuel i :
  (i <= length l)%nat → (length l - i < fuel)%nat →
  np_outer fuel (insertion_sort (take i l) ++ drop i l) i = Some (insertion_sort l).
Proof.
  revert i. induction fuel as [|f IH]; intros i Hi Hf; [lia|]. cbn [np_outer].
  assert (Hp : length (insertion_sort (take i l)) = i)
    by (rewrite length_insertion_sort, length_take; lia).
  rewrite length_app, Hp, length_drop.
  destruct (decide (i < i + (length l - i))%nat) as [Hlt|Hge].
  - destruct (drop i l) as [|x rest] eqn:Ed; [apply (f_equal length) in Ed; rewrite length_drop in Ed; simpl in Ed; lia|].
    rewrite lookup_app_r, Hp, Nat.sub_diag by lia. cbn [lookup list_lookup].
    rewrite np_shift_at by exact Hp. cbn [mbind option_bind].
    assert (Hx : l !! i = Some x) by (rewrite <- (Nat.add_0_r i), <- lookup_drop, Ed; done).
    assert (Hrest : rest = drop (S i) l)
      by (rewrite <- (Nat.add_1_r i), <- drop_drop, Ed; done).
    rewrite Hrest. unfold insertion_sort at 1. rewrite rev_involutive.
    replace (rev (ins_rev x (foldl (λ rp x, ins_rev x rp) [] (take i l))))
      with (insertion_sort (take (S i) l)).
    + apply IH; lia.
    + unfold insertion_sort. by rewrite (take_S_r _ _ x), foldl_app.
  - assert (i = length l) as -> by lia. by rewrite firstn_all, drop_all, app_nil_r.
Qed.

(** C9. numpy's insertion sort terminates: on every array its loops finish
    within their fuel (the outer [for] runs once per element, the inner
    [while] at most once per sorted element), and the result is
    [sort_values(ascending=True)]. *)
Theorem np_insertion_sort_terminates (l : list A) :
  np_insertion_sort l = Some (sort_values true l).
Proof.
  destruct l as [|x l]; [reflexivity|]. unfold np_insertion_sort, sort_values.
  change (np_outer (S (length (x :: l))) (x :: l) 1)
    with (np_outer (S (length (x :: l))) (insertion_sort (take 1 (x :: l)) ++ drop 1 (x :: l)) 1).
  apply np_outer_spec; simpl; lia.
Qed.

Section unique.
Context (R : A → A → Prop) `{!Transitive R}.
Context (R_key : ∀ a b, R a b → R b a → (key a == key b)%Q).

(** A sorted list is determined by its elements and the order inside its
    key classes. *)
Lemma stable_sorted_classes_unique out1 out2 :
  Sorted R out1 → Sorted R out2 → out1 ≡ₚ out2 →
  (∀ q, key_class q out1 = key_class q out2) → out1 = out2.
Proof.
  intros Hs1. apply Sorted_StronglySorted in Hs1; [|done]. revert out2.
  induction Hs1 as [|a r1 Hr1 IH Ha]; intros out2 Hs2 Hp Hc.
  { symmetry. by apply Permutation_nil. }
  destruct out2 as [|b r2]; [by apply Permutation_nil_r in Hp|].
  apply Sorted_StronglySorted in Hs2 as Hs2'; [|done].
  apply StronglySorted_inv in Hs2' as [_ Hb].
  assert (a = b) as <-.
  { assert (a ∈ b :: r2) as Ha' by (rewrite <- Hp; left).
    assert (b ∈ a :: r1) as Hb' by (rewrite Hp; left).
    apply elem_of_cons in Ha' as [->|Ha']; [done|].
    apply elem_of_cons in Hb' as [->|Hb']; [done|].
    rewrite Forall_forall in Ha, Hb.
    pose proof (R_key a b (Ha b Hb') (Hb a Ha')) as Hk.
    specialize (Hc (key a)). rewrite !key_class_head in Hc.
    rewrite !decide_True in Hc by (done || by symmetry). by injection Hc. }
  f_equal. apply IH.
  - by apply Sorted_inv in Hs2 as [? _].
  - by apply (inj (a ::.)).
  - intros q. specialize (Hc q). rewrite !key_class_head in Hc.
    case_decide; [by injection Hc|done].
Qed.

Lemma stable_sorted_unique l out1 out2 :
  stable_sorted R l out1 → stable_sorted R l out2 → out1 = out2.
Proof.
  intros (H1 & H2 & H3) (H4 & H5 & H6). apply stable_sorted_classes_unique; [done..| |].
  - by rewrite H2, H5.
  - intros q. by rewrite H3, H6.
Qed.
End unique.

#[export] Instance key_le_trans : Transitive key_le.
Proof. intros a b c. unfold key_le. lra. Qed.
#[export] Instance key_ge_trans : Transitive key_ge.
Proof. intros a b c. unfold key_ge. lra. Qed.

(** C8. [sort_values(ascending=False)] implements the stable descending
    sort: its result is the one list that is sorted by decreasing key, a
    permutation of the input, and keeps equal keys in input order. *)
Theorem sort_values_desc_refines l out :
  stable_sorted key_ge l out ↔ out = sort_values false l.
Proof.
  split; [|intros ->; apply sort_values_spec].
  intros Hout. eapply (stable_sorted_unique key_ge); [|done|apply sort_values_spec].
  unfold key_ge. intros a b ??. lra.
Qed.

(** [sort_values(ascending=True)] implements the stable ascending sort. *)
Theorem sort_values_asc_refines l out :
  stable_sorted key_le l out ↔ out = sort_values true l.
Proof.
  split; [|intros ->; apply sort_values_spec].
  intros Hout. eapply (stable_sorted_unique key_le); [|done|apply sort_values_spec].
  unfold key_le. intros a b ??. lra.
Qed.

(** ** Ties *)

Lemma Sorted_adjacent (R : A → A → Prop) (out : list A) :
  (∀ l1 a b l2, out = l1 ++ a :: b :: l2 → R a b) → Sorted R out.
Proof.
  induction out as [|a out IH]; intros Hadj; [constructor|]. constructor.
  - apply IH. intros l1 x y l2 ->. by apply (Hadj (a :: l1) x y l2).
  - destruct out as [|b out]; constructor. by apply (Hadj [] a b out).
Qed.

Lemma StronglySorted_adjacent (T : A → A → Prop) l1 a b l2 :
  StronglySorted T (l1 ++ a :: b :: l2) → T a b.
Proof.
  induction l1 as [|x l1 IH]; simpl; intros Hs.
  - apply StronglySorted_inv in Hs as [_ Hf]. by inversion Hf.
  - apply IH. by apply StronglySorted_inv in Hs as [? _].
Qed.

Lemma StronglySorted_filter (T : A → A → Prop) (P : A → Prop) `{∀ x, Decision (P x)} l :
  StronglySorted T l → StronglySorted T (filter P l).
Proof.
  induction 1 as [|x l Hs IH Hf]; [constructor|]. rewrite filter_cons.
  case_decide; [|done]. constructor; [done|].
  apply Forall_forall. intros y Hy. apply list_elem_of_filter in Hy as [_ Hy].
  by eapply Forall_forall.
Qed.

(** After a stable descending sort, two neighbours either have decreasing
    keys or equal keys and the order [T] they had in the input. *)
Lemma stable_sorted_ties (T : A → A → Prop) l out :
  stable_sorted key_ge l out → StronglySorted T l →
  Sorted (λ a b, (key b < key a)%Q ∨ (key a == key b)%Q ∧ T a b) out.
Proof.
  intros (Hs & _ & Hc) HT. apply Sorted_adjacent. intros l1 a b l2 ->.
  assert (Hab : key_ge a b).
  { apply Sorted_StronglySorted in Hs; [|apply _].
    exact (StronglySorted_adjacent key_ge l1 a b l2 Hs). }
  unfold key_ge in Hab. destruct (Qlt_le_dec (key b) (key a)) as [?|Hba]; [by left|].
  right. split; [lra|].
  specialize (Hc (key a)). unfold key_class in Hc.
  rewrite filter_app, !filter_cons_True in Hc by lra.
  apply (StronglySorted_adjacent T (filter (λ x, key x == key a)%Q l1) a b
           (filter (λ x, key x == key a)%Q l2)).
  rewrite Hc. by apply StronglySorted_filter.
Qed.

(** ** Distinct keys *)

Lemma key_class_distinct q l out :
  NoDup l → (∀ a b, a ∈ l → b ∈ l → (key a == key b)%Q → a = b) →
  out ≡ₚ l → key_class q out = key_class q l.
Proof.
  intros Hnd Hinj Hp. unfold key_class.
  assert (Hc : filter (λ a, key a == q)%Q out ≡ₚ filter (λ a, key a == q)%Q l) by by rewrite Hp.
  destruct (filter (λ a, key a == q)%Q l) as [|a [|b k]] eqn:E.
  - by apply Permutation_nil_r in Hc.
  - by apply Permutation_singleton_r in Hc.
  - exfalso.
    assert (Ha : a ∈ filter (λ a, key a == q)%Q l) by (rewrite E; left).
    assert (Hb : b ∈ filter (λ a, key a == q)%Q l) by (rewrite E; right; left).
    apply list_elem_of_filter in Ha as [Ha Ha'], Hb as [Hb Hb'].
    assert (a = b) as <- by (apply Hinj; [done..|]; rewrite Ha, Hb; reflexivity).
    pose proof (NoDup_filter (λ a, key a == q)%Q l Hnd) as Hn. rewrite E in Hn.
    apply NoDup_cons in Hn as [Hn _]. apply Hn. left.
Qed.

(** When the keys are distinct, every sorted permutation of the input is
    the output of [sort_values]: the result does not depend on the
    algorithm numpy picks (insertion sort, introsort or heapsort). *)
Lemma sort_values_distinct_keys l out :
  NoDup l → (∀ a b, a ∈ l → b ∈ l → (key a == key b)%Q → a = b) →
  out ≡ₚ l → Sorted key_le out → out = sort_values true l.
Proof.
  intros Hnd Hinj Hp Hs.
  eapply (stable_sorted_unique key_le); [|split_and!; [exact Hs|exact Hp|] | apply sort_values_spec].
  - unfold key_le. intros a b ??. lra.
  - intros q. by apply key_class_distinct.
Qed.

End Sort.
End SortValues.
