(* ===== verification/GroupBy.v ===== *)
(** * GroupBy: [df.groupby(by=key).agg({"cnt": "mean"})] and the two
    aggregators [f_season_cnt] (l.39-42) and [f_time_cnt] (l.45-48)

  pandas' [groupby] (with its default [sort=True]) yields one group per
  distinct key, in ascending key order; [agg mean] gives each group's
  mean count.  The key column is the integer season code for the day
  table and the time-of-day label (a string) for the hour table: the
  class [GroupKey] is the interface the aggregator asks of a key (a
  decidable total order), with instances for both.  The aggregators then
  [sort_values("cnt", ascending=False)] ([SortValues]) and [reset_index]
  (the list of pairs is the resulting two-column table). *)

From S2P Require Import Prelude Dates Tables SortValues.
Import Tables SortValues.

Module GroupBy.

(** What the aggregator needs of a key column: equality and the total
    order pandas sorts the group keys by. *)
Class GroupKey (K : Type) := {
  gk_eq_dec :: EqDecision K;
  gk_le : relation K;
  gk_le_dec :: RelDecision gk_le;
  gk_le_po :: PartialOrder gk_le;
  gk_le_total :: Total gk_le
}.

(** Season codes compare as integers. *)
#[export] Instance Z_GroupKey : GroupKey Z := { gk_le := Z.le }.
(** Time-of-day labels compare as Python strings (code point order, which
    is byte order on UTF-8). *)
#[export] Instance string_GroupKey : GroupKey string := { gk_le := String.le }.

Section Groups.
Context {K : Type} `{GroupKey K} {R : Type}.

Definition gk_lt (a b : K) : Prop := gk_le a b ∧ a ≠ b.

(** Insert a key into the ascending list of distinct keys seen so far. *)
Fixpoint insert_key (k : K) (ks : list K) : list K :=
  match ks with
  | [] => [k]
  | k' :: ks' =>
      if decide (k = k') then ks
      else if decide (gk_le k k') then k :: ks
      else k' :: insert_key k ks'
  end.

(** The group keys of [groupby(sort=True)]: distinct, ascending. *)
Definition group_keys (key : R → K) (df : list R) : list K :=
  foldr (λ r ks, insert_key (key r) ks) [] df.

(** The rows of one group, in table order. *)
Definition group_rows (key : R → K) (k : K) (df : list R) : list R :=
  filter (λ r, key r = k) df.

(** The mean of a non-empty integer column (every group has a row). *)
Definition group_mean (vals : list Z) : Q :=
  inject_Z (Zsum vals) / inject_Z (Z.of_nat (length vals)).

(** [df.groupby(by=key).agg({"cnt": "mean"})], as (key, mean) rows. *)
Definition groupby_mean `{Counted R} (key : R → K) (df : list R) : list (K * Q) :=
  map (λ k, (k, group_mean (map cnt (group_rows key k df)))) (group_keys key df).

(** [.sort_values(by="cnt", ascending=False).reset_index()] *)
Definition agg_sorted `{Counted R} (key : R → K) (df : list R) : list (K * Q) :=
  sort_values snd false (groupby_mean key df).

(** ** Keys *)

Lemma gk_lt_trans a b c : gk_lt a b → gk_lt b c → gk_lt a c.
Proof.
  intros [Hab Nab] [Hbc Nbc]. split; [by trans b|].
  intros ->. apply Nab. by apply (anti_symm gk_le).
Qed.

Lemma gk_not_le a b : ¬ gk_le a b → gk_lt b a.
Proof.
  intros Hn. split; [by destruct (total gk_le a b)|]. intros ->. apply Hn. done.
Qed.

Lemma insert_key_elem k ks x : x ∈ insert_key k ks ↔ x = k ∨ x ∈ ks.
Proof.
  induction ks as [|k' ks IH]; simpl; [set_solver|].
  repeat case_decide; subst; set_solver.
Qed.

Lemma insert_key_sorted k ks : StronglySorted gk_lt ks → StronglySorted gk_lt (insert_key k ks).
Proof.
  induction 1 as [|k' ks Hks IH Hall]; simpl; [by repeat constructor|].
  case_decide as E1; [by constructor|].
  case_decide as E2.
  - constructor; [by constructor|]. constructor; [done|].
    eapply Forall_impl; [done|]. intros x Hx. by eapply gk_lt_trans.
  - constructor; [done|]. apply Forall_forall. intros x Hx.
    apply insert_key_elem in Hx as [->|Hx]; [by apply gk_not_le|].
    by eapply Forall_forall.
Qed.

Lemma group_keys_sorted (key : R → K) (df : list R) : StronglySorted gk_lt (group_keys key df).
Proof. induction df as [|r df IH]; simpl; [constructor|]. by apply insert_key_sorted. Qed.

Lemma group_keys_elem (key : R → K) (df : list R) k :
  k ∈ group_keys key df ↔ ∃ r, r ∈ df ∧ key r = k.
Proof.
  induction df as [|r df IH]; simpl; [set_solver|].
  rewrite insert_key_elem, IH. set_solver.
Qed.

(** C10. The group keys are strictly ascending (so distinct) and are exactly
    the keys that occur in the table. *)
Theorem group_keys_spec (key : R → K) (df : list R) :
  StronglySorted gk_lt (group_keys key df) ∧
  ∀ k, k ∈ group_keys key df ↔ ∃ r, r ∈ df ∧ key r = k.
Proof. split; [apply group_keys_sorted | apply group_keys_elem]. Qed.

Lemma StronglySorted_gk_lt_NoDup (ks : list K) : StronglySorted gk_lt ks → NoDup ks.
Proof.
  induction 1 as [|k ks _ IH Hf]; constructor; [|done].
  intros Hk. rewrite Forall_forall in Hf. by destruct (Hf k Hk).
Qed.

(** ** Means *)

Lemma Zsum_indicator (x : K) (v : Z) (ks : list K) :
  NoDup ks → x ∈ ks → Zsum (map (λ k, if decide (x = k) then v else 0) ks) = v.
Proof.
  induction 1 as [|k ks Hk Hnd IH]; [set_solver|]. intros Hx.
  change (Zsum (?a :: ?l)) with (a + Zsum l). simpl. case_decide as E.
  - subst k. rewrite Zsum_map_zero; [lia|].
    apply Forall_forall. intros k Hk'. case_decide; [set_solver|done].
  - rewrite IH; [lia|set_solver].
Qed.

(** Splitting a column along a duplicate-free key list that covers every
    row preserves its sum. *)
Lemma group_sums_partition (key : R → K) (val : R → Z) (ks : list K) (df : list R) :
  NoDup ks → (∀ r, r ∈ df → key r ∈ ks) →
  Zsum (map (λ k, Zsum (map val (group_rows key k df))) ks) = Zsum (map val df).
Proof.
  intros Hnd. induction df as [|r df IH]; intros Hcov.
  - unfold group_rows. simpl. clear. induction ks; unfold Zsum in *; simpl; lia.
  - unfold group_rows in *. simpl.
    erewrite map_ext; [|intros k; rewrite filter_cons; reflexivity].
    transitivity (Zsum (map (λ k, (if decide (key r = k) then val r else 0)
                                + Zsum (map val (filter (λ r, key r = k) df))) ks)).
    { f_equal. apply map_ext. intros k. case_decide; simpl; unfold Zsum; simpl; lia. }
    rewrite Zsum_map_add, IH by set_solver. rewrite Zsum_indicator by set_solver.
    unfold Zsum; simpl. lia.
Qed.

Lemma group_mean_weight (vals : list Z) :
  vals ≠ [] → (group_mean vals * inject_Z (Z.of_nat (length vals)) == inject_Z (Zsum vals))%Q.
Proof.
  intros Hne. unfold group_mean. field.
  change 0%Q with (inject_Z 0). rewrite inject_Z_injective.
  destruct vals; [done|]. simpl. lia.
Qed.

Lemma group_rows_nonempty `{Counted R} (key : R → K) (df : list R) k :
  k ∈ group_keys key df → map cnt (group_rows key k df) ≠ [].
Proof.
  intros Hk. apply group_keys_elem in Hk as (r & Hr & Hkr).
  unfold group_rows. intros Hnil. apply map_eq_nil in Hnil.
  by eapply (filter_nil_not_elem_of _ df r).
Qed.

(** C11. The group means, weighted by the sizes of their groups, add up
    to the column's total: the aggregation loses no row and counts none
    twice. *)
Theorem groupby_mean_weighted `{Counted R} (key : R → K) (df : list R) :
  (Qsum (map (λ '(k, m), m * inject_Z (Z.of_nat (length (group_rows key k df))))
             (groupby_mean key df))
   == inject_Z (col_sum cnt df))%Q.
Proof.
  unfold groupby_mean. rewrite map_map. cbn beta iota.
  pose proof (group_keys_sorted key df) as Hs. pose proof (group_keys_elem key df) as Hm.
  rewrite (Qsum_map_ext _ (λ k, inject_Z (Zsum (map cnt (group_rows key k df))))).
  - rewrite <- (map_map _ inject_Z), Qsum_inject_Z. f_equal. unfold col_sum.
    rewrite group_sums_partition; [done| |].
    + by apply StronglySorted_gk_lt_NoDup.
    + intros r Hr. apply Hm. eauto.
  - intros k Hk. rewrite <- (length_map cnt). apply group_mean_weight.
    by apply group_rows_nonempty.
Qed.

(** C12. The aggregated table lists the groups by decreasing mean, and
    groups with equal means by increasing key (the order [groupby] gave
    them before the stable sort). *)
Theorem agg_sorted_order `{Counted R} (key : R → K) (df : list R) :
  Sorted (λ a b, (b.2 < a.2)%Q ∨ (a.2 == b.2)%Q ∧ gk_lt a.1 b.1) (agg_sorted key df).
Proof.
  apply (stable_sorted_ties snd _ (groupby_mean key df)); [apply sort_values_spec|].
  apply (StronglySorted_map _ gk_lt); [done|]. apply group_keys_sorted.
Qed.

(** The rows of the aggregated table are exactly the groups. *)
Lemma agg_sorted_perm `{Counted R} (key : R → K) (df : list R) :
  agg_sorted key df ≡ₚ groupby_mean key df.
Proof. apply sort_values_spec. Qed.

End Groups.

(** l.39-42 *)
Definition f_season_cnt (df : list DayRow) : list (Z * Q) := agg_sorted d_season df.
(** l.45-48 *)
Definition f_time_cnt (df : list HourRow) : list (string * Q) := agg_sorted h_time_of_day df.
(** Seasons 3 and 1 tie on a mean of 20; season 1 comes first. *)
Example f_season_cnt_ties :
  map fst (f_season_cnt
    [mkDay (Date.mkDate 2021 1 1) 3 1 0 0 0 10 10 20;
     mkDay (Date.mkDate 2021 1 2) 1 1 0 0 0 10 10 20;
     mkDay (Date.mkDate 2021 1 3) 2 1 0 0 0 20 10 30]) = [2; 1; 3].
Proof. vm_compute. reflexivity. Qed.

End GroupBy.
