(* ===== verification/Extremes.v ===== *)
(** * Extremes: the days of maximum and minimum rentals (l.178-244)

  [df_day.loc[df_day['cnt'].idxmax()]] picks the row of the first maximal
  count: numpy's [argmax] scans the column and moves to a later element
  only when it is strictly greater; on an empty column it raises
  [ValueError].  [idxmin] is the same scan with the order flipped.  Each
  tab then shows the row's date ([strftime('%Y-%m-%d')], which agrees with
  [str(date)] for years 1000-9999), its season and weather labels looked
  up in [season_dict] / [cuaca_dict] with [dict.get(k, "Unknown")], the
  three counts and the weather values rounded to two decimals. *)

From S2P Require Import Prelude Dates Tables.
Import Date Tables.

Module Extremes.

Section Scan.
Context {R : Type} (f : R → Z).

(** numpy's [argmax] loop: keep the current best unless strictly beaten. *)
Fixpoint argmax_from (best : R) (l : list R) : R :=
  match l with
  | [] => best
  | r :: l' => argmax_from (if f best <? f r then r else best) l'
  end.

(** numpy's [argmin] loop. *)
Fixpoint argmin_from (best : R) (l : list R) : R :=
  match l with
  | [] => best
  | r :: l' => argmin_from (if f r <? f best then r else best) l'
  end.

Definition idxmax (df : list R) : result R :=
  match df with
  | [] => Err (ValueError "attempt to get argmax of an empty sequence")
  | r :: l => Ok (argmax_from r l)
  end.

Definition idxmin (df : list R) : result R :=
  match df with
  | [] => Err (ValueError "attempt to get argmin of an empty sequence")
  | r :: l => Ok (argmin_from r l)
  end.

(** The specification of a first maximum / minimum of [df]. *)
Definition first_max (df : list R) (r : R) : Prop :=
  ∃ l1 l2, df = l1 ++ r :: l2 ∧ Forall (λ x, f x < f r) l1 ∧ Forall (λ x, f x <= f r) l2.

Definition first_min (df : list R) (r : R) : Prop :=
  ∃ l1 l2, df = l1 ++ r :: l2 ∧ Forall (λ x, f r < f x) l1 ∧ Forall (λ x, f r <= f x) l2.

Lemma first_max_le df r : first_max df r → Forall (λ x, f x <= f r) df.
Proof.
  intros (l1 & l2 & -> & H1 & H2). apply Forall_app. split; [|constructor; [lia|done]].
  eapply Forall_impl; [done|]. simpl. lia.
Qed.

(** The loop keeps the first maximum of the prefix it has scanned. *)
Lemma argmax_from_first p best l :
  first_max p best → first_max (p ++ l) (argmax_from best l).
Proof.
  revert p best. induction l as [|r l IH]; intros p best Hp; simpl.
  - by rewrite app_nil_r.
  - replace (p ++ r :: l) with ((p ++ [r]) ++ l) by (by rewrite <- app_assoc). apply IH.
    destruct (Z.ltb_spec (f best) (f r)) as [Hlt|Hge].
    + exists p, []. split_and!; [done| |done].
      eapply Forall_impl; [by apply first_max_le|]. simpl. lia.
    + destruct Hp as (l1 & l2 & -> & H1 & H2). exists l1, (l2 ++ [r]).
      split_and!; [by rewrite <- app_assoc|done|]. apply Forall_app. split; [done|].
      constructor; [lia|done].
Qed.

Lemma first_max_unique df r1 r2 : first_max df r1 → first_max df r2 → r1 = r2.
Proof.
  intros (l1 & l2 & E1 & H1 & H2) (m1 & m2 & E2 & H3 & H4).
  rewrite E1 in E2. clear E1.
  revert m1 E2 H3. induction l1 as [|x l1 IH]; intros [|y m1] E2 H3; simpl in E2.
  - by injection E2.
  - injection E2 as -> E2. subst l2. apply Forall_app in H2 as [_ H2].
    apply Forall_cons in H2 as [H2 _]. apply Forall_cons in H3 as [H3 _]. lia.
  - injection E2 as <- E2. subst m2. apply Forall_app in H4 as [_ H4].
    apply Forall_cons in H4 as [H4 _]. apply Forall_cons in H1 as [H1 _]. lia.
  - injection E2 as -> E2. apply (IH ltac:(by inversion H1) m1); [done|by inversion H3].
Qed.

Lemma first_max_nonempty df r : first_max df r → df ≠ [].
Proof. intros (l1 & l2 & -> & _ & _). by destruct l1. Qed.

End Scan.

Lemma argmin_argmax {R} (f : R → Z) best l :
  argmin_from f best l = argmax_from (λ x, - f x) best l.
Proof.
  revert best. induction l as [|r l IH]; intros best; simpl; [done|]. rewrite IH.
  f_equal. destruct (Z.ltb_spec (f r) (f best)), (Z.ltb_spec (- f best) (- f r)); lia || done.
Qed.

Lemma first_min_max {R} (f : R → Z) df r :
  first_min f df r ↔ first_max (λ x, - f x) df r.
Proof.
  unfold first_min, first_max. split; intros (l1 & l2 & E & H1 & H2); exists l1, l2;
    (split_and!; [done| eapply Forall_impl; [done|] | eapply Forall_impl; [done|]]);
    simpl; lia.
Qed.

(** [idxmax] is the first maximal row, and fails exactly on an empty table. *)
Lemma idxmax_first_max {R} (f : R → Z) (df : list R) :
  (∀ r, idxmax f df = Ok r ↔ first_max f df r) ∧
  (df = [] ↔ ∃ e, idxmax f df = Err e).
Proof.
  split.
  - intros r. split.
    + destruct df as [|r0 l]; [discriminate|]. intros [= <-].
      apply (argmax_from_first f [r0] r0 l). exists [], []. split_and!; constructor.
    + intros Hr. destruct df as [|r0 l] eqn:E; [by apply first_max_nonempty in Hr|].
      simpl. f_equal. eapply first_max_unique; [|done].
      apply (argmax_from_first f [r0] r0 l). exists [], []. split_and!; constructor.
  - split; [intros ->; by eexists|]. intros [e He]. by destruct df.
Qed.

(** C13. [idxmax] returns exactly the first row of maximal count, and
    raises [ValueError] exactly on an empty table. *)
Theorem idxmax_refines {R} (f : R → Z) (df : list R) :
  (∀ r, idxmax f df = Ok r ↔ first_max f df r) ∧
  (df = [] ↔ ∃ e, idxmax f df = Err e).
Proof. apply idxmax_first_max. Qed.

(** C14. [idxmin] returns exactly the first row of minimal count, and
    raises [ValueError] exactly on an empty table. *)
Theorem idxmin_refines {R} (f : R → Z) (df : list R) :
  (∀ r, idxmin f df = Ok r ↔ first_min f df r) ∧
  (df = [] ↔ ∃ e, idxmin f df = Err e).
Proof.
  destruct (idxmax_first_max (λ x, - f x) df) as [Hmax Herr]. split.
  - intros r. rewrite first_min_max, <- Hmax.
    destruct df; simpl; [done|]. by rewrite argmin_argmax.
  - split; [intros ->; by eexists|]. intros [e He]. by destruct df.
Qed.

(** ** The labels (l.178-184) *)

Definition season_dict : gmap Z string :=
  {[1 := "🌸 Springer"; 2 := "☀️ Summer"; 3 := "🍂 Fall"; 4 := "❄️ Winter"]}.

Definition cuaca_dict : gmap Z string :=
  {[1 := "🌤️ Clear, Few clouds, Partly cloudy, Partly cloudy";
    2 := "🌫️ Mist + Cloudy, Mist + Broken clouds, Mist + Few clouds, Mist";
    3 := "❄️⛈️ Light Snow, Light Rain + Thunderstorm + Scattered clouds, Light Rain + Scattered clouds";
    4 := "🌧️🌨️ Heavy Rain + Ice Pallets + Thunderstorm + Mist, Snow + Fog"]}.

(** [dict.get(k, default)] *)
Definition dict_get (m : gmap Z string) (k : Z) (dflt : string) : string :=
  default dflt (m !! k).

(** ** One tab: what l.189-215 (and l.218-244) display for a row *)

Record ExtremeTab := mkTab {
  tab_date : string;
  tab_season : string;
  tab_weather : string;
  tab_casual : Z;
  tab_registered : Z;
  tab_cnt : Z;
  tab_temp : Q;
  tab_hum : Q;
  tab_windspeed : Q
}.

Definition extreme_tab (r : DayRow) : ExtremeTab :=
  mkTab (date_str (d_dteday r))
        (dict_get season_dict (d_season r) "Unknown" +:+ " Season")
        (dict_get cuaca_dict (d_weathersit r) "Unknown")
        (d_casual r) (d_registered r) (d_cnt r)
        (round_dec 2 (d_temp r)) (round_dec 2 (d_hum r)) (round_dec 2 (d_windspeed r)).

(** Tab "Tertinggi" (l.188-215). *)
Definition max_tab (df : list DayRow) : result ExtremeTab :=
  r ← idxmax d_cnt df; mret (extreme_tab r).

(** Tab "Terendah" (l.217-244). *)
Definition min_tab (df : list DayRow) : result ExtremeTab :=
  r ← idxmin d_cnt df; mret (extreme_tab r).

Lemma unique_max_first `{EqDecision R} (f : R → Z) (df : list R) r :
  r ∈ df → (∀ x, x ∈ df → x ≠ r → f x < f r) → first_max f df r.
Proof.
  intros Hr Hlt. apply list_elem_of_split_l in Hr as (l1 & l2 & -> & Hn).
  exists l1, l2. split; [done|]. split; apply Forall_forall; intros x Hx;
    destruct (decide (x = r)) as [->|Hne]; try done; try lia;
    pose proof (Hlt x ltac:(set_solver) Hne); lia.
Qed.

(** C15. When one day has the strictly largest count, the "Tertinggi" tab
    shows that day: its date, labels, counts and rounded weather values. *)
Theorem max_tab_unique (df : list DayRow) (r : DayRow) :
  r ∈ df → (∀ x, x ∈ df → x ≠ r → d_cnt x < d_cnt r) →
  max_tab df = Ok (extreme_tab r).
Proof.
  intros Hr Hlt. unfold max_tab.
  rewrite (proj2 (proj1 (idxmax_first_max d_cnt df) r)); [done|].
  by apply unique_max_first.
Qed.

(** C16. On a well-formed row the season and weather labels come from the
    four-entry dictionaries: never the "Unknown" default. *)
Theorem extreme_tab_labels (r : DayRow) :
  DayRow_wf r = true →
  ∃ s w, season_dict !! d_season r = Some s ∧ cuaca_dict !! d_weathersit r = Some w ∧
    tab_season (extreme_tab r) = s +:+ " Season" ∧ tab_weather (extreme_tab r) = w.
Proof.
  unfold DayRow_wf. intros H. repeat (apply andb_prop in H as [H ?]). rewrite ?Z.leb_le in *.
  assert (Hs : d_season r = 1 ∨ d_season r = 2 ∨ d_season r = 3 ∨ d_season r = 4) by lia.
  assert (Hw : d_weathersit r = 1 ∨ d_weathersit r = 2 ∨ d_weathersit r = 3 ∨
               d_weathersit r = 4) by lia.
  unfold extreme_tab, dict_get; simpl.
  destruct_or! Hs; destruct_or! Hw; rewrite Hs, Hw; eexists _, _; split_and!; reflexivity.
Qed.

Definition spec_max_day : DayRow := mkDay (mkDate 2021 1 3) 1 1 (3 # 10) (2 # 5) (1 # 4) 50 50 100.

Lemma max_tab_unique_witness : max_tab spec_days = Ok (extreme_tab spec_max_day).
Proof.
  apply max_tab_unique.
  - unfold spec_days, spec_max_day. set_solver.
  - intros x Hx Hne. unfold spec_days in Hx.
    repeat (apply elem_of_cons in Hx as [->|Hx]); simpl; try lia.
    + by destruct Hne.
    + by apply elem_of_nil in Hx.
Defined.

Example min_tab_spec_days :
  min_tab spec_days = Ok (mkTab "2021-01-02" "🌸 Springer Season"
    "🌫️ Mist + Cloudy, Mist + Broken clouds, Mist + Few clouds, Mist" 5 5 10
    (25 # 100) (60 # 100) (20 # 100)).
Proof. vm_compute. reflexivity. Qed.

Lemma extreme_tab_labels_witness :
  ∃ s w, season_dict !! d_season spec_max_day = Some s ∧
    cuaca_dict !! d_weathersit spec_max_day = Some w ∧
    tab_season (extreme_tab spec_max_day) = s +:+ " Season" ∧
    tab_weather (extreme_tab spec_max_day) = w.
Proof. apply extreme_tab_labels. reflexivity. Defined.

End Extremes.
