(* ===== verification/Regression.v ===== *)
(** * Regression: [lr_plot] (l.102-136)

  [LinearRegression().fit(x, y)] with one feature centres [x] and [y] on
  their means and solves the least-squares problem on the centred column
  ([scipy.linalg.lstsq]): the slope is [Sxy / Sxx], and when the centred
  column is all zero (every [x] equal) the minimum-norm solution [0]; the
  intercept is [mean y - slope * mean x].  It raises [ValueError] on an
  empty table.  [model.score(x, y)] is [r2_score(y, predict(x))]: NaN with
  fewer than two samples; [1] when the residual sum is zero; [0] when only
  the total sum is zero; [1 - SSR / SST] otherwise.  [np.linspace(start,
  end, num)] gives the points of the drawn line; the three annotations sit
  at [max], [max - (max - min) / 10] and [max - (max - min) / 5] of the
  count column.  Points are [(x, y)] pairs, one per row.  In exact
  rationals a division by zero is [0] as well, so the minimum-norm guard
  of [fit] cannot be told apart from [Sxy / Sxx]; no theorem here rests on
  it. *)

From S2P Require Import Prelude Dates Tables.
Import Tables.

Module Regression.
Local Open Scope Q_scope.

Definition n_of (pts : list (Q * Q)) : Q := inject_Z (Z.of_nat (length pts)).
Definition xmean (pts : list (Q * Q)) : Q := Qsum (map fst pts) / n_of pts.
Definition ymean (pts : list (Q * Q)) : Q := Qsum (map snd pts) / n_of pts.

Definition sxx (pts : list (Q * Q)) : Q :=
  Qsum (map (λ p, (p.1 - xmean pts) * (p.1 - xmean pts)) pts).
Definition sxy (pts : list (Q * Q)) : Q :=
  Qsum (map (λ p, (p.1 - xmean pts) * (p.2 - ymean pts)) pts).
Definition sst (pts : list (Q * Q)) : Q :=
  Qsum (map (λ p, (p.2 - ymean pts) * (p.2 - ymean pts)) pts).

(** The fitted model: [coef_[0]] and [intercept_]. *)
Record LinFit := mkFit { coef : Q; intercept : Q }.

(** [LinearRegression().fit(x, y)] (l.107-112). *)
Definition fit (pts : list (Q * Q)) : result LinFit :=
  match pts with
  | [] => Err (ValueError "Found array with 0 sample(s) (shape=(0, 1)) while a minimum of 1 is required")
  | _ =>
      let b := if decide (sxx pts == 0)%Q then 0%Q else (sxy pts / sxx pts)%Q in
      Ok (mkFit b (ymean pts - b * xmean pts))
  end.

Definition predict (f : LinFit) (x : Q) : Q := intercept f + coef f * x.

Definition ssr_of (a b : Q) (pts : list (Q * Q)) : Q :=
  Qsum (map (λ p, (p.2 - (a + b * p.1)) * (p.2 - (a + b * p.1))) pts).

Definition ssr (f : LinFit) (pts : list (Q * Q)) : Q := ssr_of (intercept f) (coef f) pts.

(** [model.score(x, y)] = [r2_score(y, model.predict(x))] (l.110). *)
Definition score (f : LinFit) (pts : list (Q * Q)) : flt :=
  if (length pts <? 2)%nat then NaN
  else if decide (ssr f pts == 0)%Q then Fin 1
  else if decide (sst pts == 0)%Q then Fin 0
  else Fin (1 - ssr f pts / sst pts).

(** [np.linspace(start, stop, num)]: [i * step + start] for [i < num],
    the last point set to [stop]; one point is [start]. *)
Definition linspace (start stop : Q) (num : nat) : list Q :=
  match num with
  | O => []
  | S O => [start]
  | S m => ((λ i : nat, inject_Z (Z.of_nat i) * ((stop - start) / inject_Z (Z.of_nat m)) + start)
            <$> seq 0 m) ++ [stop]
  end.

(** [Series.min()] / [Series.max()] of a non-empty column (l.119-120;
    [fit] has already raised on an empty one). *)
Definition list_min (xs : list Q) : Q := match xs with [] => 0 | x :: l => foldl Qmin x l end.
Definition list_max (xs : list Q) : Q := match xs with [] => 0 | x :: l => foldl Qmax x l end.

(** What [lr_plot] draws: the scatter, the fitted line over [xseq], the
    rounded coefficients and score, and the heights of the three texts. *)
Record LRPlot := mkLRPlot {
  lr_scatter : list (Q * Q);
  lr_line : list (Q * Q);
  lr_beta0 : Q;
  lr_beta1 : Q;
  lr_r2 : flt;
  lr_text_y : list Q
}.

(** [round(r2, 2)] keeps a NaN score NaN. *)
Definition round2_flt (x : flt) : flt :=
  match x with Fin q => Fin (round_dec 2 q) | NaN => NaN end.

(** [lr_plot(df, varx)] (l.102-136). *)
Definition lr_plot (varx : DayRow → Q) (df : list DayRow) : result LRPlot :=
  let pts := map (λ r, (varx r, inject_Z (d_cnt r))) df in
  f ← fit pts;
  let r2 := score f pts in
  let xseq := linspace (list_min (map fst pts)) (list_max (map fst pts)) (length df) in
  let ymax := list_max (map snd pts) in
  let ymin := list_min (map snd pts) in
  mret (mkLRPlot pts (map (λ x, (x, intercept f + coef f * x)) xseq)
          (round_dec 2 (intercept f)) (round_dec 2 (coef f)) (round2_flt r2)
          [ymax; ymax - (ymax - ymin) / 10; ymax - (ymax - ymin) / 5]).

(** ** Sums *)

Lemma n_of_pos (pts : list (Q * Q)) : pts ≠ [] → (0 < n_of pts)%Q.
Proof.
  intros Hne. unfold n_of. change 0%Q with (inject_Z 0). rewrite <- Zlt_Qlt.
  destruct pts; [done|]. simpl. lia.
Qed.

(** Centred values sum to zero. *)
Lemma Qsum_centred (g : Q * Q → Q) (pts : list (Q * Q)) :
  pts ≠ [] → (Qsum (map (λ p, g p - Qsum (map g pts) / n_of pts) pts) == 0)%Q.
Proof.
  intros Hne. pose proof (n_of_pos pts Hne).
  rewrite (Qsum_map_ext _ (λ p, g p + (-1) * (Qsum (map g pts) / n_of pts)))
    by (intros; ring).
  rewrite Qsum_map_add, Qsum_map_scale, Qsum_map_const. fold (n_of pts). field. lra.
Qed.

Lemma Qsum_sq_zero (g : Q * Q → Q) (pts : list (Q * Q)) :
  (Qsum (map (λ p, g p * g p) pts) == 0)%Q → ∀ p, p ∈ pts → (g p == 0)%Q.
Proof.
  induction pts as [|q pts IH]; intros H p Hp; [set_solver|].
  unfold Qsum in H; simpl in H. fold (Qsum (map (λ p, g p * g p) pts)) in H.
  assert (0 <= Qsum (map (λ p, g p * g p) pts))%Q.
  { apply Qsum_nonneg, Forall_forall. intros x Hx.
    apply list_elem_of_In, in_map_iff in Hx as (y & <- & _). nra. }
  assert (0 <= g q * g q)%Q by nra.
  apply elem_of_cons in Hp as [->|Hp]; [nra|]. apply IH; [lra|done].
Qed.

(** The residual of the fit at each point, in centred form. *)
Lemma fit_residual (pts : list (Q * Q)) (f : LinFit) p :
  fit pts = Ok f →
  (p.2 - predict f p.1 == (p.2 - ymean pts) - coef f * (p.1 - xmean pts))%Q.
Proof.
  destruct pts; [discriminate|]. intros [= <-]. unfold predict. simpl. ring.
Qed.

(** The fitted slope solves [Sxy = slope * Sxx]. *)
Lemma fit_slope (pts : list (Q * Q)) (f : LinFit) :
  fit pts = Ok f → (sxy pts == coef f * sxx pts)%Q.
Proof.
  intros Hf. unfold fit in Hf. destruct pts as [|q pts'] eqn:E; [discriminate|].
  rewrite <- E in Hf |- *. injection Hf as <-. simpl. case_decide as Hxx.
  - assert (Hc : ∀ p, p ∈ pts → (p.1 - xmean pts == 0)%Q).
    { apply (Qsum_sq_zero (λ p, p.1 - xmean pts)). exact Hxx. }
    unfold sxy. rewrite (Qsum_map_ext _ (λ _, 0%Q)).
    + rewrite Qsum_map_const. ring.
    + intros p Hp. rewrite (Hc p Hp). ring.
  - field. done.
Qed.

(** The residuals of the fit sum to zero and are orthogonal to [x]. *)
Lemma fit_residual_sums (pts : list (Q * Q)) (f : LinFit) :
  fit pts = Ok f →
  (Qsum (map (λ p, p.2 - predict f p.1) pts) == 0)%Q ∧
  (Qsum (map (λ p, p.1 * (p.2 - predict f p.1)) pts) == 0)%Q.
Proof.
  intros Hf. assert (Hne : pts ≠ []) by (by destruct pts).
  pose proof (fit_slope pts f Hf) as Hs.
  assert (H1 : (Qsum (map (λ p, p.2 - predict f p.1) pts) == 0)%Q).
  { rewrite (Qsum_map_ext _ (λ p, (p.2 - ymean pts) + (- coef f) * (p.1 - xmean pts)))
      by (intros p _; rewrite (fit_residual pts f p Hf); ring).
    rewrite Qsum_map_add, Qsum_map_scale.
    unfold ymean, xmean. rewrite !Qsum_centred by done. ring. }
  split; [done|].
  rewrite (Qsum_map_ext _ (λ p, (xmean pts) * (p.2 - predict f p.1) +
      ((p.1 - xmean pts) * (p.2 - ymean pts) + (- coef f) * ((p.1 - xmean pts) * (p.1 - xmean pts)))))
    by (intros p _; rewrite (fit_residual pts f p Hf); ring).
  rewrite !Qsum_map_add, !Qsum_map_scale, H1. fold (sxy pts) (sxx pts). rewrite Hs. ring.
Qed.

(** C17. The normal equations of least squares: the residuals of the fit
    sum to zero and are orthogonal to [x], on every non-empty table
    (including the all-equal [x] case, where the slope is [0]). *)
Theorem fit_normal_equations (pts : list (Q * Q)) (f : LinFit) :
  fit pts = Ok f →
  (Qsum (map (λ p, p.2 - predict f p.1) pts) == 0)%Q ∧
  (Qsum (map (λ p, p.1 * (p.2 - predict f p.1)) pts) == 0)%Q.
Proof. apply fit_residual_sums. Qed.

Lemma fit_nonempty pts f : fit pts = Ok f → pts ≠ [].
Proof. by destruct pts. Qed.

Lemma Qsum_sq_nonneg (g : Q * Q → Q) (pts : list (Q * Q)) :
  0 <= Qsum (map (λ p, g p * g p) pts).
Proof.
  apply Qsum_nonneg, Forall_forall. intros x Hx.
  apply list_elem_of_In, in_map_iff in Hx as (y & <- & _). nra.
Qed.

(** No line has a smaller residual sum of squares than the fit. *)
Lemma fit_least_squares (pts : list (Q * Q)) (f : LinFit) (a b : Q) :
  fit pts = Ok f → ssr f pts <= ssr_of a b pts.
Proof.
  intros Hf. destruct (fit_residual_sums pts f Hf) as [H1 H2].
  set (da := intercept f - a). set (db := coef f - b).
  unfold ssr_of.
  rewrite (Qsum_map_ext _ (λ p, (p.2 - predict f p.1) * (p.2 - predict f p.1) +
             ((2 * da) * (p.2 - predict f p.1) + ((2 * db) * (p.1 * (p.2 - predict f p.1)) +
              (da + db * p.1) * (da + db * p.1)))))
    by (intros p _; unfold da, db, predict; ring).
  rewrite !Qsum_map_add, !Qsum_map_scale, H1, H2.
  pose proof (Qsum_sq_nonneg (λ p, da + db * p.1) pts). unfold ssr, ssr_of, predict in *.
  lra.
Qed.

(** C18. The fitted line has the least residual sum of squares among all
    lines [y = a + b x]: [fit] solves the least-squares problem. *)
Theorem fit_optimal (pts : list (Q * Q)) (f : LinFit) (a b : Q) :
  fit pts = Ok f → ssr f pts <= ssr_of a b pts.
Proof. apply fit_least_squares. Qed.

Lemma sst_ssr (pts : list (Q * Q)) : sst pts == ssr_of (ymean pts) 0 pts.
Proof. apply Qsum_map_ext. intros p _. ring. Qed.

(** C19. On two or more rows the score is a number between 0 and 1. *)
Theorem score_bounds (pts : list (Q * Q)) (f : LinFit) :
  fit pts = Ok f → (2 <= length pts)%nat →
  ∃ q, score f pts = Fin q ∧ 0 <= q <= 1.
Proof.
  intros Hf Hn. unfold score.
  destruct (Nat.ltb_spec (length pts) 2); [lia|].
  case_decide; [eexists; split; [done|lra]|].
  case_decide as Hsst; [eexists; split; [done|lra]|].
  eexists. split; [done|].
  pose proof (fit_least_squares pts f (ymean pts) 0 Hf) as Hopt. rewrite <- sst_ssr in Hopt.
  assert (Hpos : 0 <= ssr f pts) by apply Qsum_sq_nonneg.
  assert (Hsp : 0 < sst pts).
  { pose proof (Qsum_sq_nonneg (λ p, p.2 - ymean pts) pts) as Hs0. fold (sst pts) in Hs0.
    apply Qle_lt_or_eq in Hs0 as [?|E]; [done|]. by destruct Hsst. }
  split.
  - apply (Qplus_le_l _ _ (ssr f pts / sst pts)). ring_simplify.
    apply Qle_shift_div_r; lra.
  - assert (0 <= ssr f pts / sst pts) by (apply Qle_shift_div_l; lra). lra.
Qed.

Lemma Qsum_map_affine (a b : Q) (g : Q * Q → Q) (pts : list (Q * Q)) :
  Qsum (map (λ p, a + b * g p) pts) == a * n_of pts + b * Qsum (map g pts).
Proof. rewrite Qsum_map_add, Qsum_map_scale, Qsum_map_const. reflexivity. Qed.

(** The mean of a column that is affine in [x]. *)
Lemma ymean_affine (a b : Q) (pts : list (Q * Q)) :
  pts ≠ [] → (∀ p, p ∈ pts → p.2 == a + b * p.1) → ymean pts == a + b * xmean pts.
Proof.
  intros Hne Hl. pose proof (n_of_pos pts Hne). unfold ymean, xmean.
  rewrite (Qsum_map_ext snd (λ p, a + b * fst p)) by done.
  rewrite Qsum_map_affine. field. lra.
Qed.

Lemma fit_coef (pts : list (Q * Q)) (f : LinFit) :
  fit pts = Ok f →
  coef f = (if decide (sxx pts == 0) then 0 else sxy pts / sxx pts) ∧
  intercept f = ymean pts - coef f * xmean pts.
Proof. destruct pts; [discriminate|]. by intros [= <-]. Qed.

Lemma ssr_zero (pts : list (Q * Q)) (f : LinFit) :
  (∀ p, p ∈ pts → p.2 == predict f p.1) → ssr f pts == 0.
Proof.
  intros H. unfold ssr, ssr_of. rewrite (Qsum_map_ext _ (λ _, 0)).
  - rewrite Qsum_map_const. ring.
  - intros p Hp. rewrite (H p Hp). unfold predict. ring.
Qed.

Lemma score_perfect (pts : list (Q * Q)) (f : LinFit) :
  (2 <= length pts)%nat → ssr f pts == 0 → score f pts = Fin 1.
Proof.
  intros Hn Hz. unfold score. destruct (Nat.ltb_spec (length pts) 2); [lia|].
  by rewrite decide_True.
Qed.

(** C20. On points of a noiseless line [y = a + b x] with [x] not all
    equal, the fit recovers the slope [b] and intercept [a], and the score
    is exactly [1] (spec, section 8: [y = 3 + 2 x]). *)
Theorem fit_exact_line (pts : list (Q * Q)) (a b : Q) (f : LinFit) :
  (∀ p, p ∈ pts → p.2 == a + b * p.1) → ¬ sxx pts == 0 → fit pts = Ok f →
  coef f == b ∧ intercept f == a ∧ ((2 <= length pts)%nat → score f pts = Fin 1).
Proof.
  intros Hl Hxx Hf. pose proof (fit_nonempty pts f Hf) as Hne.
  destruct (fit_coef pts f Hf) as [Hb Ha]. rewrite decide_False in Hb by done.
  assert (Hsxy : sxy pts == b * sxx pts).
  { unfold sxy, sxx. rewrite <- Qsum_map_scale. apply Qsum_map_ext. intros p Hp.
    rewrite (Hl p Hp), (ymean_affine a b pts Hne Hl). ring. }
  assert (Hcb : coef f == b) by (rewrite Hb, Hsxy; field; done).
  assert (Hca : intercept f == a) by (rewrite Ha, Hcb, (ymean_affine a b pts Hne Hl); ring).
  split_and!; [done|done|]. intros Hn. apply score_perfect; [done|].
  apply ssr_zero. intros p Hp. rewrite (Hl p Hp). unfold predict. rewrite Hcb, Hca. ring.
Qed.

(** C21. When every count is the same, the fit is flat ([slope 0],
    [intercept c]) and the score is [1] (scikit-learn's [force_finite]
    policy for a perfect fit of a constant target), not [0] as the spec
    says. *)
Theorem fit_constant_y (pts : list (Q * Q)) (c : Q) (f : LinFit) :
  (∀ p, p ∈ pts → p.2 == c) → fit pts = Ok f →
  coef f == 0 ∧ intercept f == c ∧ ((2 <= length pts)%nat → score f pts = Fin 1).
Proof.
  intros Hc Hf. pose proof (fit_nonempty pts f Hf) as Hne.
  assert (Hl : ∀ p, p ∈ pts → p.2 == c + 0 * p.1) by (intros p Hp; rewrite (Hc p Hp); ring).
  destruct (fit_coef pts f Hf) as [Hb Ha].
  assert (Hsxy : sxy pts == 0).
  { unfold sxy. rewrite (Qsum_map_ext _ (λ _, 0)).
    - rewrite Qsum_map_const. ring.
    - intros p Hp. rewrite (Hc p Hp), (ymean_affine c 0 pts Hne Hl). ring. }
  assert (Hcb : coef f == 0).
  { rewrite Hb. case_decide; [reflexivity|]. rewrite Hsxy. field. done. }
  assert (Hca : intercept f == c) by (rewrite Ha, Hcb, (ymean_affine c 0 pts Hne Hl); ring).
  split_and!; [done|done|]. intros Hn. apply score_perfect; [done|].
  apply ssr_zero. intros p Hp. rewrite (Hc p Hp). unfold predict. rewrite Hcb, Hca. ring.
Qed.

(** ** [linspace] *)

Lemma length_linspace s e n : length (linspace s e n) = n.
Proof.
  destruct n as [|[|m]]; simpl; [done|done|].
  rewrite length_app, length_fmap, length_seq. simpl. lia.
Qed.

Lemma lookup_linspace_lt s e m i :
  (i < S m)%nat →
  linspace s e (S (S m)) !! i =
    Some (inject_Z (Z.of_nat i) * ((e - s) / inject_Z (Z.of_nat (S m))) + s).
Proof.
  intros Hi. unfold linspace.
  rewrite lookup_app_l by (rewrite length_fmap, length_seq; lia).
  rewrite list_lookup_fmap, lookup_seq_lt by lia. done.
Qed.

Lemma lookup_linspace_last s e m : linspace s e (S (S m)) !! (S m) = Some e.
Proof.
  unfold linspace. rewrite lookup_app_r by (rewrite length_fmap, length_seq; lia).
  rewrite length_fmap, length_seq, Nat.sub_diag. done.
Qed.

(** C23. [np.linspace] gives [num] points from [start] to [stop], evenly
    spaced by [(stop - start) / (num - 1)]. *)
Theorem linspace_spec (s e : Q) (n : nat) :
  length (linspace s e n) = n ∧
  ((1 <= n)%nat → ∃ x, linspace s e n !! 0%nat = Some x ∧ x == s) ∧
  ((2 <= n)%nat → linspace s e n !! (n - 1)%nat = Some e) ∧
  (∀ i x y, linspace s e n !! i = Some x → linspace s e n !! S i = Some y →
     y - x == (e - s) / inject_Z (Z.of_nat (n - 1))).
Proof.
  split_and!; [apply length_linspace| | |].
  - intros Hn. destruct n as [|[|m]]; [lia|by eexists|]. rewrite lookup_linspace_lt by lia.
    eexists. split; [done|]. simpl. ring.
  - intros Hn. destruct n as [|[|m]]; [lia|lia|].
    replace (S (S m) - 1)%nat with (S m) by lia. apply lookup_linspace_last.
  - intros i x y Hx Hy. destruct n as [|[|m]].
    + done.
    + destruct i; done.
    + assert (Hlen : (S i < S (S m))%nat).
      { apply lookup_lt_Some in Hy. by rewrite length_linspace in Hy. }
      replace (S (S m) - 1)%nat with (S m) by lia.
      assert (Hm : ~ inject_Z (Z.of_nat (S m)) == 0).
      { change 0 with (inject_Z 0). rewrite inject_Z_injective. lia. }
      rewrite lookup_linspace_lt in Hx by lia. injection Hx as <-.
      destruct (decide (S i = S m)) as [Ei|Ei].
      * rewrite Ei, lookup_linspace_last in Hy. injection Hy as <-.
        injection Ei as ->. rewrite !Nat2Z.inj_succ, <- !Z.add_1_r, !inject_Z_plus in *.
        field. done.
      * rewrite lookup_linspace_lt in Hy by lia. injection Hy as <-.
        rewrite Nat2Z.inj_succ, <- Z.add_1_r, inject_Z_plus. field. done.
Qed.

(** ** [lr_plot] *)

Lemma foldl_Qmin_le x l : foldl Qmin x l <= x.
Proof.
  revert x. induction l as [|y l IH]; intros x; simpl; [lra|].
  pose proof (IH (Qmin x y)). pose proof (Q.le_min_l x y). lra.
Qed.

Lemma foldl_Qmax_ge x l : x <= foldl Qmax x l.
Proof.
  revert x. induction l as [|y l IH]; intros x; simpl; [lra|].
  pose proof (IH (Qmax x y)). pose proof (Q.le_max_l x y). lra.
Qed.

Lemma list_min_max xs : list_min xs <= list_max xs.
Proof.
  destruct xs as [|x l]; simpl; [lra|].
  pose proof (foldl_Qmin_le x l). pose proof (foldl_Qmax_ge x l). lra.
Qed.

Lemma lr_plot_ok (varx : DayRow → Q) (df : list DayRow) :
  df ≠ [] → ∃ p, lr_plot varx df = Ok p.
Proof.
  destruct df as [|r df]; [done|]. intros _. unfold lr_plot.
  cbn [map fit mbind result_bind mret result_ret]. by eexists.
Qed.

(** C24. [lr_plot] raises exactly on an empty table; otherwise it draws
    the fitted line at one point per row, and its three annotations stand
    at the top of the count range, in decreasing height, never below the
    smallest count. *)
Theorem lr_plot_spec (varx : DayRow → Q) (df : list DayRow) :
  (df = [] ↔ ∃ e, lr_plot varx df = Err e) ∧
  (∀ p, lr_plot varx df = Ok p →
     length (lr_line p) = length df ∧
     ∃ ymin ymax t2 t3, lr_text_y p = [ymax; t2; t3] ∧
       ymin <= t3 ∧ t3 <= t2 ∧ t2 <= ymax ∧
       ymin == list_min (map (λ r, inject_Z (d_cnt r)) df) ∧
       ymax == list_max (map (λ r, inject_Z (d_cnt r)) df)).
Proof.
  split.
  - split; [intros ->; eexists; reflexivity|]. intros [e He]. destruct df; [done|].
    unfold lr_plot in He. cbn [map fit mbind result_bind] in He. discriminate.
  - intros p. unfold lr_plot. destruct (fit _) as [f|e] eqn:Hf; [|discriminate].
    cbn [mbind result_bind mret result_ret]. intros [= <-]. simpl.
    rewrite length_map, length_linspace. split; [done|].
    rewrite !map_map. cbn [fst snd].
    pose proof (list_min_max (map (λ r, inject_Z (d_cnt r)) df)) as Hle.
    exists (list_min (map (λ r, inject_Z (d_cnt r)) df)).
    eexists _, _, _. split_and!; [reflexivity| | | |reflexivity|reflexivity];
      unfold Qdiv; change (/ 10) with (1 # 10); change (/ 5) with (1 # 5); lra.
Qed.

(** ** Witnesses on the spec's datasets (section 8) *)

(** [y = 3 + 2 x] without noise. *)
Definition line_pts : list (Q * Q) := [(0, 3); (1, 5); (2, 7)].
Definition line_fit : LinFit := mkFit (2125764 # 1062882) (28697814 # 9565938).
(** A constant count. *)
Definition flat_pts : list (Q * Q) := [(0, 4); (1, 4); (2, 4)].
Definition flat_fit : LinFit := mkFit (0 # 1062882) (38263752 # 9565938).

Ltac qcheck := apply Qeq_bool_iff; vm_compute; reflexivity.
Ltac qcheck_neq := apply Qeq_bool_neq; vm_compute; reflexivity.
Ltac forall_pts :=
  let p := fresh "p" in let Hp := fresh "Hp" in
  intros p Hp; repeat (apply elem_of_cons in Hp as [->|Hp]; [qcheck|]);
  by apply elem_of_nil in Hp.

Lemma fit_normal_equations_witness :
  Qsum (map (λ p, p.2 - predict line_fit p.1) line_pts) == 0 ∧
  Qsum (map (λ p, p.1 * (p.2 - predict line_fit p.1)) line_pts) == 0.
Proof. apply fit_normal_equations. reflexivity. Defined.

Lemma fit_optimal_witness : ssr line_fit line_pts <= ssr_of 0 0 line_pts.
Proof. apply fit_optimal. reflexivity. Defined.

Lemma score_bounds_witness : ∃ q, score line_fit line_pts = Fin q ∧ 0 <= q <= 1.
Proof. apply score_bounds; [reflexivity | simpl; lia]. Defined.

Lemma fit_exact_line_witness :
  coef line_fit == 2 ∧ intercept line_fit == 3 ∧
  ((2 <= length line_pts)%nat → score line_fit line_pts = Fin 1).
Proof. apply fit_exact_line; [forall_pts | qcheck_neq | reflexivity]. Defined.

Lemma fit_constant_y_witness :
  coef flat_fit == 0 ∧ intercept flat_fit == 4 ∧
  ((2 <= length flat_pts)%nat → score flat_fit flat_pts = Fin 1).
Proof. apply fit_constant_y; [forall_pts | reflexivity]. Defined.

End Regression.
