(* ===== verification/Correlation.v ===== *)
(** * Correlation: [plot_heatmap_corr] (l.51-62, l.273)

  The heatmap shows [df.corr()] of the columns [temp], [hum], [windspeed]
  and [cnt] of the filtered day table, renamed [suhu], [kelembapan],
  [kecepatan_angin] and [total_rental] (l.54).  pandas' Pearson kernel
  ([nancorr]) computes, for each pair of columns, the centred sums
  [Sxx], [Syy], [Sxy] and returns [Sxy / sqrt (Sxx * Syy)], or NaN when
  the divisor is zero (a constant column, or fewer than two rows).  The
  square root is kept symbolic: an entry is [CorrVal num den2], standing
  for [num / sqrt den2] with [den2 > 0].  The sums are those of
  [Regression] on the pairs of the two columns. *)

From S2P Require Import Prelude Dates Tables Regression.
Import Date Tables Regression.

Module Correlation.
Local Open Scope Q_scope.

(** One entry of the matrix. *)
Inductive CorrEntry :=
| CorrNaN
| CorrVal (num den2 : Q).

(** [nancorr] for one pair of columns, given as the pairs of a table. *)
Definition pearson (pts : list (Q * Q)) : CorrEntry :=
  if decide (sxx pts * sst pts == 0) then CorrNaN else CorrVal (sxy pts) (sxx pts * sst pts).

(** The columns after [df.rename] (l.54), in the order of l.273. *)
Definition corr_cols : list (string * (DayRow → Q)) :=
  [("suhu", d_temp); ("kelembapan", d_hum); ("kecepatan_angin", d_windspeed);
   ("total_rental", λ r, inject_Z (d_cnt r))].

Definition column_pairs (c1 c2 : DayRow → Q) (df : list DayRow) : list (Q * Q) :=
  map (λ r, (c1 r, c2 r)) df.

(** [df.corr()]: row [i], column [j] correlates column [i] with column [j]. *)
Definition corr_matrix (df : list DayRow) : list (list CorrEntry) :=
  map (λ c1, map (λ c2, pearson (column_pairs c1.2 c2.2 df)) corr_cols) corr_cols.

(** Two entries denote the same number. *)
Definition corr_equiv (a b : CorrEntry) : Prop :=
  match a, b with
  | CorrNaN, CorrNaN => True
  | CorrVal n1 d1, CorrVal n2 d2 => n1 == n2 ∧ d1 == d2
  | _, _ => False
  end.

(** An entry equal to exactly [1]: [num = sqrt den2]. *)
Definition corr_is_one (a : CorrEntry) : Prop :=
  match a with CorrVal n d => 0 < n ∧ n * n == d | CorrNaN => False end.

(** The entry at row [i], column [j] of a matrix, as [.iloc[i, j]]. *)
Definition corr_at (m : list (list CorrEntry)) (i j : nat) : option CorrEntry :=
  m !! i ≫= λ row, row !! j.

(** ** Lemmas *)

Definition swap_pts (pts : list (Q * Q)) : list (Q * Q) := map (λ p, (p.2, p.1)) pts.

Lemma swap_means pts : xmean (swap_pts pts) = ymean pts ∧ ymean (swap_pts pts) = xmean pts.
Proof.
  unfold xmean, ymean, n_of, swap_pts. rewrite !map_map, length_map. done.
Qed.

Lemma swap_sums pts :
  sxx (swap_pts pts) = sst pts ∧ sst (swap_pts pts) = sxx pts ∧
  sxy (swap_pts pts) == sxy pts.
Proof.
  destruct (swap_means pts) as [Hx Hy].
  unfold sxx, sst, sxy. rewrite Hx, Hy. unfold swap_pts. rewrite !map_map. cbn.
  split_and!; [done|done|]. apply Qsum_map_ext. intros. ring.
Qed.

Lemma pearson_swap (pts : list (Q * Q)) :
  corr_equiv (pearson (swap_pts pts)) (pearson pts).
Proof.
  destruct (swap_sums pts) as (H1 & H2 & H3). unfold pearson. rewrite H1, H2.
  assert (Hc : sst pts * sxx pts == sxx pts * sst pts) by ring.
  case_decide as A; case_decide as B; simpl; try done.
  all: first [apply B; by rewrite <- Hc | apply A; by rewrite Hc | split; [done|exact Hc]].
Qed.

Lemma column_pairs_swap c1 c2 df :
  column_pairs c2 c1 df = swap_pts (column_pairs c1 c2 df).
Proof. unfold swap_pts, column_pairs. by rewrite map_map. Qed.

Lemma corr_at_matrix df i j e :
  corr_at (corr_matrix df) i j = Some e ↔
  ∃ c1 c2, corr_cols !! i = Some c1 ∧ corr_cols !! j = Some c2 ∧
           e = pearson (column_pairs c1.2 c2.2 df).
Proof.
  unfold corr_at, corr_matrix. rewrite list_lookup_fmap.
  destruct (corr_cols !! i) as [c1|]; cbn -[corr_cols]; [|naive_solver].
  rewrite list_lookup_fmap. destruct (corr_cols !! j) as [c2|]; cbn -[corr_cols]; naive_solver.
Qed.

(** C25. The correlation matrix is symmetric: the entry at [(j, i)] denotes
    the same number as the entry at [(i, j)]. *)
Theorem corr_matrix_symmetric (df : list DayRow) (i j : nat) (e : CorrEntry) :
  corr_at (corr_matrix df) i j = Some e →
  ∃ e', corr_at (corr_matrix df) j i = Some e' ∧ corr_equiv e' e.
Proof.
  rewrite corr_at_matrix. intros (c1 & c2 & H1 & H2 & ->).
  eexists. rewrite corr_at_matrix. split; [eauto 10|].
  rewrite column_pairs_swap. apply pearson_swap.
Qed.

Lemma diag_sums (c : DayRow → Q) (df : list DayRow) :
  let P := column_pairs c c df in
  xmean P = ymean P ∧ sst P = sxx P ∧ sxy P = sxx P.
Proof.
  cbn zeta. assert (Hm : xmean (column_pairs c c df) = ymean (column_pairs c c df)).
  { unfold xmean, ymean, column_pairs. rewrite !map_map. done. }
  unfold sst, sxy, sxx. rewrite <- Hm. unfold column_pairs. rewrite !map_map. done.
Qed.

(** C26. A diagonal entry is exactly [1], unless the column is constant on
    the table (one day, say), where pandas shows NaN. *)
Theorem corr_diagonal (c : DayRow → Q) (df : list DayRow) :
  let P := column_pairs c c df in
  corr_is_one (pearson P) ∨ (pearson P = CorrNaN ∧ ∀ p, p ∈ P → p.1 == xmean P).
Proof.
  cbn zeta. destruct (diag_sums c df) as (Hm & Hs & Hxy).
  set (P := column_pairs c c df) in *.
  assert (H0 : 0 <= sxx P) by apply Qsum_sq_nonneg.
  unfold pearson. rewrite Hs, Hxy. case_decide as Hz.
  - right. split; [done|]. intros p Hp.
    assert (Hxx : sxx P == 0) by (apply Qmult_integral in Hz as [?|?]; done).
    pose proof (Qsum_sq_zero (λ p, p.1 - xmean P) P Hxx p Hp) as E. simpl in E. lra.
  - left. simpl. split; [|reflexivity].
    apply Qle_lt_or_eq in H0 as [?|E]; [done|]. exfalso. apply Hz. rewrite <- E. ring.
Qed.

(** Cauchy-Schwarz for sums over a table. *)
Lemma Qsum_cauchy_schwarz (a b : Q * Q → Q) (pts : list (Q * Q)) :
  Qsum (map (λ p, a p * b p) pts) * Qsum (map (λ p, a p * b p) pts)
  <= Qsum (map (λ p, a p * a p) pts) * Qsum (map (λ p, b p * b p) pts).
Proof.
  set (A := Qsum (map (λ p, a p * a p) pts)).
  set (B := Qsum (map (λ p, a p * b p) pts)).
  set (C := Qsum (map (λ p, b p * b p) pts)).
  assert (HA : 0 <= A) by apply Qsum_sq_nonneg.
  assert (HC : 0 <= C) by apply Qsum_sq_nonneg.
  assert (Hq : ∀ t, 0 <= t * t * A + (-2 * t) * B + C).
  { intros t. pose proof (Qsum_sq_nonneg (λ p, t * a p - b p) pts) as Ht.
    rewrite (Qsum_map_ext _ (λ p, (t * t) * (a p * a p) + ((-2 * t) * (a p * b p) + b p * b p)))
      in Ht by (intros; ring).
    rewrite !Qsum_map_add, !Qsum_map_scale in Ht. fold A B C in Ht. lra. }
  apply Qle_lt_or_eq in HA as [HA|HA].
  - specialize (Hq (B / A)).
    assert (E : B / A * (B / A) * A + -2 * (B / A) * B + C == C - B * B / A) by (field; lra).
    rewrite E in Hq.
    assert (E2 : B * B == (B * B / A) * A) by (field; lra).
    rewrite E2. apply Qmult_le_compat_r with (z := A) in Hq; [|lra]. nra.
  - assert (Hb : B == 0).
    { assert (Ha : ∀ p, p ∈ pts → a p == 0).
      { apply (Qsum_sq_zero a). fold A. by rewrite <- HA. }
      unfold B. rewrite (Qsum_map_ext _ (λ _, 0)).
      - rewrite Qsum_map_const. ring.
      - intros p Hp. rewrite (Ha p Hp). ring. }
    rewrite Hb, <- HA. lra.
Qed.

(** C27. Every entry lies in [-1, 1]: its numerator's square is at most
    the square of its divisor. *)
Theorem pearson_bounded (pts : list (Q * Q)) (n d : Q) :
  pearson pts = CorrVal n d → 0 < d ∧ n * n <= d.
Proof.
  unfold pearson. case_decide as Hz; [discriminate|]. intros [= <- <-].
  split.
  - assert (0 <= sxx pts) by apply Qsum_sq_nonneg.
    assert (0 <= sst pts) by apply Qsum_sq_nonneg.
    assert (0 <= sxx pts * sst pts) by nra.
    apply Qle_lt_or_eq in H1 as [?|E]; [done|]. exfalso. apply Hz. by rewrite <- E.
  - apply (Qsum_cauchy_schwarz (λ p, p.1 - xmean pts) (λ p, p.2 - ymean pts)).
Qed.

(** [corr_matrix] has the four renamed columns in both dimensions. *)
Lemma corr_matrix_shape df :
  length (corr_matrix df) = 4%nat ∧ Forall (λ row, length row = 4%nat) (corr_matrix df).
Proof. split; [done|]. repeat constructor. Qed.

(** ** Witnesses on the three days of the spec's scenario *)

Lemma corr_matrix_symmetric_witness :
  ∃ e', corr_at (corr_matrix spec_days) 0 3 = Some e' ∧
        corr_equiv e' (pearson (column_pairs (λ r, inject_Z (d_cnt r)) d_temp spec_days)).
Proof. apply (corr_matrix_symmetric spec_days 3 0). vm_compute. reflexivity. Defined.

Lemma pearson_bounded_witness :
  match pearson (column_pairs d_temp (λ r, inject_Z (d_cnt r)) spec_days) with
  | CorrVal n d => 0 < d ∧ n * n <= d
  | CorrNaN => False
  end.
Proof.
  destruct (pearson _) as [|n d] eqn:E; [vm_compute in E; discriminate E|].
  exact (pearson_bounded _ n d E).
Defined.

(** On the scenario the diagonal is one; on a single day it is NaN. *)
Example corr_diagonal_days :
  corr_is_one (pearson (column_pairs d_temp d_temp spec_days)) ∧
  pearson (column_pairs d_temp d_temp (take 1 spec_days)) = CorrNaN.
Proof. split; [vm_compute; split; reflexivity | reflexivity]. Qed.

End Correlation.
