(* ===== verification/Charts.v ===== *)
(** * Charts: the data of the trend line and the two bar charts

  [plot_bike_rental] (l.23-36) sorts the filtered day table by [dteday]
  and draws three series against the dates.  The bar charts of
  l.249-264 draw the group means of [GroupBy], rounded (l.251, 256) and,
  for seasons, relabelled (l.252), sorted ascending by [plot_season_cnt]
  (l.65-80) and [plot_time_cnt] (l.83-99).  What this file keeps of a
  figure is what the code computes for it: the points of each series,
  the category, position, length and label of each bar, and the axis
  settings the code chooses.  Colours and sizes are kept as the strings
  and numbers the code passes. *)

From S2P Require Import Prelude Dates Tables SortValues GroupBy.
Import Date Tables SortValues GroupBy.

Module Charts.

(** ** [plot_bike_rental] (l.23-36) *)

(** The sort key of [df.sort_values('dteday')]: the int64 of the
    [datetime64[ns]] column. *)
Definition dteday_key (r : DayRow) : Q := inject_Z (datetime64_ns (d_dteday r)).

(** One [ax.plot(x, y, linestyle=..., color=..., label=...)]. *)
Record Line := mkLine {
  line_x : list date;
  line_y : list Z;
  line_style : string;
  line_color : string;
  line_label : string
}.

Definition plot_bike_rental (df : list DayRow) : list Line :=
  let df_sorted := sort_values dteday_key true df in
  let xs := map d_dteday df_sorted in
  [mkLine xs (map d_casual df_sorted) "--" "skyblue" "Casual";
   mkLine xs (map d_registered df_sorted) "--" "salmon" "Registered";
   mkLine xs (map d_cnt df_sorted) "-" "forestgreen" "Total"].

(** l.34: [ax.legend] names the lines in the order they were drawn. *)
Definition rental_legend : list string := ["Casual"; "Registered"; "Total"].

(** The three lines drawn from the rows [s], in order. *)
Definition rental_lines (s : list DayRow) : list Line :=
  [mkLine (map d_dteday s) (map d_casual s) "--" "skyblue" "Casual";
   mkLine (map d_dteday s) (map d_registered s) "--" "salmon" "Registered";
   mkLine (map d_dteday s) (map d_cnt s) "-" "forestgreen" "Total"].

Definition date_lt (d1 d2 : date) : Prop := date_compare d1 d2 = Lt.

(** ** The bar charts' tables (l.249-256) *)

(** A cell of [season_cnt['season']] after [replace] (l.252): the name, or
    the integer code when the dictionary has no entry for it. *)
Inductive Label :=
| LInt (k : Z)
| LStr (s : string).

#[export] Instance Label_eq_dec : EqDecision Label.
Proof. solve_decision. Defined.

Definition season_names : gmap Z string :=
  {[1 := "Springer"; 2 := "Summer"; 3 := "Fall"; 4 := "Winter"]}.

Definition replace_season (k : Z) : Label :=
  match season_names !! k with Some s => LStr s | None => LInt k end.

(** [round(series)] (l.251, 256): numpy's round, half to even. *)
Definition round_series (q : Q) : Q := inject_Z (round_half_even q).

(** l.250-252 *)
Definition season_cnt (df : list DayRow) : list (Label * Q) :=
  map (λ km, (replace_season km.1, round_series km.2)) (f_season_cnt df).

(** l.255-256 *)
Definition time_cnt (dh : list HourRow) : list (string * Q) :=
  map (λ km, (km.1, round_series km.2)) (f_time_cnt dh).

(** ** [ax.barh] and [ax.text] *)

(** One rectangle of [ax.barh(y, width)]: [height=0.8], centred on its
    position ([align='center']). *)
Record Bar (L : Type) := mkBar {
  bar_label : L;
  bar_y : Q;
  bar_height : Q;
  bar_width : Q
}.
Arguments mkBar {L}.
Arguments bar_label {L}.
Arguments bar_y {L}.
Arguments bar_height {L}.
Arguments bar_width {L}.

Definition barh_height : Q := 8 # 10.

Definition barh_rect {L} (l : L) (pos w : Q) : Bar L :=
  mkBar l (pos - barh_height / 2) barh_height w.

(** One [ax.text(x, y, s)]. *)
Record Text := mkText { text_x : Q; text_y : Q; text_s : Q }.

(** The loop of l.72-75 / l.90-93: [round(bar.get_width(), 2)] at the end
    of the bar, half way up. *)
Definition bar_text {L} (b : Bar L) : Text :=
  mkText (bar_width b) (bar_y b + bar_height b / 2) (round_dec 2 (bar_width b)).

(** matplotlib's category axis ([UnitData.update]): each new string gets
    the next integer, in order of first appearance. *)
Fixpoint cat_units (seen : list string) (ls : list string) : list string :=
  match ls with
  | [] => seen
  | s :: ls' => cat_units (if decide (s ∈ seen) then seen else seen ++ [s]) ls'
  end.

Definition cat_pos (units : list string) (s : string) : Q :=
  match list_find (λ t, t = s) units with
  | Some (i, _) => inject_Z (Z.of_nat i)
  | None => 0
  end.

Definition str_positions (ls : list string) : list Q :=
  map (cat_pos (cat_units [] ls)) ls.

Definition is_LStr (l : Label) : bool := match l with LStr _ => true | LInt _ => false end.
Definition label_str (l : Label) : string := match l with LStr s => s | LInt _ => "" end.
Definition label_num (l : Label) : Q := match l with LInt k => inject_Z k | LStr _ => 0 end.

(** The positions of the season column: categories when every label is a
    string, the numbers themselves when every label is a number; the
    category converter refuses a column that mixes both. *)
Definition label_positions (ls : list Label) : result (list Q) :=
  if forallb is_LStr ls then Ok (str_positions (map label_str ls))
  else if forallb (negb ∘ is_LStr) ls then Ok (map label_num ls)
  else Err (TypeError "'value' must be an instance of str or bytes").

Record BarChart (L : Type) := mkBarChart {
  chart_bars : list (Bar L);
  chart_texts : list Text;
  text_ha : string;
  chart_xlabel : string;
  x_inverted : bool;
  y_right : bool
}.
Arguments mkBarChart {L}.
Arguments chart_bars {L}.
Arguments chart_texts {L}.
Arguments text_ha {L}.
Arguments chart_xlabel {L}.
Arguments x_inverted {L}.
Arguments y_right {L}.

Definition bars_of {L} (s : list (L * Q)) (ys : list Q) : list (Bar L) :=
  zip_with (λ lw y, barh_rect lw.1 y lw.2) s ys.

(** [plot_season_cnt] (l.65-80) *)
Definition plot_season_cnt (tbl : list (Label * Q)) : result (BarChart Label) :=
  let sorted := sort_values snd true tbl in
  ys ← label_positions (map fst sorted);
  let bars := bars_of sorted ys in
  mret (mkBarChart bars (map bar_text bars) "right" "Jumlah Peminjaman" false false).

(** [plot_time_cnt] (l.83-99): labels on the left of the bar ends, the x
    axis inverted and the categories on the right. *)
Definition plot_time_cnt (tbl : list (string * Q)) : BarChart string :=
  let sorted := sort_values snd true tbl in
  let bars := bars_of sorted (str_positions (map fst sorted)) in
  mkBarChart bars (map bar_text bars) "left" "Jumlah Peminjaman" true true.

(** What a bar chart shows: the [i]-th bar is centred at height [i], and its
    text sits at the bar's end, half way up, showing the bar's length. *)
Definition bar_layout {L} (bars : list (Bar L)) (texts : list Text) : Prop :=
  ∀ i b, bars !! i = Some b →
    bar_y b + bar_height b / 2 == inject_Z (Z.of_nat i) ∧
    ∃ t, texts !! i = Some t ∧
         text_x t = bar_width b ∧ text_y t == inject_Z (Z.of_nat i) ∧ text_s t == bar_width b.

(** ** Lemmas on the trend line *)

Lemma plot_bike_rental_lines df :
  plot_bike_rental df = rental_lines (sort_values dteday_key true df).
Proof. reflexivity. Qed.

(** On a table with one row per valid date, rows with the same key are the
    same row. *)
Lemma dteday_key_inj (df : list DayRow) a b :
  NoDup (map d_dteday df) → Forall (λ r, DayRow_wf r = true) df →
  a ∈ df → b ∈ df → (dteday_key a == dteday_key b)%Q → a = b.
Proof.
  intros Hnd Hwf Ha Hb E. rewrite Forall_forall in Hwf.
  apply (NoDup_map_in_inj d_dteday df); [done..|].
  unfold dteday_key in E. rewrite inject_Z_injective in E.
  apply datetime64_ns_inj; [| |exact E]; eapply DayRow_wf_valid; eauto.
Qed.

Lemma dteday_key_le_lt (df : list DayRow) a b :
  NoDup (map d_dteday df) → Forall (λ r, DayRow_wf r = true) df →
  a ∈ df → b ∈ df → a ≠ b → key_le dteday_key a b → date_lt (d_dteday a) (d_dteday b).
Proof.
  intros Hnd Hwf Ha Hb Hne Hle. unfold key_le in Hle.
  apply Qle_lt_or_eq in Hle as [Hlt|E]; [|by pose proof (dteday_key_inj df a b Hnd Hwf Ha Hb E)].
  rewrite Forall_forall in Hwf. apply datetime64_ns_lt; [eapply DayRow_wf_valid; eauto..|].
  unfold dteday_key in Hlt. by rewrite <- Zlt_Qlt in Hlt.
Qed.

Lemma map_cnt_wf (s : list DayRow) :
  Forall (λ r, DayRow_wf r = true) s →
  map d_cnt s = zip_with Z.add (map d_casual s) (map d_registered s).
Proof.
  induction 1 as [|r s Hr _ IH]; [done|]. simpl. rewrite IH. f_equal.
  by apply DayRow_wf_cnt.
Qed.

Lemma NoDup_map_perm {B} (f : DayRow → B) (s df : list DayRow) :
  s ≡ₚ df → NoDup (map f df) → NoDup (map f s).
Proof. intros Hp. by rewrite Hp. Qed.

(** C28. The trend chart draws three series over the same dates: the rows
    of the table in strictly increasing date order, with the Total series
    the sum of the Casual and Registered series point by point. *)
Theorem plot_bike_rental_spec (df : list DayRow) :
  NoDup (map d_dteday df) → Forall (λ r, DayRow_wf r = true) df →
  ∃ s, s ≡ₚ df ∧ StronglySorted (λ a b, date_lt (d_dteday a) (d_dteday b)) s ∧
       plot_bike_rental df = rental_lines s ∧
       map d_cnt s = zip_with Z.add (map d_casual s) (map d_registered s) ∧
       map line_label (plot_bike_rental df) = rental_legend.
Proof.
  intros Hnd Hwf. destruct (sort_values_spec dteday_key df) as [(Hs & Hp & _) _].
  set (s := sort_values dteday_key true df) in *.
  assert (Hnd' : NoDup s) by (apply (NoDup_fmap_1 d_dteday), (NoDup_map_perm d_dteday s df Hp Hnd)).
  exists s. split_and!; [done| |done| |done].
  - apply (StronglySorted_strict (key_le dteday_key)); [|done|].
    + intros a b Ha Hb. rewrite Hp in Ha, Hb. by apply (dteday_key_le_lt df).
    + apply Sorted_StronglySorted; [apply _|done].
  - apply map_cnt_wf. by rewrite Hp.
Qed.

(** C29. The chart does not depend on the sort algorithm: any reordering
    of a table with one row per date that is sorted by date draws the
    same lines (numpy sorts a longer column by introsort, not by the
    insertion sort of [sort_values]). *)
Theorem plot_bike_rental_sort_free (df out : list DayRow) :
  NoDup (map d_dteday df) → Forall (λ r, DayRow_wf r = true) df →
  out ≡ₚ df → Sorted (λ a b, date_le (d_dteday a) (d_dteday b)) out →
  plot_bike_rental df = rental_lines out.
Proof.
  intros Hnd Hwf Hp Hs. rewrite plot_bike_rental_lines. f_equal. symmetry.
  apply sort_values_distinct_keys; [by apply (NoDup_fmap_1 d_dteday)| |done|].
  - intros a b Ha Hb. by apply (dteday_key_inj df).
  - apply (Sorted_weaken_in (λ a b, date_le (d_dteday a) (d_dteday b))); [|done]. intros a b Ha Hb Hab.
    rewrite Hp in Ha, Hb. rewrite Forall_forall in Hwf. unfold key_le, dteday_key. rewrite <- Zle_Qle.
    destruct (date_compare (d_dteday a) (d_dteday b)) eqn:C.
    + apply date_compare_eq in C. rewrite C. lia.
    + apply datetime64_ns_lt in C; [lia|eapply DayRow_wf_valid; eauto..].
    + unfold date_le, date_leb in Hab. by rewrite C in Hab.
Qed.

(** ** Lemmas on the bar charts *)

Lemma cat_units_nodup seen ls : NoDup (seen ++ ls) → cat_units seen ls = seen ++ ls.
Proof.
  revert seen. induction ls as [|x ls IH]; intros seen Hnd; simpl; [by rewrite app_nil_r|].
  rewrite decide_False.
  - rewrite IH; [by rewrite <- app_assoc|by rewrite <- app_assoc].
  - intros Hx. apply NoDup_app in Hnd as (_ & Hd & _). apply (Hd x Hx). left.
Qed.

Lemma cat_pos_nodup (u : list string) i x :
  NoDup u → u !! i = Some x → cat_pos u x = inject_Z (Z.of_nat i).
Proof.
  intros Hnd Hi. unfold cat_pos.
  destruct (list_find (λ t, t = x) u) as [[j y]|] eqn:E.
  - apply list_find_Some in E as (Hj & -> & _).
    by rewrite (NoDup_lookup u i j x Hnd Hi Hj).
  - apply list_find_None in E. rewrite Forall_forall in E.
    exfalso. apply (E x); [by eapply list_elem_of_lookup_2|done].
Qed.

(** On distinct labels the category axis puts the [i]-th bar at [i]. *)
Lemma str_positions_nodup ls :
  NoDup ls → length (str_positions ls) = length ls ∧
  ∀ i y, str_positions ls !! i = Some y → y = inject_Z (Z.of_nat i).
Proof.
  intros Hnd. unfold str_positions. rewrite cat_units_nodup by done. simpl.
  split; [apply length_map|]. intros i y Hy.
  rewrite list_lookup_fmap in Hy. destruct (ls !! i) as [x|] eqn:Hx; [|done].
  injection Hy as <-. by apply cat_pos_nodup.
Qed.

Section bars.
Context {L : Type}.

Lemma bars_of_columns (s : list (L * Q)) ys :
  length ys = length s →
  map bar_label (bars_of s ys) = map fst s ∧ map bar_width (bars_of s ys) = map snd s.
Proof.
  revert ys. induction s as [|[l w] s IH]; intros [|y ys] Hlen; try done.
  simpl in *. destruct (IH ys) as [H1 H2]; [lia|]. by rewrite H1, H2.
Qed.

Lemma bars_of_lookup (s : list (L * Q)) ys i b :
  bars_of s ys !! i = Some b →
  ∃ lw y, s !! i = Some lw ∧ ys !! i = Some y ∧ b = barh_rect lw.1 y lw.2.
Proof.
  unfold bars_of. rewrite lookup_zip_with.
  destruct (s !! i), (ys !! i); simpl; intros; simplify_eq; eauto.
Qed.

(** The generic bar chart: bars in the order of [sorted], the [i]-th at
    height [i], with its label at its end showing its integer length. *)
Lemma bar_chart_layout (sorted : list (L * Q)) ys :
  (∀ i y, ys !! i = Some y → y = inject_Z (Z.of_nat i)) →
  Forall (λ lw, ∃ z, lw.2 = inject_Z z) sorted →
  bar_layout (bars_of sorted ys) (map bar_text (bars_of sorted ys)).
Proof.
  intros Hys Hint i b Hb.
  destruct (bars_of_lookup sorted ys i b Hb) as ([l w] & y & Hs & Hy & ->).
  pose proof (Hys i y Hy) as Ey. subst y. simpl.
  assert (Hc : inject_Z (Z.of_nat i) - barh_height / 2 + barh_height / 2 == inject_Z (Z.of_nat i))
    by ring.
  split; [exact Hc|]. exists (bar_text (barh_rect l (inject_Z (Z.of_nat i)) w)).
  rewrite list_lookup_fmap, Hb. split_and!; [done|done|exact Hc|].
  rewrite Forall_forall in Hint.
  destruct (Hint (l, w)) as [z Hz]; [by eapply list_elem_of_lookup_2|]. simpl in Hz |- *.
  rewrite Hz. apply round_dec_Z.
Qed.

Lemma bars_ascending (tbl : list (L * Q)) ys :
  length ys = length tbl →
  Sorted (λ b1 b2, (bar_width b1 <= bar_width b2)%Q) (bars_of (sort_values snd true tbl) ys).
Proof.
  intros Hlen. destruct (sort_values_spec snd tbl) as [(Hs & Hp & _) _].
  apply (Sorted_map_iff Qle bar_width).
  rewrite (proj2 (bars_of_columns (sort_values snd true tbl) ys ltac:(by rewrite Hp))).
  by apply (Sorted_map_iff Qle snd).
Qed.
(** A bar chart over distinct string categories and integer lengths. *)
Lemma str_bar_chart (f : L → string) (tbl : list (L * Q)) :
  NoDup (map f (map fst tbl)) → Forall (λ lw, ∃ z, lw.2 = inject_Z z) tbl →
  let sorted := sort_values snd true tbl in
  let bars := bars_of sorted (str_positions (map f (map fst sorted))) in
  Sorted (λ b1 b2, (bar_width b1 <= bar_width b2)%Q) bars ∧
  map bar_label bars ≡ₚ map fst tbl ∧ bar_layout bars (map bar_text bars).
Proof.
  intros Hnd Hint. cbn zeta. destruct (sort_values_spec snd tbl) as [(_ & Hp & _) _].
  set (sorted := sort_values snd true tbl) in *.
  assert (Hnd' : NoDup (map f (map fst sorted))) by by rewrite Hp.
  destruct (str_positions_nodup _ Hnd') as [Hlen Hpos].
  rewrite !length_map in Hlen.
  split_and!.
  - apply bars_ascending. by rewrite Hlen, Hp.
  - by rewrite (proj1 (bars_of_columns sorted _ Hlen)), Hp.
  - apply bar_chart_layout; [done|]. by rewrite Hp.
Qed.
End bars.

Lemma replace_season_str k : 1 <= k <= 4 → is_LStr (replace_season k) = true.
Proof. intros Hk. assert (k = 1 ∨ k = 2 ∨ k = 3 ∨ k = 4) as Hk' by lia. by destruct_or! Hk'; subst. Qed.

Lemma replace_season_inj k1 k2 :
  1 <= k1 <= 4 → 1 <= k2 <= 4 →
  label_str (replace_season k1) = label_str (replace_season k2) → k1 = k2.
Proof.
  intros H1 H2. assert (k1 = 1 ∨ k1 = 2 ∨ k1 = 3 ∨ k1 = 4) as K1 by lia.
  assert (k2 = 1 ∨ k2 = 2 ∨ k2 = 3 ∨ k2 = 4) as K2 by lia.
  by destruct_or! K1; destruct_or! K2; subst.
Qed.

Lemma season_keys_range (df : list DayRow) k :
  Forall (λ r, DayRow_wf r = true) df → k ∈ group_keys d_season df → 1 <= k <= 4.
Proof.
  intros Hwf Hk. apply group_keys_elem in Hk as (r & Hr & <-).
  rewrite Forall_forall in Hwf. specialize (Hwf r Hr). unfold DayRow_wf in Hwf.
  rewrite !andb_true_iff, !Z.leb_le in Hwf. lia.
Qed.

Lemma agg_sorted_keys {K R} `{GroupKey K} `{Counted R} (key : R → K) (df : list R) :
  map fst (agg_sorted key df) ≡ₚ group_keys key df.
Proof.
  rewrite (agg_sorted_perm key df). unfold groupby_mean. rewrite map_map. simpl. by rewrite map_id.
Qed.

Lemma rounded_int {K K'} (g : K → K') (tbl : list (K * Q)) :
  Forall (λ lw, ∃ z, lw.2 = inject_Z z) (map (λ km, (g km.1, round_series km.2)) tbl).
Proof. apply Forall_forall. intros x Hx. apply list_elem_of_fmap in Hx as (y & -> & _). by eexists. Qed.

Lemma season_cnt_labels (df : list DayRow) :
  map fst (season_cnt df) ≡ₚ map replace_season (group_keys d_season df).
Proof.
  unfold season_cnt. transitivity (map replace_season (map fst (f_season_cnt df))).
  - rewrite !map_map. reflexivity.
  - apply Permutation_map, agg_sorted_keys.
Qed.

Lemma season_labels_str (df : list DayRow) :
  Forall (λ r, DayRow_wf r = true) df →
  Forall (λ l, is_LStr l = true) (map replace_season (group_keys d_season df)).
Proof.
  intros Hwf. apply Forall_forall. intros l Hl. apply list_elem_of_fmap in Hl as (k & -> & Hl).
  by apply replace_season_str, (season_keys_range df).
Qed.

Lemma season_sorted_str (df : list DayRow) :
  Forall (λ r, DayRow_wf r = true) df →
  forallb is_LStr (map fst (sort_values snd true (season_cnt df))) = true.
Proof.
  intros Hwf. destruct (sort_values_spec snd (season_cnt df)) as [(_ & Hp & _) _].
  apply forallb_forall. intros l Hl%list_elem_of_In. rewrite Hp, season_cnt_labels in Hl.
  by eapply Forall_forall in Hl; [|apply season_labels_str].
Qed.

(** On a well-formed table the season chart is drawn. *)
Lemma plot_season_cnt_ok (df : list DayRow) :
  Forall (λ r, DayRow_wf r = true) df → ∃ c, plot_season_cnt (season_cnt df) = Ok c.
Proof.
  intros Hwf. unfold plot_season_cnt, label_positions. rewrite season_sorted_str by done.
  by eexists.
Qed.

(** C30. On a well-formed table the season chart is drawn (no error): one
    bar per season present, labelled with its name, bars from bottom to
    top in increasing rounded mean, each text at its bar's end showing the
    bar's length. *)
Theorem plot_season_cnt_spec (df : list DayRow) :
  Forall (λ r, DayRow_wf r = true) df →
  ∃ c, plot_season_cnt (season_cnt df) = Ok c ∧
    Sorted (λ b1 b2, (bar_width b1 <= bar_width b2)%Q) (chart_bars c) ∧
    map bar_label (chart_bars c) ≡ₚ map replace_season (group_keys d_season df) ∧
    Forall (λ b, is_LStr (bar_label b) = true) (chart_bars c) ∧
    bar_layout (chart_bars c) (chart_texts c).
Proof.
  intros Hwf. set (keys := group_keys d_season df).
  pose proof (season_cnt_labels df) as Hlab. pose proof (season_labels_str df Hwf) as Hstr.
  assert (Hnd : NoDup (map label_str (map fst (season_cnt df)))).
  { rewrite Hlab, map_map. apply (NoDup_fmap_2_strong (λ k, label_str (replace_season k))).
    - intros k1 k2 H1 H2. apply replace_season_inj; by eapply season_keys_range.
    - apply StronglySorted_gk_lt_NoDup, group_keys_sorted. }
  destruct (str_bar_chart label_str (season_cnt df) Hnd (rounded_int replace_season _)) as (Hs & Hl & Hlay).
  unfold plot_season_cnt, label_positions. rewrite season_sorted_str by done.
  eexists. split; [reflexivity|]. simpl.
  split_and!; [done| by rewrite Hl | | done].
  apply Forall_forall. intros b Hb. apply (list_elem_of_fmap_2 bar_label) in Hb.
  rewrite Hl, Hlab in Hb. by eapply Forall_forall in Hstr.
Qed.

(** C31. The time-of-day chart: one bar per bucket present, from bottom to
    top in increasing rounded mean, texts at the bar ends showing the
    lengths, drawn on an inverted x axis with the categories on the right. *)
Theorem plot_time_cnt_spec (dh : list HourRow) :
  let c := plot_time_cnt (time_cnt dh) in
  Sorted (λ b1 b2, (bar_width b1 <= bar_width b2)%Q) (chart_bars c) ∧
  map bar_label (chart_bars c) ≡ₚ group_keys h_time_of_day dh ∧
  bar_layout (chart_bars c) (chart_texts c) ∧
  text_ha c = "left" ∧ x_inverted c = true ∧ y_right c = true.
Proof.
  assert (Hlab : map fst (time_cnt dh) ≡ₚ group_keys h_time_of_day dh).
  { unfold time_cnt. rewrite map_map. simpl. apply (agg_sorted_keys h_time_of_day). }
  assert (Hnd : NoDup (map (λ s, s) (map fst (time_cnt dh)))).
  { rewrite map_id, Hlab. apply StronglySorted_gk_lt_NoDup, group_keys_sorted. }
  destruct (str_bar_chart (λ s, s) (time_cnt dh) Hnd (rounded_int (λ s, s) _)) as (Hs & Hl & Hlay).
  rewrite map_id in Hs, Hl, Hlay. simpl. split_and!; [done| by rewrite Hl | done..].
Qed.

(** ** Witnesses *)

Lemma plot_bike_rental_spec_witness :
  ∃ s, s ≡ₚ reverse spec_days ∧ StronglySorted (λ a b, date_lt (d_dteday a) (d_dteday b)) s ∧
       plot_bike_rental (reverse spec_days) = rental_lines s ∧
       map d_cnt s = zip_with Z.add (map d_casual s) (map d_registered s) ∧
       map line_label (plot_bike_rental (reverse spec_days)) = rental_legend.
Proof.
  apply plot_bike_rental_spec.
  - apply (bool_decide_unpack _). vm_compute. reflexivity.
  - repeat constructor.
Defined.

Lemma plot_bike_rental_sort_free_witness :
  plot_bike_rental (reverse spec_days) = rental_lines spec_days.
Proof.
  apply plot_bike_rental_sort_free.
  - apply (bool_decide_unpack _). vm_compute. reflexivity.
  - repeat constructor.
  - by rewrite reverse_Permutation.
  - repeat constructor.
Defined.

(** Three days in three seasons; seasons 1 and 3 tie on a mean of 20. *)
Definition three_seasons : list DayRow :=
  [mkDay (mkDate 2021 1 1) 3 1 0 0 0 10 10 20;
   mkDay (mkDate 2021 1 2) 1 1 0 0 0 10 10 20;
   mkDay (mkDate 2021 1 3) 2 1 0 0 0 20 11 31].

Lemma plot_season_cnt_spec_witness :
  ∃ c, plot_season_cnt (season_cnt three_seasons) = Ok c ∧
    Sorted (λ b1 b2, (bar_width b1 <= bar_width b2)%Q) (chart_bars c) ∧
    map bar_label (chart_bars c) ≡ₚ map replace_season (group_keys d_season three_seasons) ∧
    Forall (λ b, is_LStr (bar_label b) = true) (chart_bars c) ∧
    bar_layout (chart_bars c) (chart_texts c).
Proof. apply plot_season_cnt_spec. repeat constructor. Defined.

(** The bars of that table, bottom to top: the tie keeps the descending
    table's order (Springer, then Fall), Summer is on top. *)
Example plot_season_cnt_three :
  match plot_season_cnt (season_cnt three_seasons) with
  | Ok c => map (λ b, (bar_label b, bar_width b)) (chart_bars c)
  | Err _ => []
  end = [(LStr "Springer", 20%Q); (LStr "Fall", 20%Q); (LStr "Summer", 31%Q)].
Proof. vm_compute. reflexivity. Qed.

End Charts.
