(* ===== verification/Dashboard.v ===== *)
(** * Dashboard: the script's top level (l.138-297) and Streamlit's rerun

  Streamlit runs the whole script from the top each time the user
  changes a widget, and shows the page elements in the order the script
  emits them; an exception stops the run, and the page keeps what was
  emitted before it, followed by the traceback.  The script's run is
  modelled as a computation in a writer/error monad [M]: a list of
  emitted [Elem]ents and either a value or the exception.  [page] is the
  whole script for one value of the sidebar's [st.date_input] (the only
  widget), over the two loaded tables [Data], and [run] adds the loading
  that every run repeats.  The script keeps no state between runs (no
  [st.session_state], no cache), so a session is the sequence of runs on
  the values the user picks; its first run uses the picker's default
  value [[min_date, max_date]] (C35).  The static explanations of the two
  expanders are kept as their titles only. *)

From stdpp Require Import pretty.
From S2P Require Import Prelude Dates Tables Loader DateFilter SortValues GroupBy Extremes Regression Correlation Charts.
Import Date Tables Loader DateFilter SortValues GroupBy Extremes Regression Correlation Charts.

Module Dashboard.

(** ** Page elements *)

(** The value of an [st.metric]: a numpy integer or a float. *)
Inductive MetricVal :=
| MInt (z : Z)
| MFloat (q : Q).

(** The value of the range [st.date_input]: while the user is picking, the
    widget holds the first date only. *)
Inductive Selection :=
| Sel1 (d : date)
| Sel2 (s e : date).

Inductive Elem :=
| EImage (url : string) (width : Z)
| ECaption (s : string)
| EDateInput (label : string) (min_value max_value : date) (value : Selection)
| EMarkdown (s : string)
| EHeader (s : string)
| ESubheader (s : string)
| EColumns (n : nat)
| ETabs (names : list string)
| EMetric (label : string) (v : MetricVal)
| EText (s : string)
| ETrend (lines : list Line)
| ESeasonChart (c : BarChart Label)
| ETimeChart (c : BarChart string)
| EHeatmap (m : list (list CorrEntry))
| ELRPlot (xlab : string) (p : LRPlot)
| EExpander (title : string).

(** ** The writer/error monad of a script run *)

Definition M (A : Type) : Type := list Elem * result A.

#[export] Instance M_ret : MRet M := λ A a, ([], Ok a).
#[export] Instance M_bind : MBind M := λ A B f m,
  match m with
  | (out, Ok a) => let '(out', r) := f a in (out ++ out', r)
  | (out, Err e) => (out, Err e)
  end.

(** [st.*]: add one element to the page. *)
Definition emit (e : Elem) : M unit := ([e], Ok ()).

(** Plain Python code: no element, a value or an exception. *)
Definition lift {A} (r : result A) : M A := ([], r).

(** ** The sidebar (l.138-151) *)

(** [df_day0["dteday"].min()] and [.max()]; on an empty column pandas gives
    [NaT], which [st.date_input] rejects ([NaT.date()] raises). *)
Definition date_min (ds : list date) : option date :=
  match ds with [] => None | d :: l => Some (foldl (λ m x, if date_leb m x then m else x) d l) end.
Definition date_max (ds : list date) : option date :=
  match ds with [] => None | d :: l => Some (foldl (λ m x, if date_leb x m then m else x) d l) end.

Definition nat_error : exn := ValueError "NaTType does not support date".
Definition unpack_error : exn := ValueError "not enough values to unpack (expected 2, got 1)".

Definition date_bounds (df : list DayRow) : result (date * date) :=
  match date_min (map d_dteday df), date_max (map d_dteday df) with
  | Some mn, Some mx => Ok (mn, mx)
  | _, _ => Err nat_error
  end.

(** [start_date, end_date = st.date_input(...)] *)
Definition unpack (v : Selection) : result (date * date) :=
  match v with Sel2 s e => Ok (s, e) | Sel1 _ => Err unpack_error end.

Definition bike_icon : string := "https://github.com/Lucky77777777/Bike-Sharing/raw/main/bike_icon.png".

Definition sidebar (data : Data) (v : Selection) : M (date * date) :=
  emit (EImage bike_icon 250);;
  emit (ECaption "Copyright vectips.com");;
  '(mn, mx) ← lift (date_bounds (df_day0 data));
  emit (EDateInput "Periode Peminjaman Sepeda" mn mx v);;
  lift (unpack v).

(** ** The main board *)

Definition title_html : string :=
  "<h1 style='color: skyblue;'> BIKE SHARING DASHBOARD📊 </h1>".

(** One summary column (l.162-172): the metric, then the caption whose
    [round] raises on the NaN mean of an empty table. *)
Definition card_block (label : string) (f : DayRow → Z) (df : list DayRow) : M unit :=
  emit (EMetric label (MInt (np_col_sum f df)));;
  avg ← lift (py_round (col_mean f df));
  emit (ECaption ("Avg. " +:+ pretty avg +:+ " users/day")).

(** One tab of l.186-244 for the row [pick] selects. *)
Definition extreme_block (title : string) (pick : list DayRow → result DayRow)
    (df : list DayRow) : M unit :=
  emit (ESubheader title);;
  r ← lift (pick df);
  let t := extreme_tab r in
  emit (EText ("📅 " +:+ tab_date t));;
  emit (EText (tab_season t));;
  emit (EText (tab_weather t));;
  emit (EColumns 3);;
  emit (EMetric "Casual Users" (MInt (tab_casual t)));;
  emit (EMetric "Registered Users" (MInt (tab_registered t)));;
  emit (EMetric "Total Users" (MInt (tab_cnt t)));;
  emit (EColumns 3);;
  emit (EMetric "Suhu (°C)" (MFloat (tab_temp t)));;
  emit (EMetric "Kelembapan (%)" (MFloat (tab_hum t)));;
  emit (EMetric "Kecepatan Angin (km/h)" (MFloat (tab_windspeed t))).

(** l.246-297 *)
Definition charts_block (df_day : list DayRow) (df_hour : list HourRow) : M unit :=
  emit (EHeader "Rata-Rata Jumlah Peminjaman Harian");;
  emit (ETabs ["Musim"; "Waktu"]);;
  emit (ESubheader "Musim");;
  c ← lift (plot_season_cnt (season_cnt df_day));
  emit (ESeasonChart c);;
  emit (ESubheader "Waktu");;
  emit (ETimeChart (plot_time_cnt (time_cnt df_hour)));;
  emit (EHeader "Pengaruh Cuaca Terhadap Jumlah Pinjaman");;
  emit (ESubheader "Heatmap Correlation");;
  emit (EHeatmap (corr_matrix df_day));;
  emit (EExpander "Penjelasan");;
  emit (ESubheader "Simple Linear Regression");;
  emit (ETabs ["Suhu"; "Kelembapan"; "Kecepatan Angin"]);;
  p1 ← lift (lr_plot d_temp df_day);
  emit (ELRPlot "Suhu" p1);;
  p2 ← lift (lr_plot d_hum df_day);
  emit (ELRPlot "Kelembapan" p2);;
  p3 ← lift (lr_plot d_windspeed df_day);
  emit (ELRPlot "Kecepatan Angin" p3);;
  emit (EExpander "Penjelasan").

(** One run of the script for the widget value [v]. *)
Definition page (data : Data) (v : Selection) : M unit :=
  '(s, e) ← sidebar data v;
  df_day ← lift (f_date (df_day0 data) s e);
  df_hour ← lift (f_date (df_hour0 data) s e);
  emit (EMarkdown title_html);;
  emit (EColumns 3);;
  card_block "Casual Users" d_casual df_day;;
  card_block "Registered Users" d_registered df_day;;
  card_block "Total Users" d_cnt df_day;;
  emit (EHeader "Tren Jumlah Peminjaman Sepeda");;
  emit (ETrend (plot_bike_rental df_day));;
  emit (ETabs ["Tertinggi"; "Terendah"]);;
  extreme_block "Jumlah Peminjaman Tertinggi" (idxmax d_cnt) df_day;;
  extreme_block "Jumlah Peminjaman Terendah" (idxmin d_cnt) df_day;;
  charts_block df_day df_hour.

(** The whole script: the two tables are loaded on every run (l.10-15),
    then the page is drawn. *)
Definition run (raw : RawData) (v : Selection) : M unit :=
  data ← lift (load raw);
  page data v.

(** ** What a run shows, block by block *)

Definition sidebar_elems (mn mx : date) (v : Selection) : list Elem :=
  [EImage bike_icon 250; ECaption "Copyright vectips.com";
   EDateInput "Periode Peminjaman Sepeda" mn mx v].

(** A summary card as the page shows it. *)
Definition card_elems (c : Card) : list Elem :=
  [EMetric (card_label c) (MInt (card_sum c));
   ECaption ("Avg. " +:+ pretty (card_avg c) +:+ " users/day")].

Definition tab_elems (title : string) (t : ExtremeTab) : list Elem :=
  [ESubheader title; EText ("📅 " +:+ tab_date t); EText (tab_season t); EText (tab_weather t);
   EColumns 3; EMetric "Casual Users" (MInt (tab_casual t));
   EMetric "Registered Users" (MInt (tab_registered t)); EMetric "Total Users" (MInt (tab_cnt t));
   EColumns 3; EMetric "Suhu (°C)" (MFloat (tab_temp t));
   EMetric "Kelembapan (%)" (MFloat (tab_hum t));
   EMetric "Kecepatan Angin (km/h)" (MFloat (tab_windspeed t))].

Definition charts_elems (c : BarChart Label) (tc : BarChart string) (m : list (list CorrEntry))
    (p1 p2 p3 : LRPlot) : list Elem :=
  [EHeader "Rata-Rata Jumlah Peminjaman Harian"; ETabs ["Musim"; "Waktu"];
   ESubheader "Musim"; ESeasonChart c; ESubheader "Waktu"; ETimeChart tc;
   EHeader "Pengaruh Cuaca Terhadap Jumlah Pinjaman"; ESubheader "Heatmap Correlation";
   EHeatmap m; EExpander "Penjelasan"; ESubheader "Simple Linear Regression";
   ETabs ["Suhu"; "Kelembapan"; "Kecepatan Angin"];
   ELRPlot "Suhu" p1; ELRPlot "Kelembapan" p2; ELRPlot "Kecepatan Angin" p3;
   EExpander "Penjelasan"].

(** ** Lemmas on the monad *)

Lemma bind_emit {B} (e : Elem) (k : unit → M B) :
  (emit e ≫= k) = (e :: fst (k ()), snd (k ())).
Proof. unfold emit, mbind, M_bind. by destruct (k ()). Qed.

Lemma bind_lift_ok {A B} (a : A) (k : A → M B) : (lift (Ok a) ≫= k) = k a.
Proof. unfold lift, mbind, M_bind. by destruct (k a). Qed.

Lemma bind_lift_err {A B} (e : exn) (k : A → M B) : (lift (Err e) ≫= k) = ([], Err e).
Proof. done. Qed.

Lemma bind_ok {A B} (m : M A) (k : A → M B) a :
  snd m = Ok a → (m ≫= k) = (fst m ++ fst (k a), snd (k a)).
Proof. destruct m as [o [a'|e]]; intros [=]; subst. unfold mbind, M_bind. by destruct (k a). Qed.

Lemma bind_err {A B} (m : M A) (k : A → M B) e :
  snd m = Err e → (m ≫= k) = (fst m, Err e).
Proof. destruct m as [o [a'|e']]; intros [=]; subst. done. Qed.

(** Run a page: reduce the binds and rewrite with the hypotheses that give
    the blocks' results, as they surface. *)
Ltac run_page :=
  repeat (cbn [mbind M_bind emit lift fst snd unpack];
          match goal with H : ?x = _ |- context [?x] => rewrite H end);
  cbn [mbind M_bind emit lift fst snd unpack].

(** ** The blocks *)

Lemma sidebar_ok data v mn mx :
  date_bounds (df_day0 data) = Ok (mn, mx) → sidebar data v = (sidebar_elems mn mx v, unpack v).
Proof. intros H. unfold sidebar. run_page. by destruct (unpack v). Qed.

Lemma card_block_ok label f df :
  df ≠ [] →
  card_block label f df =
    (card_elems (mkCard label (np_col_sum f df)
       (round_half_even (inject_Z (col_sum f df) / inject_Z (Z.of_nat (length df))))), Ok ()).
Proof. intros Hne. unfold card_block. rewrite col_mean_nonempty by done. reflexivity. Qed.

Lemma card_block_empty label f : card_block label f [] = ([EMetric label (MInt 0)], Err nan_error).
Proof. reflexivity. Qed.

Lemma extreme_block_ok title pick df r :
  pick df = Ok r → extreme_block title pick df = (tab_elems title (extreme_tab r), Ok ()).
Proof. intros H. unfold extreme_block. run_page. reflexivity. Qed.

Lemma charts_block_ok df_day df_hour c p1 p2 p3 :
  plot_season_cnt (season_cnt df_day) = Ok c →
  lr_plot d_temp df_day = Ok p1 → lr_plot d_hum df_day = Ok p2 → lr_plot d_windspeed df_day = Ok p3 →
  charts_block df_day df_hour =
    (charts_elems c (plot_time_cnt (time_cnt df_hour)) (corr_matrix df_day) p1 p2 p3, Ok ()).
Proof. intros H1 H2 H3 H4. unfold charts_block. run_page. reflexivity. Qed.

(** A run that gets past the three filters evaluates block by block. *)
Lemma page_eval data s e mn mx dd dh o1 o2 o3 o4 o5 o6 :
  date_bounds (df_day0 data) = Ok (mn, mx) →
  f_date (df_day0 data) s e = Ok dd → f_date (df_hour0 data) s e = Ok dh →
  card_block "Casual Users" d_casual dd = (o1, Ok ()) →
  card_block "Registered Users" d_registered dd = (o2, Ok ()) →
  card_block "Total Users" d_cnt dd = (o3, Ok ()) →
  extreme_block "Jumlah Peminjaman Tertinggi" (idxmax d_cnt) dd = (o4, Ok ()) →
  extreme_block "Jumlah Peminjaman Terendah" (idxmin d_cnt) dd = (o5, Ok ()) →
  charts_block dd dh = (o6, Ok ()) →
  page data (Sel2 s e) =
    (sidebar_elems mn mx (Sel2 s e) ++ [EMarkdown title_html; EColumns 3] ++ o1 ++ o2 ++ o3 ++
     [EHeader "Tren Jumlah Peminjaman Sepeda"; ETrend (plot_bike_rental dd);
      ETabs ["Tertinggi"; "Terendah"]] ++ o4 ++ o5 ++ o6, Ok ()).
Proof.
  intros Hb. intros. unfold page. rewrite (sidebar_ok data _ mn mx Hb). run_page.
  reflexivity.
Qed.

(** A run whose first summary card fails stops there. *)
Lemma page_first_card_err data s e mn mx dd dh o1 err :
  date_bounds (df_day0 data) = Ok (mn, mx) →
  f_date (df_day0 data) s e = Ok dd → f_date (df_hour0 data) s e = Ok dh →
  card_block "Casual Users" d_casual dd = (o1, Err err) →
  page data (Sel2 s e) =
    (sidebar_elems mn mx (Sel2 s e) ++ [EMarkdown title_html; EColumns 3] ++ o1, Err err).
Proof.
  intros Hb. intros. unfold page. rewrite (sidebar_ok data _ mn mx Hb). run_page. reflexivity.
Qed.

(** ** The bounds of the date picker *)

Lemma foldl_date_min d l :
  foldl (λ m x, if date_leb m x then m else x) d l ∈ d :: l ∧
  Forall (date_le (foldl (λ m x, if date_leb m x then m else x) d l)) (d :: l).
Proof.
  revert d. induction l as [|x l IH]; intros d; simpl.
  - split; [left|]. repeat constructor. reflexivity.
  - destruct (date_leb d x) eqn:E; destruct (IH (if date_leb d x then d else x)) as [Hin Hall];
      rewrite E in Hin, Hall; (split; [set_solver|]);
      inversion Hall as [|? ? Hm Hrest]; subst; repeat constructor; try done.
    + by trans d.
    + destruct (total date_le d x) as [Hdx|Hxd]; [|by trans x].
      unfold date_le in Hdx. congruence.
Qed.

Lemma foldl_date_max d l :
  foldl (λ m x, if date_leb x m then m else x) d l ∈ d :: l ∧
  Forall (λ y, date_le y (foldl (λ m x, if date_leb x m then m else x) d l)) (d :: l).
Proof.
  revert d. induction l as [|x l IH]; intros d; simpl.
  - split; [left|]. repeat constructor. reflexivity.
  - destruct (date_leb x d) eqn:E; destruct (IH (if date_leb x d then d else x)) as [Hin Hall];
      rewrite E in Hin, Hall; (split; [set_solver|]);
      inversion Hall as [|? ? Hm Hrest]; subst; repeat constructor; try done.
    + by trans d.
    + destruct (total date_le x d) as [Hxd|Hdx]; [|by trans x].
      unfold date_le in Hxd. congruence.
Qed.

Lemma date_bounds_spec (df : list DayRow) mn mx :
  date_bounds df = Ok (mn, mx) →
  (∃ r, r ∈ df ∧ d_dteday r = mn) ∧ (∃ r, r ∈ df ∧ d_dteday r = mx) ∧
  Forall (in_range mn mx) df.
Proof.
  unfold date_bounds. destruct df as [|r df]; [discriminate|]. simpl. intros [= <- <-].
  destruct (foldl_date_min (d_dteday r) (map d_dteday df)) as [Hmin Hle].
  destruct (foldl_date_max (d_dteday r) (map d_dteday df)) as [Hmax Hge].
  change (d_dteday r :: map d_dteday df) with (map d_dteday (r :: df)) in *.
  apply list_elem_of_fmap in Hmin as (a & Ha & Ha'), Hmax as (b & Hb & Hb').
  split_and!; [by eauto|by eauto|]. apply Forall_forall. intros x Hx. split.
  - eapply Forall_forall in Hle; [exact Hle|]. by apply list_elem_of_fmap_2.
  - eapply Forall_forall in Hge; [exact Hge|]. by apply list_elem_of_fmap_2.
Qed.

Lemma date_bounds_nonempty (df : list DayRow) : df ≠ [] → ∃ mn mx, date_bounds df = Ok (mn, mx).
Proof. destruct df; [done|]. intros _. by do 2 eexists. Qed.

Lemma idxmin_nonempty {R} (f : R → Z) (df : list R) : df ≠ [] → ∃ r, idxmin f df = Ok r.
Proof. destruct df; [done|]. intros _. by eexists. Qed.

Lemma idxmax_nonempty {R} (f : R → Z) (df : list R) : df ≠ [] → ∃ r, idxmax f df = Ok r.
Proof. destruct df; [done|]. intros _. by eexists. Qed.

(** On a non-empty selection every block succeeds. *)
Lemma page_nonempty_ok data s e mn mx :
  Forall (λ r, DayRow_wf r = true) (df_day0 data) →
  date_bounds (df_day0 data) = Ok (mn, mx) → valid_date s = true → valid_date e = true →
  filter (in_range s e) (df_day0 data) ≠ [] →
  ∃ o, page data (Sel2 s e) = (o, Ok ()).
Proof.
  intros Hwf Hb Hs He Hne. set (dd := filter (in_range s e) (df_day0 data)) in *.
  assert (Hwf' : Forall (λ r, DayRow_wf r = true) dd) by by apply Forall_filter_sub.
  destruct (idxmax_nonempty d_cnt dd Hne) as [rmax Hmax].
  destruct (idxmin_nonempty d_cnt dd Hne) as [rmin Hmin].
  destruct (plot_season_cnt_ok dd Hwf') as [c Hc].
  destruct (lr_plot_ok d_temp dd Hne) as [p1 H1].
  destruct (lr_plot_ok d_hum dd Hne) as [p2 H2].
  destruct (lr_plot_ok d_windspeed dd Hne) as [p3 H3].
  eexists. eapply page_eval; [exact Hb|by apply f_date_valid|by apply f_date_valid| | | | | |].
  1-3: by apply card_block_ok.
  - by apply extreme_block_ok.
  - by apply extreme_block_ok.
  - by apply charts_block_ok.
Qed.

(** ** The page *)

(** C32. On a well-formed, non-empty dataset and a selection of two valid
    dates, the whole page is drawn without an exception exactly when some
    day lies in the selected range. *)
Theorem page_complete (data : Data) (s e : date) :
  Forall (λ r, DayRow_wf r = true) (df_day0 data) → df_day0 data ≠ [] →
  valid_date s = true → valid_date e = true →
  snd (page data (Sel2 s e)) = Ok () ↔ filter (in_range s e) (df_day0 data) ≠ [].
Proof.
  intros Hwf Hne Hs He. destruct (date_bounds_nonempty _ Hne) as (mn & mx & Hb).
  split.
  - intros Hok Hnil.
    rewrite (page_first_card_err data s e mn mx [] (filter (in_range s e) (df_hour0 data))
               [EMetric "Casual Users" (MInt 0)] nan_error) in Hok; [done|done| |by apply f_date_valid|done].
    rewrite <- Hnil. by apply f_date_valid.
  - intros Hdd. destruct (page_nonempty_ok data s e mn mx Hwf Hb Hs He Hdd) as [o ->]. done.
Qed.

(** C33. When no day lies in the selected range, the page shows the
    sidebar, the title and the "Casual Users" metric (a sum of 0), and
    then stops with the [ValueError] of [round] on the NaN mean. *)
Theorem page_empty_range (data : Data) (s e mn mx : date) :
  date_bounds (df_day0 data) = Ok (mn, mx) → valid_date s = true → valid_date e = true →
  filter (in_range s e) (df_day0 data) = [] →
  page data (Sel2 s e) =
    (sidebar_elems mn mx (Sel2 s e) ++
       [EMarkdown title_html; EColumns 3; EMetric "Casual Users" (MInt 0)], Err nan_error).
Proof.
  intros Hb Hs He Hnil. erewrite page_first_card_err; [reflexivity|exact Hb| |by apply f_date_valid|].
  - rewrite f_date_valid by done. by rewrite Hnil.
  - apply card_block_empty.
Qed.

(** C34. While the user has picked only the first date of the range, the
    run stops after the sidebar with the [ValueError] of the tuple
    unpacking [start_date, end_date = ...]. *)
Theorem page_partial_selection (data : Data) (d mn mx : date) :
  date_bounds (df_day0 data) = Ok (mn, mx) →
  page data (Sel1 d) = (sidebar_elems mn mx (Sel1 d), Err unpack_error).
Proof. intros Hb. unfold page. rewrite (sidebar_ok data _ mn mx Hb). reflexivity. Qed.

(** ** The first run of a session *)

(** The default range [[min_date, max_date]] is made of two valid dates
    between which every day of the table lies. *)
Lemma bounds_valid (df : list DayRow) mn mx :
  Forall (λ r, DayRow_wf r = true) df → date_bounds df = Ok (mn, mx) →
  valid_date mn = true ∧ valid_date mx = true ∧ Forall (in_range mn mx) df.
Proof.
  intros Hwf Hb. destruct (date_bounds_spec df mn mx Hb) as ((a & Ha & <-) & (b & Hb' & <-) & Hall).
  rewrite Forall_forall in Hwf. split_and!; [by apply DayRow_wf_valid, Hwf..|done].
Qed.

(** C35. The date picker's default value [[min_date, max_date]] (l.144-151)
    covers the whole day table: on a well-formed, non-empty dataset its
    bounds are the first and the last date of the table, the first run of
    a session filters no day out, and its page is drawn without an
    exception. *)
Theorem initial_page_full (data : Data) :
  Forall (λ r, DayRow_wf r = true) (df_day0 data) → df_day0 data ≠ [] →
  ∃ mn mx, date_bounds (df_day0 data) = Ok (mn, mx) ∧
    (∃ r, r ∈ df_day0 data ∧ d_dteday r = mn) ∧ (∃ r, r ∈ df_day0 data ∧ d_dteday r = mx) ∧
    f_date (df_day0 data) mn mx = Ok (df_day0 data) ∧ snd (page data (Sel2 mn mx)) = Ok ().
Proof.
  intros Hwf Hne. destruct (date_bounds_nonempty _ Hne) as (mn & mx & Hb).
  destruct (bounds_valid _ _ _ Hwf Hb) as (Hs & He & Hall).
  destruct (date_bounds_spec _ _ _ Hb) as (Hmn & Hmx & _).
  assert (Hf : f_date (df_day0 data) mn mx = Ok (df_day0 data))
    by (rewrite f_date_valid by done; by rewrite filter_Forall_id).
  exists mn, mx. split_and!; [done..|].
  destruct (page_nonempty_ok data mn mx mn mx Hwf Hb Hs He) as [o ->]; [|done].
  by rewrite filter_Forall_id.
Qed.

(** ** Loading and the page *)

(** C36. Loading composes with the page: a run of the whole script on CSV
    files that write each date as [str(date)] draws exactly the page of the
    dataset they were written from, for every value of the date picker,
    when the dates are valid and inside pandas' range. *)
Theorem run_csv_roundtrip (day : list DayRow) (hour : list HourRow) (v : Selection) :
  Forall (λ r, valid_date (d_dteday r) = true ∧ ns_in_bounds (datetime64_ns (d_dteday r)) = true) day →
  Forall (λ r, valid_date (h_dteday r) = true ∧ ns_in_bounds (datetime64_ns (h_dteday r)) = true) hour →
  run (mkRawData (map day_to_raw day) (map hour_to_raw hour)) v = page (mkData day hour) v.
Proof. intros Hd Hh. unfold run. rewrite (load_roundtrip day hour Hd Hh). apply (bind_lift_ok _ (λ d, page d v)). Qed.

(** ** Witnesses on the spec's three days (section 8) *)

Definition spec_data : Data :=
  mkData spec_days
    [mkHour (mkDate 2021 1 1) "Morning" 4; mkHour (mkDate 2021 1 1) "Night" 2;
     mkHour (mkDate 2021 1 2) "Morning" 6].

Definition jan (d : Z) : date := mkDate 2021 1 d.

Lemma page_complete_witness :
  snd (page spec_data (Sel2 (jan 2) (jan 3))) = Ok () ↔
  filter (in_range (jan 2) (jan 3)) (df_day0 spec_data) ≠ [].
Proof. apply page_complete; [apply spec_days_wf|discriminate|reflexivity|reflexivity]. Defined.

Lemma page_empty_range_witness :
  page spec_data (Sel2 (jan 5) (jan 6)) =
    (sidebar_elems (jan 1) (jan 3) (Sel2 (jan 5) (jan 6)) ++
       [EMarkdown title_html; EColumns 3; EMetric "Casual Users" (MInt 0)], Err nan_error).
Proof. apply page_empty_range; reflexivity. Defined.

Lemma page_partial_selection_witness :
  page spec_data (Sel1 (jan 2)) = (sidebar_elems (jan 1) (jan 3) (Sel1 (jan 2)), Err unpack_error).
Proof. apply page_partial_selection. reflexivity. Defined.

Lemma initial_page_full_witness :
  ∃ mn mx, date_bounds (df_day0 spec_data) = Ok (mn, mx) ∧
    (∃ r, r ∈ df_day0 spec_data ∧ d_dteday r = mn) ∧ (∃ r, r ∈ df_day0 spec_data ∧ d_dteday r = mx) ∧
    f_date (df_day0 spec_data) mn mx = Ok (df_day0 spec_data) ∧
    snd (page spec_data (Sel2 mn mx)) = Ok ().
Proof. apply initial_page_full; [apply spec_days_wf|discriminate]. Defined.

Lemma run_csv_roundtrip_witness :
  run (mkRawData (map day_to_raw spec_days) (map hour_to_raw (df_hour0 spec_data))) (Sel2 (jan 1) (jan 2)) =
    page (mkData spec_days (df_hour0 spec_data)) (Sel2 (jan 1) (jan 2)).
Proof. apply run_csv_roundtrip; repeat constructor. Defined.

End Dashboard.
